(** * Order classification and consolidation (FiltroArgentina.py, filtroAndreani.py)

    A shallow embedding of the two [procesar_archivo] functions, of the
    statistics total of [Ventana_de_estado.actualizar_estadisticas], of the
    two calls of [Ventana_de_estado.boton_cargar_archivos] and of the grids
    of [Cargar_Drive.cargar_excel], with the pandas and Python primitives
    they call.

    Conventions of the embedding.
    - A Python string is the list of its Unicode code points ([pystr]).
    - A cell of a table is a missing value ([NaN], the float nan pandas stores
      for an empty CSV field), a string or an integer.  Floats other than nan
      and booleans are not represented.
    - A DataFrame is its list of column names and its rows in positional
      order; a row is a total function from column names to cells, and only
      the names listed in [columns] exist for the program ([row_getitem]
      raises [KeyError] on the others).  The index labels of the table are
      taken to be unique, as [pd.concat(..., ignore_index=True)] followed by
      [sort_values] leaves them in [boton_cargar_archivos], so the label that
      [iterrows] yields designates one position and [.loc[index, col] = v]
      writes one row.
    - pandas is read at version 2.x: [Series.str.replace] is literal
      ([regex=False]), [groupby(...).apply] visits the groups in sorted key
      order, drops the rows whose key is missing and hands back the rows
      group after group.
    - Date parsing and the clock belong to pandas and to the system: a
      timestamp is a value of the abstract type [Timestamp] of the runtime,
      which also says what [pd.to_datetime] makes of one value and of a
      column, how a timestamp is formatted, and what time it is.  What the
      program does with them is modelled: the search of the first date of
      the file, [strftime] on what was found (ValueError on NaT), and
      [.dt.strftime] on the parsed column (AttributeError when pandas did
      not make a datetime column of it, as with texts of different UTC
      offsets).
    - [Cargar_Drive.cargar_excel] is modelled up to the two grids of texts
      it uploads; the calls to Google Sheets are not. *)

From Stdlib Require Import ZArith NArith String Ascii DecimalString.
From stdpp Require Import base list strings numbers.

(** ** Python strings *)

Abbreviation pystr := (list N).

(** An ASCII literal as a Python string. *)
Definition u (s : string) : pystr := map N_of_ascii (list_ascii_of_string s).

(** [s.startswith(p)] *)
Fixpoint startswith (p s : pystr) : bool :=
  match p, s with
  | [], _ => true
  | _ :: _, [] => false
  | a :: p', b :: s' => (a =? b)%N && startswith p' s'
  end.

(** [s.startswith((p1, p2, ...))] *)
Definition startswith_any (ps : list pystr) (s : pystr) : bool :=
  existsb (fun p => startswith p s) ps.

(** [s.replace(old, "")] scanning left to right; [skip] counts the characters
    of the occurrence being removed that are still to be dropped. *)
Fixpoint str_replace_from (old : pystr) (skip : nat) (s : pystr) : pystr :=
  match s with
  | [] => []
  | c :: s' =>
      match skip with
      | S k => str_replace_from old k s'
      | O =>
          if startswith old s
          then str_replace_from old (length old - 1) s'
          else c :: str_replace_from old 0 s'
      end
  end.

Definition str_replace (old s : pystr) : pystr :=
  match old with
  | [] => s
  | _ :: _ => str_replace_from old 0 s
  end.

(** [str.isspace] on one code point: the ASCII controls 9-13 and 28-31, the
    space, and the Unicode white space above ASCII. *)
Definition isspace (c : N) : bool :=
  ((9 <=? c) && (c <=? 13) || (28 <=? c) && (c <=? 32)
   || (c =? 133) || (c =? 160) || (c =? 5760)
   || (8192 <=? c) && (c <=? 8202)
   || (c =? 8232) || (c =? 8233) || (c =? 8239) || (c =? 8287)
   || (c =? 12288))%N.

Fixpoint lstrip (s : pystr) : pystr :=
  match s with
  | [] => []
  | c :: s' => if isspace c then lstrip s' else s
  end.

(** [s.strip()] *)
Definition strip (s : pystr) : pystr := rev (lstrip (rev (lstrip s))).

(** Truth value of a string in a condition: non-empty. *)
Definition truthy (s : pystr) : bool :=
  match s with [] => false | _ :: _ => true end.

(** [str(z)] for an integer. *)
Definition str_of_int (z : Z) : pystr := u (NilZero.string_of_int (Z.to_int z)).

(** ** Cells *)

Inductive cell :=
| NaN
| Str (s : pystr)
| Int (z : Z).

#[global] Instance cell_eq_dec : EqDecision cell.
Proof. solve_decision. Defined.

(** [str(x)] *)
Definition py_str (x : cell) : pystr :=
  match x with
  | NaN => u "nan"
  | Str s => s
  | Int z => str_of_int z
  end.

(** [isinstance(x, str)] *)
Definition isinstance_str (x : cell) : bool :=
  match x with Str _ => true | _ => false end.

(** [pd.notnull(x)] *)
Definition notnull (x : cell) : bool :=
  match x with NaN => false | _ => true end.

(** [x == 'literal'] *)
Definition eq_lit (x : cell) (s : pystr) : bool := bool_decide (x = Str s).

(** ** Exceptions *)

Inductive exn :=
| KeyError (column : string)
| AttributeError
| ValueError.

Inductive result (A : Type) :=
| Ok (a : A)
| Raise (e : exn).
Arguments Ok {A} a.
Arguments Raise {A} e.

Definition bind {A B} (m : result A) (k : A -> result B) : result B :=
  match m with
  | Ok a => k a
  | Raise e => Raise e
  end.

Notation "'let*' x := m 'in' k" := (bind m (fun x => k))
  (at level 10, x pattern, m at level 100, k at level 200).

(** ** The runtime *)

(** What the Python runtime, pandas and the system decide outside this
    repository:
    - which code points above ASCII [str.isnumeric] accepts (the Unicode
      numeric table);
    - the timestamps, and [pd.to_datetime(x, errors='raise')] on one value
      that is not missing: an exception, NaT ([Ok None]) or a timestamp;
    - [pd.to_datetime(col, errors='coerce')] on a column that has a value:
      an exception, or whether the result is a datetime column and, if it
      is, the timestamp or NaT ([None]) of each value of the column; no
      datetime column ([Ok None]) is what pandas 2.x gives for texts with
      different UTC offsets, a column of Python objects;
    - [t.strftime(fmt)] and [datetime.now()]. *)
Class Runtime := {
  numeric_above_ascii : N -> bool;
  Timestamp : Type;
  to_datetime : cell -> result (option Timestamp);
  to_datetime_Series : list cell -> result (option (cell -> option Timestamp));
  strftime : Timestamp -> pystr -> pystr;
  datetime_now : Timestamp
}.

Section isnumeric.
Context {RT : Runtime}.

Definition isnumeric_char (c : N) : bool :=
  if (c <? 128)%N then (48 <=? c)%N && (c <=? 57)%N else numeric_above_ascii c.

(** [s.isnumeric()]: at least one character, all of them numeric. *)
Definition isnumeric (s : pystr) : bool :=
  truthy s && forallb isnumeric_char s.

End isnumeric.

(** ** Tables *)

(** One row, as [iterrows] yields it. *)
Definition row := string -> cell.

Record DataFrame := {
  columns : list string;
  rows : list row
}.

Definition has_column (cols : list string) (c : string) : bool :=
  existsb (String.eqb c) cols.

(** [row[c]] for a row of a table whose columns are [cols]. *)
Definition row_getitem (cols : list string) (r : row) (c : string) : result cell :=
  if has_column cols c then Ok (r c) else Raise (KeyError c).

(** The row [r] with [v] under [c]. *)
Definition row_set (c : string) (v : cell) (r : row) : row :=
  fun c' => if String.eqb c' c then v else r c'.

(** [df[[c1, c2, ...]].copy()] *)
Definition getitem_columns (df : DataFrame) (cs : list string) : result DataFrame :=
  match find (fun c => negb (has_column (columns df) c)) cs with
  | Some c => Raise (KeyError c)
  | None => Ok {| columns := cs; rows := rows df |}
  end.

(** [df[c]], a column. *)
Definition getitem (df : DataFrame) (c : string) : result (list cell) :=
  if has_column (columns df) c
  then Ok (map (fun r => r c) (rows df))
  else Raise (KeyError c).

(** [df[c] = values], for a column computed from [df] itself (same index):
    an existing column is overwritten in place, a new one goes last. *)
Definition setitem (df : DataFrame) (c : string) (values : list cell) : DataFrame :=
  {| columns := if has_column (columns df) c then columns df else columns df ++ [c];
     rows := zip_with (row_set c) values (rows df) |}.

(** [df.insert(loc, c, values)] *)
Definition insert (df : DataFrame) (loc : nat) (c : string) (values : list cell)
  : result DataFrame :=
  if has_column (columns df) c then Raise ValueError
  else if negb (loc <=? length (columns df)) then Raise ValueError
  else if negb (length values =? length (rows df)) then Raise ValueError
  else Ok {| columns := take loc (columns df) ++ c :: drop loc (columns df);
             rows := zip_with (row_set c) values (rows df) |}.

(** [col.astype(str)] *)
Definition astype_str (col : list cell) : list cell :=
  map (fun x => Str (py_str x)) col.

(** [col.str.replace(old, "")]: the string method on the strings of the
    column, missing on the other cells. *)
Definition Series_str_replace (old : pystr) (col : list cell) : list cell :=
  map (fun x => match x with Str s => Str (str_replace old s) | _ => NaN end) col.

(** [col.fillna("")] *)
Definition fillna_empty (col : list cell) : list cell :=
  map (fun x => match x with NaN => Str [] | _ => x end) col.

(** [df.loc[index, c] = v] for each assignment of a loop body. *)
Definition loc_set (index : nat) (asg : list (string * cell)) (w : list row) : list row :=
  foldl (fun w cv => alter (row_set cv.1 cv.2) index w) w asg.

(** [for index, row in src.iterrows(): body], where the body reads [row] and
    assigns cells of the row [index] of another table [w] with the same
    index; [body] gives the assignments in the order they are made. *)
Fixpoint iterrows_from (body : row -> result (list (string * cell)))
    (index : nat) (src : list row) (w : list row) : result (list row) :=
  match src with
  | [] => Ok w
  | r :: src' =>
      let* asg := body r in
      iterrows_from body (S index) src' (loc_set index asg w)
  end.

Definition iterrows (src : DataFrame)
    (body : list string -> row -> result (list (string * cell)))
    (w : DataFrame) : result DataFrame :=
  let* rs := iterrows_from (body (columns src)) 0 (rows src) (rows w) in
  Ok {| columns := columns w; rows := rs |}.

(** *** Dates *)

Section fechas.
Context {RT : Runtime}.

(** [pd.to_datetime(col, errors='coerce')]: the timestamps of the column,
    [None] for NaT, or a column that is not a datetime column ([Ok None]),
    or an exception.  A column without any value is a column of NaT, and a
    missing value is NaT in every datetime column; the rest is the
    runtime's. *)
Definition to_datetime_coerce (col : list cell)
  : result (option (list (option Timestamp))) :=
  if forallb (fun x => negb (notnull x)) col then Ok (Some (map (fun _ => None) col))
  else
    match to_datetime_Series col with
    | Ok (Some parse) =>
        Ok (Some (map (fun x => if notnull x then parse x else None) col))
    | Ok None => Ok None
    | Raise e => Raise e
    end.

(** [s.dt.strftime(fmt)]: the text of each timestamp, a missing value for
    NaT; only a datetime column has [.dt]. *)
Definition dt_strftime (s : option (list (option Timestamp))) (fmt : pystr)
  : result (list cell) :=
  match s with
  | Some l =>
      Ok (map (fun o => match o with
                        | Some t => Str (strftime t fmt)
                        | None => NaN
                        end) l)
  | None => Raise AttributeError
  end.

(** The loop that looks for the date of the file, the same in both
    processors: the first line whose 'Created at' is there, is not missing
    and is read by [pd.to_datetime] without an exception ends the loop;
    every exception, the KeyError of a missing column too, skips the line.
    [None] is Python's [None], [Some None] is NaT. *)
Fixpoint buscar_fecha (cols : list string) (filas : list row)
  : option (option Timestamp) :=
  match filas with
  | [] => None
  | row :: filas' =>
      match row_getitem cols row "Created at" with
      | Raise _ => buscar_fecha cols filas'
      | Ok fecha_candidata =>
          if notnull fecha_candidata then
            match to_datetime fecha_candidata with
            | Ok fecha_arch_datetime => Some fecha_arch_datetime
            | Raise _ => buscar_fecha cols filas'
            end
          else buscar_fecha cols filas'
      end
  end.

(** [fecha_arch_datetime] after the loop and the fallback on the clock: a
    timestamp, or NaT. *)
Definition fecha_arch_datetime (archcsv : DataFrame) : option Timestamp :=
  match buscar_fecha (columns archcsv) (rows archcsv) with
  | None => Some datetime_now
  | Some fecha => fecha
  end.

(** [fecha_arch_datetime.strftime(fmt)]: NaT has no [strftime]. *)
Definition fecha_strftime (fecha : option Timestamp) (fmt : pystr) : result pystr :=
  match fecha with
  | Some t => Ok (strftime t fmt)
  | None => Raise ValueError
  end.

End fechas.

(** *** groupby *)

(** Order of the group keys ([sort=True]): numbers before strings, numbers
    by value, strings by code points. *)
Fixpoint pystr_leb (a b : pystr) : bool :=
  match a, b with
  | [], _ => true
  | _ :: _, [] => false
  | x :: a', y :: b' => (x <? y)%N || (x =? y)%N && pystr_leb a' b'
  end.

Definition key_leb (a b : cell) : bool :=
  match a, b with
  | Int x, Int y => (x <=? y)%Z
  | Int _, _ => true
  | Str _, Int _ => false
  | Str s, Str t => pystr_leb s t
  | Str _, NaN => true
  | NaN, NaN => true
  | NaN, _ => false
  end.

Fixpoint insert_key (k : cell) (ks : list cell) : list cell :=
  match ks with
  | [] => [k]
  | k' :: ks' => if key_leb k k' then k :: ks else k' :: insert_key k ks'
  end.

Definition sort_keys (ks : list cell) : list cell := foldr insert_key [] ks.

(** The keys of [groupby(by)]: the distinct values of the column that are
    not missing ([dropna=True]), sorted. *)
Definition group_keys (by_ : string) (w : list row) : list cell :=
  sort_keys (remove_dups (filter (fun k => notnull k = true) (map (fun r => r by_) w))).

(** [df.groupby(by).apply(f).reset_index(drop=True)] for an [f] that returns
    the rows of its group. *)
Definition groupby_apply (by_ : string) (f : list row -> list row) (df : DataFrame)
  : DataFrame :=
  {| columns := columns df;
     rows := flat_map (fun k => f (filter (fun r => r by_ = k) (rows df)))
               (group_keys by_ (rows df)) |}.

(** [len(df[df[c] == v][by].unique())] for a string [v]. *)
Definition count_unique (df : DataFrame) (c : string) (v : pystr) (by_ : string) : nat :=
  length (remove_dups (map (fun r => r by_)
                         (filter (fun r => r c = Str v) (rows df)))).

(** A string method called on a cell: only a string has it. *)
Definition as_str (x : cell) : result pystr :=
  match x with
  | Str s => Ok s
  | _ => Raise AttributeError
  end.

(** [a and b], the right operand evaluated only when the left one holds. *)
Definition and_then (a : bool) (b : result bool) : result bool :=
  if a then b else Ok false.

(** ** The literals of the two processors *)

Definition paid : pystr := u "paid".
Definition expired : pystr := u "expired".
Definition refunded : pystr := u "refunded".
Definition pending : pystr := u "pending".

Definition REVISAR_DNI : pystr := u "REVISAR DNI".
Definition VENCIDO : pystr := u "VENCIDO".
Definition REEMBOLSADO : pystr := u "REEMBOLSADO".
Definition FALTA_PAGAR : pystr := u "FALTA PAGAR".
Definition CABA : pystr := u "CABA".
Definition PRIORITARIO : pystr := u "PRIORITARIO".
Definition CABA_PRIORITARIO : pystr := u "CABA PRIORITARIO".
Definition REVISAR_NOTAS : pystr := u "REVISAR NOTAS EN SHOPIFY".
Definition TIERRA_DEL_FUEGO_STATUS : pystr := u "TIERRA DEL FUEGO".
Definition Tierra_del_Fuego : pystr := u "Tierra del Fuego".

(** "Envio Prioritario + Garantia extendida", with its two accented i
    (code point 237). *)
Definition Envio_Prioritario : pystr :=
  u "Env" ++ [237%N] ++ u "o Prioritario + Garant" ++ [237%N] ++ u "a extendida".

(** The postal prefixes of CABA, in the order of the source tuple. *)
Definition prefijos_caba : list pystr :=
  map u ["C14"; "C11"; "C10"; "C12"; "C15"; "C13";
         "'15"; "'14"; "'13"; "'12"; "'11"; "'10";
         "15"; "14"; "13"; "12"; "11"; "10"]%string.

(** ** Ventana_de_estado.py *)

Module Ventana_de_estado.

(** What the statistics panel is given and the total it computes. *)
Record panel := {
  caba : nat;
  falta_pagar : nat;
  vencido : nat;
  reembolsado : nat;
  notas : nat;
  sin_clasificar : nat;
  revisar_dni : nat;
  total : nat
}.

Definition actualizar_estadisticas
    (caba falta_pagar vencido reembolsado notas sin_clasificar revisar_dni : nat)
  : panel :=
  let total := caba + falta_pagar + vencido + reembolsado + notas
               + sin_clasificar + revisar_dni in
  {| caba := caba; falta_pagar := falta_pagar; vencido := vencido;
     reembolsado := reembolsado; notas := notas;
     sin_clasificar := sin_clasificar; revisar_dni := revisar_dni;
     total := total |}.

End Ventana_de_estado.

(** ** FiltroArgentina.py *)

Module FiltroArgentina.
Section procesar.
Context {RT : Runtime}.

(** BUCLE 1: financial state and check of the id field. *)
Definition bucle1 (cols : list string) (row : row)
  : result (list (string * cell)) :=
  let* sc := row_getitem cols row "Shipping Company" in
  let* c :=
    and_then (isinstance_str sc)
      (let* fs := row_getitem cols row "Financial Status" in Ok (eq_lit fs paid)) in
  if c then
    let* sc := row_getitem cols row "Shipping Company" in
    let* dni := as_str sc in
    if startswith (u "DNI ") dni then Ok []
    else
      let* sc := row_getitem cols row "Shipping Company" in
      let* dni := as_str sc in
      if negb (isnumeric dni) then Ok [("Status"%string, Str REVISAR_DNI)]
      else Ok []
  else
    let* fs := row_getitem cols row "Financial Status" in
    if eq_lit fs expired then Ok [("Status"%string, Str VENCIDO)]
    else
      let* fs := row_getitem cols row "Financial Status" in
      if eq_lit fs refunded then Ok [("Status"%string, Str REEMBOLSADO)]
      else
        let* fs := row_getitem cols row "Financial Status" in
        if eq_lit fs pending then Ok [("Status"%string, Str FALTA_PAGAR)]
        else Ok [].

(** BUCLE 2: CABA by postal prefix, else priority shipping. *)
Definition bucle2 (cols : list string) (row : row)
  : result (list (string * cell)) :=
  let* fs := row_getitem cols row "Financial Status" in
  let* c :=
    and_then (eq_lit fs paid)
      (let* zip := row_getitem cols row "Shipping Zip" in
       Ok (startswith_any prefijos_caba (py_str zip))) in
  if c then Ok [("Status"%string, Str CABA)]
  else
    let* fs := row_getitem cols row "Financial Status" in
    let* c :=
      and_then (eq_lit fs paid)
        (let* m := row_getitem cols row "Shipping Method" in
         Ok (eq_lit m Envio_Prioritario)) in
    if c then Ok [("Status"%string, Str PRIORITARIO)] else Ok [].

(** BUCLE 3: CABA and priority shipping together. *)
Definition bucle3 (cols : list string) (row : row)
  : result (list (string * cell)) :=
  let* fs := row_getitem cols row "Financial Status" in
  let* c :=
    and_then (eq_lit fs paid)
      (let* m := row_getitem cols row "Shipping Method" in
       and_then (eq_lit m Envio_Prioritario)
         (let* zip := row_getitem cols row "Shipping Zip" in
          Ok (startswith_any prefijos_caba (py_str zip)))) in
  if c then Ok [("Status"%string, Str CABA_PRIORITARIO)] else Ok [].

(** BUCLE 4: notes, else Tierra del Fuego. *)
Definition bucle4 (cols : list string) (row : row)
  : result (list (string * cell)) :=
  let* note := row_getitem cols row "Notes" in
  let* fs := row_getitem cols row "Financial Status" in
  let* c :=
    and_then (eq_lit fs paid)
      (and_then (notnull note)
         (let* s := as_str note in Ok (truthy (strip s)))) in
  if c then Ok [("Status"%string, Str REVISAR_NOTAS)]
  else
    let* fs := row_getitem cols row "Financial Status" in
    let* c :=
      and_then (eq_lit fs paid)
        (let* p := row_getitem cols row "Shipping Province Name" in
         Ok (eq_lit p Tierra_del_Fuego)) in
    if c then Ok [("Status"%string, Str TIERRA_DEL_FUEGO_STATUS)] else Ok [].

(** PASO 1 to PASO 8: the working table [columnas_a_copiar] as the four
    loops leave it, the source table [archcsv1] as the function leaves it to
    its caller (its id column rewritten in place), and the date of the
    file. *)
Definition pasos (archcsv1 : DataFrame) : result (DataFrame * DataFrame * pystr) :=
  let* columnas_a_copiar :=
    getitem_columns archcsv1
      ["Created at"; "Name"; "Shipping Name"; "Lineitem quantity";
       "Lineitem name"; "Total"; "Shipping Province Name"; "Shipping Street";
       "Shipping Zip"; "Shipping Phone"; "Email"; "Lineitem sku"]%string in
  let fecha_arch_datetime := fecha_arch_datetime archcsv1 in
  let* Fecha := fecha_strftime fecha_arch_datetime (u "%d-%m-%Y") in
  let* created := getitem archcsv1 "Created at" in
  let* created := to_datetime_coerce created in
  let* created := dt_strftime created (u "%d/%m/%Y") in
  let columnas_a_copiar := setitem columnas_a_copiar "Created at" created in
  let num_filas := length (rows archcsv1) in
  let nueva_columna1 := replicate num_filas (Str []) in
  let nueva_columna2 := replicate num_filas (Str []) in
  let nueva_columna3 := replicate num_filas (Str []) in
  let nueva_columna4 := replicate num_filas (Str []) in
  let* columnas_a_copiar := insert columnas_a_copiar 9 "Status" nueva_columna1 in
  let* columnas_a_copiar := insert columnas_a_copiar 10 "NC2" nueva_columna2 in
  let* columnas_a_copiar := insert columnas_a_copiar 11 "NC3" nueva_columna3 in
  let* columnas_a_copiar := insert columnas_a_copiar 12 "NC4" nueva_columna4 in
  let* sc := getitem archcsv1 "Shipping Company" in
  let archcsv1 :=
    setitem archcsv1 "Shipping Company"
      (Series_str_replace (u ".") (astype_str sc)) in
  let* sc := getitem archcsv1 "Shipping Company" in
  let archcsv1 :=
    setitem archcsv1 "Shipping Company" (Series_str_replace (u " ") sc) in
  let* columnas_a_copiar := iterrows archcsv1 bucle1 columnas_a_copiar in
  let* columnas_a_copiar := iterrows archcsv1 bucle2 columnas_a_copiar in
  let* columnas_a_copiar := iterrows archcsv1 bucle3 columnas_a_copiar in
  let* columnas_a_copiar := iterrows archcsv1 bucle4 columnas_a_copiar in
  Ok (columnas_a_copiar, archcsv1, Fecha).

(** The two tables of [pasos]. *)
Definition clasificar (archcsv1 : DataFrame) : result (DataFrame * DataFrame) :=
  let* p := pasos archcsv1 in
  Ok (p.1.1, p.1.2).

(** The status of the first line for all the lines of the order. *)
Definition assign_status (group : list row) : list row :=
  match group with
  | [] => []
  | first :: _ => map (row_set "Status" (first "Status")) group
  end.

(** PASO 9: one status per order. *)
Definition consolidar (columnas_a_copiar : DataFrame) : DataFrame :=
  groupby_apply "Name" assign_status columnas_a_copiar.

(** PASO 10: the phone column as text, every ".0" removed. *)
Definition finalizar (ArchivoFinal : DataFrame) : DataFrame :=
  setitem ArchivoFinal "Shipping Phone"
    (Series_str_replace (u ".0")
       (astype_str (map (fun r => r "Shipping Phone"%string) (rows ArchivoFinal)))).

(** PASO 11: orders per category, handed to the statistics panel. *)
Definition estadisticas (ArchivoFinal : DataFrame) : Ventana_de_estado.panel :=
  let caba_count := count_unique ArchivoFinal "Status" CABA "Name" in
  let falta_pagar_count := count_unique ArchivoFinal "Status" FALTA_PAGAR "Name" in
  let vencido_count := count_unique ArchivoFinal "Status" VENCIDO "Name" in
  let reembolsado_count := count_unique ArchivoFinal "Status" REEMBOLSADO "Name" in
  let notas_count := count_unique ArchivoFinal "Status" REVISAR_NOTAS "Name" in
  let revisar_dni_count := count_unique ArchivoFinal "Status" REVISAR_DNI "Name" in
  let sin_clasificar_count := count_unique ArchivoFinal "Status" [] "Name" in
  Ventana_de_estado.actualizar_estadisticas
    caba_count falta_pagar_count vencido_count reembolsado_count
    notas_count sin_clasificar_count revisar_dni_count.

(** What a call leaves behind: the table and the date returned, the source
    table as mutated, and the statistics shown. *)
Record salida := {
  ArchivoFinal : DataFrame;
  Fecha : pystr;
  archcsv1 : DataFrame;
  panel : Ventana_de_estado.panel
}.

Definition procesar_archivo (archcsv1 : DataFrame) : result salida :=
  let* p := pasos archcsv1 in
  let columnas_a_copiar := p.1.1 in
  let archcsv1 := p.1.2 in
  let Fecha := p.2 in
  let columnas_a_copiar := consolidar columnas_a_copiar in
  let ArchivoFinal := finalizar columnas_a_copiar in
  Ok {| ArchivoFinal := ArchivoFinal;
        Fecha := Fecha;
        archcsv1 := archcsv1;
        panel := estadisticas ArchivoFinal |}.

End procesar.
End FiltroArgentina.

(** ** filtroAndreani.py *)

Module filtroAndreani.
Section procesar.
Context {RT : Runtime}.

(** BUCLE 1 *)
Definition bucle1 (cols : list string) (row : row)
  : result (list (string * cell)) :=
  let* sc := row_getitem cols row "Shipping Company" in
  let* c :=
    and_then (isinstance_str sc)
      (let* fs := row_getitem cols row "Financial Status" in Ok (eq_lit fs paid)) in
  if c then
    let* sc := row_getitem cols row "Shipping Company" in
    let* dni := as_str sc in
    if startswith (u "DNI ") dni then Ok []
    else
      let* sc := row_getitem cols row "Shipping Company" in
      let* dni := as_str sc in
      if negb (isnumeric dni) then Ok [("Status"%string, Str REVISAR_DNI)]
      else Ok []
  else
    let* fs := row_getitem cols row "Financial Status" in
    if eq_lit fs expired then Ok [("Status"%string, Str VENCIDO)]
    else
      let* fs := row_getitem cols row "Financial Status" in
      if eq_lit fs refunded then Ok [("Status"%string, Str REEMBOLSADO)]
      else
        let* fs := row_getitem cols row "Financial Status" in
        if eq_lit fs pending then Ok [("Status"%string, Str FALTA_PAGAR)]
        else Ok [].

(** BUCLE 2 *)
Definition bucle2 (cols : list string) (row : row)
  : result (list (string * cell)) :=
  let* fs := row_getitem cols row "Financial Status" in
  let* c :=
    and_then (eq_lit fs paid)
      (let* zip := row_getitem cols row "Shipping Zip" in
       Ok (startswith_any prefijos_caba (py_str zip))) in
  if c then Ok [("Status"%string, Str CABA)]
  else
    let* fs := row_getitem cols row "Financial Status" in
    let* c :=
      and_then (eq_lit fs paid)
        (let* m := row_getitem cols row "Shipping Method" in
         Ok (eq_lit m Envio_Prioritario)) in
    if c then Ok [("Status"%string, Str PRIORITARIO)] else Ok [].

(** BUCLE 3 *)
Definition bucle3 (cols : list string) (row : row)
  : result (list (string * cell)) :=
  let* fs := row_getitem cols row "Financial Status" in
  let* c :=
    and_then (eq_lit fs paid)
      (let* m := row_getitem cols row "Shipping Method" in
       and_then (eq_lit m Envio_Prioritario)
         (let* zip := row_getitem cols row "Shipping Zip" in
          Ok (startswith_any prefijos_caba (py_str zip)))) in
  if c then Ok [("Status"%string, Str CABA_PRIORITARIO)] else Ok [].

(** BUCLE 4 *)
Definition bucle4 (cols : list string) (row : row)
  : result (list (string * cell)) :=
  let* note := row_getitem cols row "Notes" in
  let* fs := row_getitem cols row "Financial Status" in
  let* c :=
    and_then (eq_lit fs paid)
      (and_then (notnull note)
         (let* s := as_str note in Ok (truthy (strip s)))) in
  if c then Ok [("Status"%string, Str REVISAR_NOTAS)]
  else
    let* fs := row_getitem cols row "Financial Status" in
    let* c :=
      and_then (eq_lit fs paid)
        (let* p := row_getitem cols row "Shipping Province Name" in
         Ok (eq_lit p Tierra_del_Fuego)) in
    if c then Ok [("Status"%string, Str TIERRA_DEL_FUEGO_STATUS)] else Ok [].

(** BUCLE 5: the constants of the carrier. *)
Definition bucle5 (cols : list string) (row : row)
  : result (list (string * cell)) :=
  Ok [("Peso", Str (u "100")); ("Alto", Str (u "10")); ("Ancho", Str (u "15"));
      ("Profun", Str (u "10")); ("Val decl", Str (u "4500"));
      ("NC", Str (u ".")); ("CodNum", Str (u "54"))]%string.

(** PASO 1 to PASO 9: the working table [columnas_a_copiar2] before the
    grouping, the source table [archcsv2] as the function leaves it, and the
    date of the file, which is looked for before any column is copied. *)
Definition pasos (archcsv2 : DataFrame) : result (DataFrame * DataFrame * pystr) :=
  let fecha_arch_datetime := fecha_arch_datetime archcsv2 in
  let* fecha_del_archivo := fecha_strftime fecha_arch_datetime (u "%d-%m-%Y") in
  let* columnas_a_copiar2 :=
    getitem_columns archcsv2
      ["Name"; "Shipping Name"; "Shipping Company"; "Email"; "Shipping Phone";
       "Shipping Street"; "Shipping Address2"; "Shipping City"; "Shipping Zip";
       "Shipping Province Name"; "Notes"]%string in
  let num_filas := length (rows archcsv2) in
  let nueva_columna1 := replicate num_filas (Str []) in
  let nueva_columna2 := replicate num_filas (Str []) in
  let nueva_columna3 := replicate num_filas (Str []) in
  let nueva_columna4 := replicate num_filas (Str []) in
  let nueva_columna5 := replicate num_filas (Str []) in
  let nueva_columna6 := replicate num_filas (Str []) in
  let nueva_columna7 := replicate num_filas (Str []) in
  let nueva_columna8 := replicate num_filas (Str []) in
  let* columnas_a_copiar2 := insert columnas_a_copiar2 1 "Peso" nueva_columna1 in
  let* columnas_a_copiar2 := insert columnas_a_copiar2 2 "Alto" nueva_columna2 in
  let* columnas_a_copiar2 := insert columnas_a_copiar2 3 "Ancho" nueva_columna3 in
  let* columnas_a_copiar2 := insert columnas_a_copiar2 4 "Profun" nueva_columna4 in
  let* columnas_a_copiar2 := insert columnas_a_copiar2 5 "Val decl" nueva_columna5 in
  let* columnas_a_copiar2 := insert columnas_a_copiar2 6 "Status" nueva_columna6 in
  let* columnas_a_copiar2 := insert columnas_a_copiar2 8 "NC" nueva_columna7 in
  let* columnas_a_copiar2 := insert columnas_a_copiar2 11 "CodNum" nueva_columna8 in
  let* sc := getitem archcsv2 "Shipping Company" in
  let archcsv2 :=
    setitem archcsv2 "Shipping Company"
      (Series_str_replace (u ".") (astype_str sc)) in
  let* sc := getitem archcsv2 "Shipping Company" in
  let archcsv2 :=
    setitem archcsv2 "Shipping Company"
      (Series_str_replace (u " ") (astype_str sc)) in
  let* sn := getitem archcsv2 "Shipping Name" in
  let archcsv2 := setitem archcsv2 "Shipping Name" (fillna_empty sn) in
  let* ph := getitem archcsv2 "Shipping Phone" in
  let archcsv2 :=
    setitem archcsv2 "Shipping Phone"
      (Series_str_replace (u "nan") (astype_str ph)) in
  let* columnas_a_copiar2 := iterrows archcsv2 bucle1 columnas_a_copiar2 in
  let* columnas_a_copiar2 := iterrows archcsv2 bucle2 columnas_a_copiar2 in
  let* columnas_a_copiar2 := iterrows archcsv2 bucle3 columnas_a_copiar2 in
  let* columnas_a_copiar2 := iterrows archcsv2 bucle4 columnas_a_copiar2 in
  let* columnas_a_copiar2 := iterrows archcsv2 bucle5 columnas_a_copiar2 in
  Ok (columnas_a_copiar2, archcsv2, fecha_del_archivo).

(** The two tables of [pasos]. *)
Definition clasificar (archcsv2 : DataFrame) : result (DataFrame * DataFrame) :=
  let* p := pasos archcsv2 in
  Ok (p.1.1, p.1.2).

Definition assign_status (group : list row) : list row :=
  match group with
  | [] => []
  | first :: _ => map (row_set "Status" (first "Status")) group
  end.

(** PASO 10: one status per order. *)
Definition consolidar (columnas_a_copiar2 : DataFrame) : DataFrame :=
  groupby_apply "Name" assign_status columnas_a_copiar2.

(** PASO 11: the phone column as text, every ".0" removed. *)
Definition finalizar (ArchivoFinal2 : DataFrame) : DataFrame :=
  setitem ArchivoFinal2 "Shipping Phone"
    (Series_str_replace (u ".0")
       (astype_str (map (fun r => r "Shipping Phone"%string) (rows ArchivoFinal2)))).

(** What a call leaves behind: the table and the date returned, and the
    source table as mutated. *)
Record salida := {
  ArchivoFinal2 : DataFrame;
  fecha_del_archivo : pystr;
  archcsv2 : DataFrame
}.

Definition procesar_archivo (archcsv2 : DataFrame) : result salida :=
  let* p := pasos archcsv2 in
  let columnas_a_copiar2 := p.1.1 in
  let archcsv2 := p.1.2 in
  let fecha_del_archivo := p.2 in
  let columnas_a_copiar2 := consolidar columnas_a_copiar2 in
  let ArchivoFinal2 := finalizar columnas_a_copiar2 in
  Ok {| ArchivoFinal2 := ArchivoFinal2;
        fecha_del_archivo := fecha_del_archivo;
        archcsv2 := archcsv2 |}.

End procesar.
End filtroAndreani.

(** ** The caller: Ventana_de_estado.boton_cargar_archivos *)

Section cargar.
Context {RT : Runtime}.

(** ETAPA 2 and ETAPA 3 of [boton_cargar_archivos]: the generic processor,
    then the carrier processor on the same table object, which by then holds
    what the first call wrote into it. *)
Definition boton_cargar_archivos (df_concatenado : DataFrame)
  : result (FiltroArgentina.salida * filtroAndreani.salida) :=
  let* argentina := FiltroArgentina.procesar_archivo df_concatenado in
  let df_concatenado := FiltroArgentina.archcsv1 argentina in
  let* andreani := filtroAndreani.procesar_archivo df_concatenado in
  Ok (argentina, andreani).

End cargar.

(** ** Cargar_Drive.py *)

Module Cargar_Drive.

(** [dataframe.astype(str).values.tolist()]: the text of every cell, line
    by line, the cells of a line in column order. *)
Definition values_tolist (dataframe : DataFrame) : list (list pystr) :=
  map (fun r => map (fun c => py_str (r c)) (columns dataframe)) (rows dataframe).

(** The two nested loops that overwrite every cell equal to
    [valor_a_borrar]. *)
Definition reemplazar (valor_a_borrar valor_a_reemplazar : pystr)
    (data : list (list pystr)) : list (list pystr) :=
  map (map (fun v => if decide (v = valor_a_borrar) then valor_a_reemplazar else v))
    data.

(** What [cargar_excel] uploads to the first sheet. *)
Definition data1 (archivo_final : DataFrame) : list (list pystr) :=
  let dataframe1 := archivo_final in
  let data1 := values_tolist dataframe1 in
  reemplazar (u "nan") [] data1.

(** What [cargar_excel] uploads to the sheet "Andreani". *)
Definition data2 (archivo_andreani : DataFrame) : list (list pystr) :=
  let dataframe2 := archivo_andreani in
  let data2 := values_tolist dataframe2 in
  let data2 := reemplazar (u "nan") [] data2 in
  reemplazar (u "n") [] data2.

End Cargar_Drive.

(** ** Vocabulary of the statements *)

(** The [Status] column of a table. *)
Definition Status_column (df : DataFrame) : list cell :=
  map (fun r => r "Status"%string) (rows df).

(** The columns each processor reads. *)
Definition columnas_argentina : list string :=
  ["Created at"; "Name"; "Shipping Name"; "Lineitem quantity";
   "Lineitem name"; "Total"; "Shipping Province Name"; "Shipping Street";
   "Shipping Zip"; "Shipping Phone"; "Email"; "Lineitem sku";
   "Shipping Company"; "Financial Status"; "Shipping Method"; "Notes"]%string.

Definition columnas_andreani : list string :=
  ["Name"; "Shipping Name"; "Shipping Company"; "Email"; "Shipping Phone";
   "Shipping Street"; "Shipping Address2"; "Shipping City"; "Shipping Zip";
   "Shipping Province Name"; "Notes"; "Financial Status"; "Shipping Method"]%string.

(** The columns of the working table of FiltroArgentina, in order. *)
Definition columnas_trabajo_argentina : list string :=
  ["Created at"; "Name"; "Shipping Name"; "Lineitem quantity";
   "Lineitem name"; "Total"; "Shipping Province Name"; "Shipping Street";
   "Shipping Zip"; "Status"; "NC2"; "NC3"; "NC4"; "Shipping Phone"; "Email";
   "Lineitem sku"]%string.

(** The columns of the working table of filtroAndreani, in order. *)
Definition columnas_trabajo_andreani : list string :=
  ["Name"; "Peso"; "Alto"; "Ancho"; "Profun"; "Val decl"; "Status";
   "Shipping Name"; "NC"; "Shipping Company"; "Email"; "CodNum";
   "Shipping Phone"; "Shipping Street"; "Shipping Address2"; "Shipping City";
   "Shipping Zip"; "Shipping Province Name"; "Notes"]%string.

(** The columns the four loops read. *)
Definition columnas_leidas : list string :=
  ["Shipping Company"; "Financial Status"; "Shipping Zip"; "Shipping Method";
   "Notes"; "Shipping Province Name"]%string.

(** The table has every column of [cs]. *)
Definition esquema (cs : list string) (t : DataFrame) : bool :=
  forallb (has_column (columns t)) cs.

(** The notes of a paid line are text or missing. *)
Definition nota_valida (r : row) : bool :=
  match r "Notes"%string with
  | Int _ => negb (eq_lit (r "Financial Status"%string) paid)
  | _ => true
  end.

Definition notas_validas (t : DataFrame) : bool := forallb nota_valida (rows t).

(** The notes of a line are missing or blank once trimmed. *)
Definition nota_en_blanco (r : row) : bool :=
  match r "Notes"%string with
  | NaN => true
  | Str s => negb (truthy (strip s))
  | Int _ => false
  end.

(** The fixed mapping of pass 1 for a financial status other than paid. *)
Definition status_no_pagado (fs : cell) : pystr :=
  if eq_lit fs expired then VENCIDO
  else if eq_lit fs refunded then REEMBOLSADO
  else if eq_lit fs pending then FALTA_PAGAR
  else [].

(** The id field as PASO 4 leaves it: its text without "." and " ". *)
Definition limpiar (x : cell) : cell :=
  Str (str_replace (u " ") (str_replace (u ".") (py_str x))).

(** A source row after each of the two rewritings of PASO 4 of
    FiltroArgentina, and after both. *)
Definition sin_puntos (r : row) : row :=
  row_set "Shipping Company"
    (Str (str_replace (u ".") (py_str (r "Shipping Company"%string)))) r.

Definition sin_espacios (r : row) : row :=
  row_set "Shipping Company"
    (match r "Shipping Company"%string with
     | Str s => Str (str_replace (u " ") s)
     | _ => NaN
     end) r.

Definition normalizar (r : row) : row := sin_espacios (sin_puntos r).

(** A source row after each rewriting of PASO 4 of filtroAndreani, and
    after all of them. *)
Definition sin_espacios_str (r : row) : row :=
  row_set "Shipping Company"
    (Str (str_replace (u " ") (py_str (r "Shipping Company"%string)))) r.

Definition nombre_relleno (r : row) : row :=
  row_set "Shipping Name"
    (match r "Shipping Name"%string with
     | NaN => Str []
     | _ => r "Shipping Name"%string
     end) r.

Definition telefono_sin_nan (r : row) : row :=
  row_set "Shipping Phone"
    (Str (str_replace (u "nan") (py_str (r "Shipping Phone"%string)))) r.

Definition normalizar_andreani (r : row) : row :=
  telefono_sin_nan (nombre_relleno (sin_espacios_str (sin_puntos r))).

(** The first line of the order [k] in the row order of [w]. *)
Definition primera_linea (k : cell) (w : list row) : option row :=
  head (filter (fun r => r "Name"%string = k) w).

(** The rows of [w] in the order the grouping hands them back. *)
Definition agrupadas (w : list row) : list row :=
  flat_map (fun k => filter (fun r => r "Name"%string = k) w)
    (group_keys "Name" w).

(** One status per order: [post] has one line for each line of [pre] that
    has an order id, in the order the grouping hands them back, with the
    order id of that line and the status that the first line of its order
    has in [pre]. *)
Definition unificado (pre post : list row) : Prop :=
  Forall2
    (fun o x =>
       o "Name"%string = x "Name"%string
       /\ exists p, primera_linea (x "Name"%string) pre = Some p
                    /\ o "Status"%string = p "Status"%string)
    post (agrupadas pre).

(** The status column after the grouping, from the order ids and the
    statuses before it: order after order, the status of the first line of
    the order, once per line. *)
Definition status_por_pedido (ps : list (cell * cell)) : list cell :=
  flat_map (fun k =>
              match filter (fun p => p.1 = k) ps with
              | [] => []
              | (first :: _) as g => map (fun _ => first.2) g
              end)
    (sort_keys (remove_dups (filter (fun k => notnull k = true) (map fst ps)))).

(** A row of the final table: the phone as text, every ".0" removed. *)
Definition telefono_final (r : row) : row :=
  row_set "Shipping Phone"
    (Str (str_replace (u ".0") (py_str (r "Shipping Phone"%string)))) r.

(** The number of distinct orders of a table. *)
Definition pedidos_distintos (df : DataFrame) : nat :=
  length (remove_dups (map (fun r => r "Name"%string) (rows df))).

(** The assignments a loop body makes, none when it raises. *)
Definition asignado (m : result (list (string * cell))) : list (string * cell) :=
  match m with
  | Ok a => a
  | Raise _ => []
  end.

(** A row after the assignments of one iteration. *)
Definition aplicar (asg : list (string * cell)) (wr : row) : row :=
  foldl (fun wr cv => row_set cv.1 cv.2 wr) wr asg.

Section fechas_de_la_tabla.
Context {RT : Runtime}.

(** The date column of a table. *)
Definition Created_at (t : DataFrame) : list cell :=
  map (fun r => r "Created at"%string) (rows t).

(** The search of the date of the file does not end on NaT: it finds a
    timestamp, or nothing and falls back on the clock. *)
Definition fecha_legible (t : DataFrame) : bool :=
  match fecha_arch_datetime t with
  | Some _ => true
  | None => false
  end.

(** pandas makes a datetime column of the date column of the table. *)
Definition columna_de_fechas (t : DataFrame) : bool :=
  match to_datetime_coerce (Created_at t) with
  | Ok (Some _) => true
  | _ => false
  end.

(** Both date steps of FiltroArgentina go through. *)
Definition fechas_validas (t : DataFrame) : bool :=
  fecha_legible t && columna_de_fechas t.

(** The date of the file as text, when it is readable. *)
Definition fecha_del_archivo_texto (t : DataFrame) : pystr :=
  match fecha_arch_datetime t with
  | Some ts => strftime ts (u "%d-%m-%Y")
  | None => []
  end.

(** The text that the date step leaves for the value [x] of the date column
    [created], when this is a datetime column: a missing value for a
    missing value and for NaT, the day, month and year of the timestamp
    otherwise. *)
Definition fecha_en_texto (created : list cell) (x : cell) : cell :=
  if notnull x then
    match to_datetime_Series created with
    | Ok (Some parse) =>
        match parse x with
        | Some ts => Str (strftime ts (u "%d/%m/%Y"))
        | None => NaN
        end
    | _ => NaN
    end
  else NaN.

End fechas_de_la_tabla.

Section tabla_de_reglas.
Context {RT : Runtime}.

(** The rule table of the classifier, read on a source row: the status of the
    last of the four passes whose condition holds, the empty string when
    none does. *)
Definition es_paid (r : row) : bool := eq_lit (r "Financial Status"%string) paid.
Definition es_caba (r : row) : bool :=
  startswith_any prefijos_caba (py_str (r "Shipping Zip"%string)).
Definition es_prioritario (r : row) : bool :=
  eq_lit (r "Shipping Method"%string) Envio_Prioritario.
Definition tiene_notas (r : row) : bool :=
  match r "Notes"%string with
  | Str s => truthy (strip s)
  | _ => false
  end.
Definition id_limpio (r : row) : pystr :=
  py_str (limpiar (r "Shipping Company"%string)).

Definition paso1 (r : row) (prev : pystr) : pystr :=
  if es_paid r then (if isnumeric (id_limpio r) then prev else REVISAR_DNI)
  else if eq_lit (r "Financial Status"%string) expired then VENCIDO
  else if eq_lit (r "Financial Status"%string) refunded then REEMBOLSADO
  else if eq_lit (r "Financial Status"%string) pending then FALTA_PAGAR
  else prev.

Definition paso2 (r : row) (prev : pystr) : pystr :=
  if es_paid r && es_caba r then CABA
  else if es_paid r && es_prioritario r then PRIORITARIO
  else prev.

Definition paso3 (r : row) (prev : pystr) : pystr :=
  if es_paid r && es_prioritario r && es_caba r then CABA_PRIORITARIO else prev.

Definition paso4 (r : row) (prev : pystr) : pystr :=
  if es_paid r && tiene_notas r then REVISAR_NOTAS
  else if es_paid r && eq_lit (r "Shipping Province Name"%string) Tierra_del_Fuego
  then TIERRA_DEL_FUEGO_STATUS
  else prev.

Definition status_de_linea (r : row) : pystr :=
  paso4 r (paso3 r (paso2 r (paso1 r []))).

(** The working row of FiltroArgentina for the source row [r], with [cols]
    the columns of the source and [created] its date column. *)
Definition fila_argentina (cols : list string) (created : list cell) (r : row) : row :=
  let n := normalizar r in
  aplicar (asignado (FiltroArgentina.bucle4 cols n))
    (aplicar (asignado (FiltroArgentina.bucle3 cols n))
       (aplicar (asignado (FiltroArgentina.bucle2 cols n))
          (aplicar (asignado (FiltroArgentina.bucle1 cols n))
             (row_set "NC4" (Str [])
                (row_set "NC3" (Str [])
                   (row_set "NC2" (Str [])
                      (row_set "Status" (Str [])
                         (row_set "Created at"
                            (fecha_en_texto created (r "Created at"%string))
                            r)))))))).

(** The working row of filtroAndreani for the source row [r]. *)
Definition fila_andreani (cols : list string) (r : row) : row :=
  let n := normalizar_andreani r in
  let w0 :=
    row_set "CodNum" (Str [])
      (row_set "NC" (Str [])
         (row_set "Status" (Str [])
            (row_set "Val decl" (Str [])
               (row_set "Profun" (Str [])
                  (row_set "Ancho" (Str [])
                     (row_set "Alto" (Str [])
                        (row_set "Peso" (Str []) r))))))) in
  aplicar (asignado (filtroAndreani.bucle5 cols n))
    (aplicar (asignado (filtroAndreani.bucle4 cols n))
       (aplicar (asignado (filtroAndreani.bucle3 cols n))
          (aplicar (asignado (filtroAndreani.bucle2 cols n))
             (aplicar (asignado (filtroAndreani.bucle1 cols n)) w0)))).

End tabla_de_reglas.

(** A row given by the cells it holds, missing elsewhere. *)
Definition fila (l : list (string * cell)) : row :=
  fun c =>
    match find (fun kv => String.eqb c kv.1) l with
    | Some kv => kv.2
    | None => NaN
    end.

(** The columns of an order export. *)
Definition columnas_shopify : list string :=
  ["Name"; "Email"; "Financial Status"; "Created at"; "Lineitem quantity";
   "Lineitem name"; "Lineitem sku"; "Total"; "Shipping Method";
   "Shipping Name"; "Shipping Street"; "Shipping Address2";
   "Shipping Company"; "Shipping City"; "Shipping Zip";
   "Shipping Province Name"; "Shipping Phone"; "Notes"]%string.

(** A runtime for the examples: no numeric character above ASCII, no date
    that parses (an exception on one value, NaT in a column). *)
Definition runtime_ascii : Runtime :=
  {| numeric_above_ascii := fun _ => false;
     Timestamp := unit;
     to_datetime := fun _ => Raise ValueError;
     to_datetime_Series := fun _ => Ok (Some (fun _ => None));
     strftime := fun _ fmt => fmt;
     datetime_now := tt |}.

(** A runtime for the examples with dates.  A timestamp is a day number; an
    integer is read as that day, the text "NaT" as NaT, any other text is
    not a date; a column that holds a text with a UTC offset (a "+" in it)
    is not made a datetime column, and the column whose only value is the
    text "?" makes the reading of the column raise ValueError. *)
Definition runtime_fechas : Runtime :=
  {| numeric_above_ascii := fun _ => false;
     Timestamp := Z;
     to_datetime := fun x =>
       match x with
       | Int z => Ok (Some z)
       | Str s => if decide (s = u "NaT") then Ok None else Raise ValueError
       | NaN => Ok None
       end;
     to_datetime_Series := fun col =>
       if existsb (fun x => match x with
                            | Str s => bool_decide (43%N ∈ s)
                            | _ => false
                            end) col
       then Ok None
       else if bool_decide (col = [Str (u "?")]) then Raise ValueError
       else Ok (Some (fun x => match x with Int z => Some z | _ => None end));
     strftime := fun t fmt => fmt ++ str_of_int t;
     datetime_now := 0%Z |}.

(** What is observed of a result that is a table: [f] of it, or the
    exception. *)
Definition observar {A B} (f : A -> B) (m : result A) : result B :=
  match m with
  | Ok a => Ok (f a)
  | Raise e => Raise e
  end.

(** *** Example tables *)

(** The method of an ordinary shipment. *)
Definition Envio_Estandar : pystr := u "Envio Estandar".

(** The end-to-end example: one order of two lines, both paid, in CABA. *)
Definition ejemplo_caba : DataFrame :=
  {| columns := columnas_shopify;
     rows :=
       [fila [("Name", Str (u "#1001")); ("Financial Status", Str paid);
              ("Shipping Zip", Str (u "C1420"));
              ("Shipping Method", Str Envio_Estandar);
              ("Shipping Company", Str (u "30111222"))]%string;
        fila [("Name", Str (u "#1001")); ("Financial Status", Str paid);
              ("Shipping Zip", Str (u "C1420"));
              ("Shipping Method", Str Envio_Estandar);
              ("Shipping Company", Str (u "30111222"))]%string] |}.

(** One paid line with postal code "C1425", with the given method. *)
Definition ejemplo_C1425 (metodo : pystr) : DataFrame :=
  {| columns := columnas_shopify;
     rows :=
       [fila [("Name", Str (u "#2001")); ("Financial Status", Str paid);
              ("Shipping Zip", Str (u "C1425"));
              ("Shipping Method", Str metodo);
              ("Shipping Company", Str (u "30111222"));
              ("Shipping Province Name", Str (u "Ciudad de Buenos Aires"))]%string] |}.

(** One paid line outside CABA with the given id field. *)
Definition ejemplo_id (id : pystr) : DataFrame :=
  {| columns := columnas_shopify;
     rows :=
       [fila [("Name", Str (u "#3001")); ("Financial Status", Str paid);
              ("Shipping Zip", Str (u "5000"));
              ("Shipping Method", Str Envio_Estandar);
              ("Shipping Company", Str id);
              ("Shipping Province Name", Str (u "Cordoba"))]%string] |}.

(** One paid line whose note is the number 5: a [Notes] column that holds
    only numbers is read as a numeric column. *)
Definition ejemplo_nota_numerica : DataFrame :=
  {| columns := columnas_shopify;
     rows :=
       [fila [("Name", Str (u "#4001")); ("Financial Status", Str paid);
              ("Shipping Zip", Str (u "5000"));
              ("Shipping Method", Str Envio_Estandar);
              ("Shipping Company", Str (u "30111222"));
              ("Notes", Int 5)]%string] |}.

(** One paid order outside CABA with priority shipping. *)
Definition ejemplo_prioritario : DataFrame :=
  {| columns := columnas_shopify;
     rows :=
       [fila [("Name", Str (u "#5001")); ("Financial Status", Str paid);
              ("Shipping Zip", Str (u "5000"));
              ("Shipping Method", Str Envio_Prioritario);
              ("Shipping Company", Str (u "30111222"));
              ("Shipping Province Name", Str (u "Cordoba"))]%string] |}.

(** One order of three lines: the first paid in CABA, the second expired,
    the third with no financial status. *)
Definition ejemplo_mixto : DataFrame :=
  {| columns := columnas_shopify;
     rows :=
       [fila [("Name", Str (u "#6001")); ("Financial Status", Str paid);
              ("Shipping Name", Str (u "Ana"));
              ("Shipping Zip", Str (u "C1425"));
              ("Shipping Method", Str Envio_Estandar);
              ("Shipping Company", Str (u "30111222"))]%string;
        fila [("Name", Str (u "#6001")); ("Financial Status", Str expired)]%string;
        fila [("Name", Str (u "#6001"))]%string] |}.

(** A batch of five orders: notes, CABA with priority, an expired order of
    two lines, an id with dots, a pending line without order id. *)
Definition ejemplo_lote : DataFrame :=
  {| columns := columnas_shopify;
     rows :=
       [fila [("Name", Str (u "#7001")); ("Financial Status", Str paid);
              ("Shipping Zip", Str (u "C1425"));
              ("Shipping Method", Str Envio_Prioritario);
              ("Shipping Company", Str (u "30.111.222"));
              ("Notes", Str (u " llamar antes "))]%string;
        fila [("Name", Str (u "#7002")); ("Financial Status", Str paid);
              ("Shipping Zip", Str (u "1425"));
              ("Shipping Method", Str Envio_Prioritario);
              ("Shipping Company", Str (u "DNI 30111222"));
              ("Notes", Str (u "  "))]%string;
        fila [("Name", Str (u "#7003")); ("Financial Status", Str expired);
              ("Shipping Zip", Str (u "C1001"));
              ("Notes", Str (u "urgente"))]%string;
        fila [("Name", Str (u "#7003"))]%string;
        fila [("Name", Str (u "#7004")); ("Financial Status", Str paid);
              ("Shipping Zip", Int 5000);
              ("Shipping Company", Str (u "30 111 222"));
              ("Shipping Phone", Int 1155550000)]%string;
        fila [("Financial Status", Str pending)]%string] |}.

(** ** Vocabulary of the further properties *)

Section prioridad.
Context {RT : Runtime}.

(** The rule table in order of priority: the first condition that holds
    decides. *)
Definition regla (r : row) : pystr :=
  if negb (es_paid r) then status_no_pagado (r "Financial Status"%string)
  else if tiene_notas r then REVISAR_NOTAS
  else if eq_lit (r "Shipping Province Name"%string) Tierra_del_Fuego
  then TIERRA_DEL_FUEGO_STATUS
  else if es_caba r
  then (if es_prioritario r then CABA_PRIORITARIO else CABA)
  else if es_prioritario r then PRIORITARIO
  else if isnumeric (id_limpio r) then []
  else REVISAR_DNI.

End prioridad.

(** The statuses the processors write, and the empty one. *)
Definition estados_validos : list pystr :=
  [[]; REVISAR_DNI; VENCIDO; REEMBOLSADO; FALTA_PAGAR; CABA; PRIORITARIO;
   CABA_PRIORITARIO; REVISAR_NOTAS; TIERRA_DEL_FUEGO_STATUS].

Section esperadas.
Context {RT : Runtime}.

(** The line FiltroArgentina returns for the input line [x] of an order
    whose first line is [q]; [created] is the date column of the input. *)
Definition esperada_argentina (created : list cell) (x q : row) : row :=
  telefono_final
    (row_set "Status" (Str (regla q))
       (row_set "NC4" (Str [])
          (row_set "NC3" (Str [])
             (row_set "NC2" (Str [])
                (row_set "Created at"
                   (fecha_en_texto created (x "Created at"%string)) x))))).

(** The line filtroAndreani returns for the input line [x] of an order whose
    first line is [q]. *)
Definition esperada_andreani (x q : row) : row :=
  telefono_final
    (row_set "Status" (Str (regla q))
       (row_set "CodNum" (Str (u "54"))
          (row_set "NC" (Str (u "."))
             (row_set "Val decl" (Str (u "4500"))
                (row_set "Profun" (Str (u "10"))
                   (row_set "Ancho" (Str (u "15"))
                      (row_set "Alto" (Str (u "10"))
                         (row_set "Peso" (Str (u "100")) x)))))))).

End esperadas.

(** The lines of [l] that have an order id. *)
Definition con_pedido (l : list row) : list row :=
  filter (fun p => notnull (p "Name"%string) = true) l.

(** The columns FiltroArgentina copies unchanged. *)
Definition copiadas_argentina : list string :=
  ["Name"; "Shipping Name"; "Lineitem quantity"; "Lineitem name"; "Total";
   "Shipping Province Name"; "Shipping Street"; "Shipping Zip"; "Email";
   "Lineitem sku"]%string.

(** The columns filtroAndreani copies unchanged. *)
Definition copiadas_andreani : list string :=
  ["Name"; "Shipping Name"; "Shipping Company"; "Email"; "Shipping Street";
   "Shipping Address2"; "Shipping City"; "Shipping Zip";
   "Shipping Province Name"; "Notes"]%string.

(** The columns FiltroArgentina copies in its first statement. *)
Definition columnas_copia_argentina : list string :=
  ["Created at"; "Name"; "Shipping Name"; "Lineitem quantity";
   "Lineitem name"; "Total"; "Shipping Province Name"; "Shipping Street";
   "Shipping Zip"; "Shipping Phone"; "Email"; "Lineitem sku"]%string.

(** The columns each processor takes from its table as whole columns,
    before the loops, in the order it asks for them. *)
Definition columnas_enteras_argentina : list string :=
  ["Created at"; "Name"; "Shipping Name"; "Lineitem quantity";
   "Lineitem name"; "Total"; "Shipping Province Name"; "Shipping Street";
   "Shipping Zip"; "Shipping Phone"; "Email"; "Lineitem sku";
   "Shipping Company"]%string.

Definition columnas_enteras_andreani : list string :=
  ["Name"; "Shipping Name"; "Shipping Company"; "Email"; "Shipping Phone";
   "Shipping Street"; "Shipping Address2"; "Shipping City"; "Shipping Zip";
   "Shipping Province Name"; "Notes"]%string.

(** A table without the column "Email". *)
Definition ejemplo_sin_email : DataFrame :=
  {| columns := filter (fun c => negb (String.eqb c "Email")) columnas_shopify;
     rows := rows ejemplo_lote |}.

(** A table without the column "Shipping Company". *)
Definition ejemplo_sin_id : DataFrame :=
  {| columns := filter (fun c => negb (String.eqb c "Shipping Company"))
                  columnas_shopify;
     rows := rows ejemplo_lote |}.

(** The orders of a table that carry the status [v]: what the panel is
    given for a category. *)
Definition pedidos_con_status (df : DataFrame) (v : pystr) : nat :=
  count_unique df "Status" v "Name".

(** The columns the two returned tables have in common, the id apart. *)
Definition columnas_comunes : list string :=
  ["Name"; "Status"; "Shipping Name"; "Email"; "Shipping Phone";
   "Shipping Street"; "Shipping Zip"; "Shipping Province Name"]%string.

(** What the last step of a processor makes of a line [r]: the line [o]
    with the same cells outside the phone; a missing phone as the text
    "nan"; a phone text without "." as it is; of a phone text the first ".0"
    removed wherever it stands, and the rest treated the same way. *)
Definition telefono_en_texto (o r : row) : Prop :=
  (forall c, c <> "Shipping Phone"%string -> o c = r c)
  /\ (r "Shipping Phone"%string = NaN -> o "Shipping Phone"%string = Str (u "nan"))
  /\ (forall s, r "Shipping Phone"%string = Str s -> 46%N ∉ s ->
                o "Shipping Phone"%string = Str s)
  /\ (forall a b, r "Shipping Phone"%string = Str (a ++ u ".0" ++ b) -> 46%N ∉ a ->
                  o "Shipping Phone"%string = Str (a ++ str_replace (u ".0") b)).

(** A table with lines but without the column "Financial Status". *)
Definition ejemplo_sin_estado : DataFrame :=
  {| columns := filter (fun c => negb (String.eqb c "Financial Status")) columnas_shopify;
     rows := rows ejemplo_lote |}.

(** *** Example tables with dates, for [runtime_fechas] *)

(** One pending order whose date is the text "NaT". *)
Definition ejemplo_fecha_NaT : DataFrame :=
  {| columns := columnas_shopify;
     rows :=
       [fila [("Name", Str (u "#8001")); ("Financial Status", Str pending);
              ("Created at", Str (u "NaT"))]%string] |}.

(** Two pending orders whose dates are texts with different UTC offsets. *)
Definition ejemplo_offsets : DataFrame :=
  {| columns := columnas_shopify;
     rows :=
       [fila [("Name", Str (u "#8101")); ("Financial Status", Str pending);
              ("Created at", Str (u "2024-05-01 10:00:00 +0200"))]%string;
        fila [("Name", Str (u "#8102")); ("Financial Status", Str pending);
              ("Created at", Str (u "2024-05-02 10:00:00 +0300"))]%string] |}.

(** One pending order whose date is the text "?". *)
Definition ejemplo_fecha_ilegible : DataFrame :=
  {| columns := columnas_shopify;
     rows :=
       [fila [("Name", Str (u "#8151")); ("Financial Status", Str pending);
              ("Created at", Str (u "?"))]%string] |}.

(** One order of two lines, the first with the date of day 19844, the
    second without a date. *)
Definition ejemplo_con_fecha : DataFrame :=
  {| columns := columnas_shopify;
     rows :=
       [fila [("Name", Str (u "#8201")); ("Financial Status", Str pending);
              ("Created at", Int 19844)]%string;
        fila [("Name", Str (u "#8201"))]%string] |}.

(** ** Python strings *)

Lemma str_replace_char (c : N) (s : pystr) :
  str_replace [c] s = filter (fun x => x <> c) s.
Proof.
  unfold str_replace.
  induction s as [|x s IH]; [done|].
  cbn [str_replace_from startswith length Nat.sub].
  rewrite filter_cons.
  destruct (N.eqb_spec c x) as [->|Hne].
  - cbn. rewrite decide_False by (intros H; by apply H).
    destruct s; cbn in *; done.
  - cbn. rewrite decide_True by congruence. by rewrite IH.
Qed.

Lemma str_replace_char_idemp (c : N) (s : pystr) :
  str_replace [c] (str_replace [c] s) = str_replace [c] s.
Proof.
  rewrite !str_replace_char.
  induction s as [|x s IH]; [done|].
  rewrite filter_cons. case_decide; [|done].
  rewrite filter_cons, decide_True by done. by rewrite IH.
Qed.

Lemma filter_filter_comm (a b : N) (s : pystr) :
  filter (fun x => x <> a) (filter (fun x => x <> b) s)
  = filter (fun x => x <> b) (filter (fun x => x <> a) s).
Proof.
  induction s as [|x s IH]; [done|].
  rewrite !filter_cons.
  repeat (case_decide; rewrite ?filter_cons); rewrite ?IH; try done;
    repeat (case_decide; try done).
Qed.

Lemma str_replace_char_comm (a b : N) (s : pystr) :
  str_replace [a] (str_replace [b] s) = str_replace [b] (str_replace [a] s).
Proof. rewrite !str_replace_char. apply filter_filter_comm. Qed.

(** Cleaning a cleaned id field changes nothing. *)
Lemma limpiar_idemp (x : cell) : limpiar (limpiar x) = limpiar x.
Proof.
  unfold limpiar. cbn [py_str]. f_equal.
  change (u " ") with [32%N]. change (u ".") with [46%N].
  rewrite (str_replace_char_comm 46 32).
  rewrite (str_replace_char_idemp 32).
  by rewrite (str_replace_char_idemp 46).
Qed.

(** ** Tables: the primitives on a table whose rows are [map h l] *)

Lemma has_column_elem (cols : list string) (c : string) :
  has_column cols c = true <-> c ∈ cols.
Proof.
  unfold has_column. rewrite existsb_exists. split.
  - intros (x & Hin & Heq). apply String.eqb_eq in Heq. subst.
    by apply list_elem_of_In.
  - intros Hin. exists c. split; [by apply list_elem_of_In|apply String.eqb_refl].
Qed.

Lemma esquema_has (cs : list string) (t : DataFrame) (c : string) :
  esquema cs t = true -> c ∈ cs -> has_column (columns t) c = true.
Proof.
  unfold esquema. rewrite forallb_forall. intros H Hc.
  apply H. by apply list_elem_of_In.
Qed.

Lemma row_getitem_ok (cols : list string) (r : row) (c : string) :
  has_column cols c = true -> row_getitem cols r c = Ok (r c).
Proof. unfold row_getitem. by intros ->. Qed.

Lemma getitem_columns_ok (df : DataFrame) (cs : list string) :
  (forall c, c ∈ cs -> has_column (columns df) c = true) ->
  getitem_columns df cs = Ok {| columns := cs; rows := rows df |}.
Proof.
  intros H. unfold getitem_columns.
  destruct (find _ cs) as [c|] eqn:Hf; [|done].
  apply find_some in Hf as [Hin Hc].
  rewrite H in Hc by (by apply list_elem_of_In). done.
Qed.

Lemma getitem_map (C : list string) {A} (h : A -> row) (l : list A) (c : string) :
  has_column C c = true ->
  getitem {| columns := C; rows := map h l |} c = Ok (map (fun x => h x c) l).
Proof.
  intros Hc. unfold getitem. cbn [columns rows]. rewrite Hc.
  by rewrite map_map.
Qed.

Lemma zip_with_map_map {A B C D} (f : B -> C -> D) (g : A -> B) (h : A -> C)
    (l : list A) :
  zip_with f (map g l) (map h l) = map (fun x => f (g x) (h x)) l.
Proof. induction l as [|x l IH]; [done|]. cbn. by rewrite IH. Qed.

Lemma setitem_map (C : list string) {A} (h : A -> row) (g : A -> cell)
    (l : list A) (c : string) :
  has_column C c = true ->
  setitem {| columns := C; rows := map h l |} c (map g l)
  = {| columns := C; rows := map (fun x => row_set c (g x) (h x)) l |}.
Proof.
  intros Hc. unfold setitem. cbn [columns rows]. rewrite Hc.
  by rewrite zip_with_map_map.
Qed.

Lemma insert_map (C : list string) {A} (h : A -> row) (l : list A)
    (loc : nat) (c : string) (v : cell) :
  has_column C c = false -> (loc <=? length C) = true ->
  insert {| columns := C; rows := map h l |} loc c (replicate (length l) v)
  = Ok {| columns := take loc C ++ c :: drop loc C;
          rows := map (fun x => row_set c v (h x)) l |}.
Proof.
  intros Hc Hloc. unfold insert. cbn [columns rows].
  rewrite Hc, Hloc, length_replicate, length_map, Nat.eqb_refl. cbn [negb].
  do 2 f_equal.
  clear. induction l as [|x l IH]; [done|]. cbn. by rewrite IH.
Qed.

Lemma astype_str_map {A} (g : A -> cell) (l : list A) :
  astype_str (map g l) = map (fun x => Str (py_str (g x))) l.
Proof. unfold astype_str. by rewrite map_map. Qed.

Lemma Series_str_replace_map {A} (old : pystr) (g : A -> cell) (l : list A) :
  Series_str_replace old (map g l)
  = map (fun x => match g x with
                  | Str s => Str (str_replace old s)
                  | _ => NaN
                  end) l.
Proof. unfold Series_str_replace. by rewrite map_map. Qed.

Lemma fillna_empty_map {A} (g : A -> cell) (l : list A) :
  fillna_empty (map g l)
  = map (fun x => match g x with NaN => Str [] | _ => g x end) l.
Proof. unfold fillna_empty. by rewrite map_map. Qed.

(** *** The loops *)

Lemma loc_set_middle (asg : list (string * cell)) (pre post : list row) (x : row) :
  loc_set (length pre) asg (pre ++ x :: post) = pre ++ aplicar asg x :: post.
Proof.
  unfold loc_set, aplicar.
  revert x. induction asg as [|cv asg IH]; intros x; [done|].
  cbn [foldl]. rewrite <- IH. f_equal.
  rewrite alter_app_r_alt by lia. by rewrite Nat.sub_diag.
Qed.

Lemma iterrows_from_map {A} (body : row -> result (list (string * cell)))
    (n h : A -> row) (l : list A) (pre : list row) :
  (forall x, x ∈ l -> exists a, body (n x) = Ok a) ->
  iterrows_from body (length pre) (map n l) (pre ++ map h l)
  = Ok (pre ++ map (fun x => aplicar (asignado (body (n x))) (h x)) l).
Proof.
  revert pre. induction l as [|x l IH]; intros pre Hok; [done|].
  cbn [map iterrows_from].
  destruct (Hok x) as [a Ha]; [by left|].
  rewrite Ha. cbn [bind asignado].
  rewrite loc_set_middle.
  specialize (IH (pre ++ [aplicar a (h x)])).
  rewrite length_app in IH. cbn [length] in IH.
  rewrite Nat.add_1_r in IH. rewrite <- !app_assoc in IH. cbn [app] in IH.
  apply IH. intros y Hy. apply Hok. by right.
Qed.

Lemma iterrows_map (Cs Cw : list string) {A}
    (body : list string -> row -> result (list (string * cell)))
    (n h : A -> row) (l : list A) :
  (forall x, x ∈ l -> exists a, body Cs (n x) = Ok a) ->
  iterrows {| columns := Cs; rows := map n l |} body
    {| columns := Cw; rows := map h l |}
  = Ok {| columns := Cw;
          rows := map (fun x => aplicar (asignado (body Cs (n x))) (h x)) l |}.
Proof.
  intros Hok. unfold iterrows. cbn [columns rows].
  pose proof (iterrows_from_map (body Cs) n h l [] Hok) as H.
  cbn [length app] in H. by rewrite H.
Qed.

(** ** The loop bodies return *)

Ltac leer H :=
  rewrite ?(row_getitem_ok _ _ "Shipping Company"),
          ?(row_getitem_ok _ _ "Financial Status"),
          ?(row_getitem_ok _ _ "Shipping Zip"),
          ?(row_getitem_ok _ _ "Shipping Method"),
          ?(row_getitem_ok _ _ "Notes"),
          ?(row_getitem_ok _ _ "Shipping Province Name")
    by (apply H; apply list_elem_of_In; cbn; tauto).

Lemma normalizar_id (r : row) :
  normalizar r "Shipping Company"%string = limpiar (r "Shipping Company"%string).
Proof. reflexivity. Qed.

Lemma normalizar_otra (r : row) (c : string) :
  c <> "Shipping Company"%string -> normalizar r c = r c.
Proof.
  intros Hc. unfold normalizar, sin_espacios, sin_puntos, row_set.
  destruct (String.eqb_spec c "Shipping Company"); [done|done].
Qed.

Lemma str_replace_sin_espacio (s : pystr) :
  Forall (fun c => c <> 32%N) (str_replace (u " ") s).
Proof.
  change (u " ") with [32%N]. rewrite str_replace_char.
  apply Forall_forall. intros c Hc.
  by apply list_elem_of_In, list_elem_of_filter in Hc as [? _].
Qed.

(** The test [startswith("DNI ")] of BUCLE 1 never holds on the id field
    that PASO 4 hands to it: no space is left in it. *)
Lemma startswith_DNI_sin_espacio (s : pystr) :
  startswith (u "DNI ") (str_replace (u " ") s) = false.
Proof.
  pose proof (str_replace_sin_espacio s) as H.
  change (u "DNI ") with [68%N; 78%N; 73%N; 32%N].
  destruct (str_replace (u " ") s) as [|a [|b [|c [|d s']]]];
    cbn [startswith]; rewrite ?andb_false_r; try done.
  do 3 apply Forall_cons_1 in H as [_ H]. apply Forall_cons_1 in H as [H _].
  destruct (N.eqb_spec 32 d); [congruence|]. by rewrite !andb_false_r.
Qed.

Lemma aplicar_nil (wr : row) : aplicar [] wr = wr.
Proof. reflexivity. Qed.

Lemma aplicar_status (v : cell) (wr : row) :
  aplicar [("Status"%string, v)] wr "Status"%string = v.
Proof. reflexivity. Qed.

Lemma aplicar_status_otra (v : cell) (wr : row) (c : string) :
  c <> "Status"%string -> aplicar [("Status"%string, v)] wr c = wr c.
Proof.
  intros Hc. cbn [aplicar foldl fst snd]. unfold row_set.
  by destruct (String.eqb_spec c "Status").
Qed.

(** Closes a goal [exists a, Ok x = Ok a /\ status /\ frame] once the body is
    evaluated: [x] assigns the status or nothing. *)
Ltac cerrar Hs :=
  eexists; split; [reflexivity|]; split;
  [ first [ apply aplicar_status | rewrite aplicar_nil; exact Hs ]
  | intros; first [ by apply aplicar_status_otra | by rewrite aplicar_nil ] ].

Ltac casos :=
  repeat match goal with
         | |- context [eq_lit ?a ?b] => destruct (eq_lit a b) eqn:?
         | |- context [startswith_any ?a ?b] => destruct (startswith_any a b) eqn:?
         | |- context [isnumeric ?a] => destruct (isnumeric a) eqn:?
         | |- context [truthy ?a] => destruct (truthy a) eqn:?
         end;
  cbn [bind and_then negb andb orb].

(** Rewrites the reads of a row [n] that holds the cleaned id of [r] and
    the other cells of [r]. *)
Ltac normal Hid Hotras :=
  rewrite ?Hid,
          ?(Hotras "Financial Status"%string),
          ?(Hotras "Shipping Zip"%string),
          ?(Hotras "Shipping Method"%string),
          ?(Hotras "Notes"%string),
          ?(Hotras "Shipping Province Name"%string)
    by (split; [apply list_elem_of_In; cbn; tauto|done]).

Section cuerpos.
Context {RT : Runtime}.
(** [cols] are the columns of the source table, [r] one of its rows as the
    caller gave it, [n] the same row as the loops read it. *)
Variable cols : list string.
Hypothesis Hcols : forall c, c ∈ columnas_leidas -> has_column cols c = true.
Variables r n : row.
Hypothesis Hid : n "Shipping Company"%string = limpiar (r "Shipping Company"%string).
Hypothesis Hotras : forall c,
  c ∈ columnas_leidas /\ c <> "Shipping Company"%string -> n c = r c.

Lemma argentina_bucle1 (wr : row) (prev : pystr) :
  wr "Status"%string = Str prev ->
  exists a, FiltroArgentina.bucle1 cols n = Ok a
    /\ aplicar a wr "Status"%string = Str (paso1 r prev)
    /\ forall c, c <> "Status"%string -> aplicar a wr c = wr c.
Proof using Hcols Hid Hotras.
  intros Hs. unfold FiltroArgentina.bucle1. leer Hcols. normal Hid Hotras.
  unfold paso1, es_paid, id_limpio, limpiar.
  cbn [bind and_then isinstance_str as_str py_str].
  rewrite startswith_DNI_sin_espacio.
  casos; cerrar Hs.
Qed.

Lemma argentina_bucle2 (wr : row) (prev : pystr) :
  wr "Status"%string = Str prev ->
  exists a, FiltroArgentina.bucle2 cols n = Ok a
    /\ aplicar a wr "Status"%string = Str (paso2 r prev)
    /\ forall c, c <> "Status"%string -> aplicar a wr c = wr c.
Proof using Hcols Hid Hotras.
  intros Hs. unfold FiltroArgentina.bucle2. leer Hcols. normal Hid Hotras.
  unfold paso2, es_paid, es_caba, es_prioritario.
  cbn [bind and_then].
  casos; cerrar Hs.
Qed.

Lemma argentina_bucle3 (wr : row) (prev : pystr) :
  wr "Status"%string = Str prev ->
  exists a, FiltroArgentina.bucle3 cols n = Ok a
    /\ aplicar a wr "Status"%string = Str (paso3 r prev)
    /\ forall c, c <> "Status"%string -> aplicar a wr c = wr c.
Proof using Hcols Hid Hotras.
  intros Hs. unfold FiltroArgentina.bucle3. leer Hcols. normal Hid Hotras.
  unfold paso3, es_paid, es_caba, es_prioritario.
  cbn [bind and_then].
  casos; cerrar Hs.
Qed.

Lemma argentina_bucle4 (wr : row) (prev : pystr) :
  nota_valida r = true ->
  wr "Status"%string = Str prev ->
  exists a, FiltroArgentina.bucle4 cols n = Ok a
    /\ aplicar a wr "Status"%string = Str (paso4 r prev)
    /\ forall c, c <> "Status"%string -> aplicar a wr c = wr c.
Proof using Hcols Hid Hotras.
  intros Hn Hs. unfold FiltroArgentina.bucle4. leer Hcols. normal Hid Hotras.
  unfold paso4, es_paid, tiene_notas. unfold nota_valida in Hn.
  cbn [bind and_then].
  destruct (r "Notes"%string) as [|s|z]; cbn [notnull as_str bind and_then];
    casos; try discriminate; cerrar Hs.
Qed.

Lemma andreani_bucle1 (wr : row) (prev : pystr) :
  wr "Status"%string = Str prev ->
  exists a, filtroAndreani.bucle1 cols n = Ok a
    /\ aplicar a wr "Status"%string = Str (paso1 r prev)
    /\ forall c, c <> "Status"%string -> aplicar a wr c = wr c.
Proof using Hcols Hid Hotras.
  intros Hs. unfold filtroAndreani.bucle1. leer Hcols. normal Hid Hotras.
  unfold paso1, es_paid, id_limpio, limpiar.
  cbn [bind and_then isinstance_str as_str py_str].
  rewrite startswith_DNI_sin_espacio.
  casos; cerrar Hs.
Qed.

Lemma andreani_bucle2 (wr : row) (prev : pystr) :
  wr "Status"%string = Str prev ->
  exists a, filtroAndreani.bucle2 cols n = Ok a
    /\ aplicar a wr "Status"%string = Str (paso2 r prev)
    /\ forall c, c <> "Status"%string -> aplicar a wr c = wr c.
Proof using Hcols Hid Hotras.
  intros Hs. unfold filtroAndreani.bucle2. leer Hcols. normal Hid Hotras.
  unfold paso2, es_paid, es_caba, es_prioritario.
  cbn [bind and_then].
  casos; cerrar Hs.
Qed.

Lemma andreani_bucle3 (wr : row) (prev : pystr) :
  wr "Status"%string = Str prev ->
  exists a, filtroAndreani.bucle3 cols n = Ok a
    /\ aplicar a wr "Status"%string = Str (paso3 r prev)
    /\ forall c, c <> "Status"%string -> aplicar a wr c = wr c.
Proof using Hcols Hid Hotras.
  intros Hs. unfold filtroAndreani.bucle3. leer Hcols. normal Hid Hotras.
  unfold paso3, es_paid, es_caba, es_prioritario.
  cbn [bind and_then].
  casos; cerrar Hs.
Qed.

Lemma andreani_bucle4 (wr : row) (prev : pystr) :
  nota_valida r = true ->
  wr "Status"%string = Str prev ->
  exists a, filtroAndreani.bucle4 cols n = Ok a
    /\ aplicar a wr "Status"%string = Str (paso4 r prev)
    /\ forall c, c <> "Status"%string -> aplicar a wr c = wr c.
Proof using Hcols Hid Hotras.
  intros Hn Hs. unfold filtroAndreani.bucle4. leer Hcols. normal Hid Hotras.
  unfold paso4, es_paid, tiene_notas. unfold nota_valida in Hn.
  cbn [bind and_then].
  destruct (r "Notes"%string) as [|s|z]; cbn [notnull as_str bind and_then];
    casos; try discriminate; cerrar Hs.
Qed.

End cuerpos.

Lemma normalizar_otras (r : row) (c : string) :
  c ∈ columnas_leidas /\ c <> "Shipping Company"%string -> normalizar r c = r c.
Proof. intros [_ Hc]. by apply normalizar_otra. Qed.

(** ** FiltroArgentina: the working table before the grouping *)

(** [c] is in a list of literals because it is in a shorter one. *)
Ltac sublista Hc :=
  apply list_elem_of_In in Hc; apply list_elem_of_In; cbn in Hc |- *; tauto.

(** ** The date steps *)

Section fechas.
Context {RT : Runtime}.

(** On a datetime column the date step leaves the text of each date. *)
Lemma dt_strftime_columna (created : list cell) :
  match to_datetime_coerce created with Ok (Some _) => true | _ => false end = true ->
  exists fechas,
    to_datetime_coerce created = Ok fechas
    /\ dt_strftime fechas (u "%d/%m/%Y") = Ok (map (fecha_en_texto created) created).
Proof.
  unfold to_datetime_coerce.
  destruct (forallb _ created) eqn:Hall.
  - intros _. eexists. split; [reflexivity|].
    cbn [dt_strftime]. f_equal. rewrite map_map.
    apply map_ext_in. intros x Hx.
    rewrite forallb_forall in Hall. specialize (Hall x Hx).
    unfold fecha_en_texto. by destruct (notnull x).
  - destruct (to_datetime_Series created) as [[parse|]|e] eqn:Hs; [|done|done].
    intros _. eexists. split; [reflexivity|].
    cbn [dt_strftime]. f_equal. rewrite map_map.
    apply map_ext. intros x. unfold fecha_en_texto. rewrite Hs.
    by destruct (notnull x).
Qed.

Lemma fecha_strftime_legible (t : DataFrame) :
  fecha_legible t = true ->
  fecha_strftime (fecha_arch_datetime t) (u "%d-%m-%Y")
  = Ok (fecha_del_archivo_texto t).
Proof.
  unfold fecha_legible, fecha_del_archivo_texto.
  by destruct (fecha_arch_datetime t).
Qed.

(** The search of the date ends on NaT. *)
Lemma fecha_strftime_raise (t : DataFrame) (fmt : pystr) :
  fecha_legible t = false ->
  fecha_strftime (fecha_arch_datetime t) fmt = Raise ValueError.
Proof. unfold fecha_legible. by destruct (fecha_arch_datetime t). Qed.

Lemma buscar_fecha_map {A} (cols : list string) (h n : A -> row) (l : list A) :
  (forall x, n x "Created at"%string = h x "Created at"%string) ->
  buscar_fecha cols (map n l) = buscar_fecha cols (map h l).
Proof.
  intros Hn. induction l as [|x l IH]; [done|].
  cbn [map buscar_fecha]. unfold row_getitem. by rewrite Hn, IH.
Qed.

(** The date steps read the date column only. *)
Lemma fecha_legible_map {A} (C : list string) (h n : A -> row) (l : list A) :
  (forall x, n x "Created at"%string = h x "Created at"%string) ->
  fecha_legible {| columns := C; rows := map n l |}
  = fecha_legible {| columns := C; rows := map h l |}.
Proof.
  intros Hn. unfold fecha_legible, fecha_arch_datetime. cbn [columns rows].
  by rewrite (buscar_fecha_map C h n l Hn).
Qed.

Lemma fecha_del_archivo_texto_map {A} (C : list string) (h n : A -> row) (l : list A) :
  (forall x, n x "Created at"%string = h x "Created at"%string) ->
  fecha_del_archivo_texto {| columns := C; rows := map n l |}
  = fecha_del_archivo_texto {| columns := C; rows := map h l |}.
Proof.
  intros Hn. unfold fecha_del_archivo_texto, fecha_arch_datetime. cbn [columns rows].
  by rewrite (buscar_fecha_map C h n l Hn).
Qed.

Lemma Created_at_map {A} (C : list string) (h : A -> row) (l : list A) :
  Created_at {| columns := C; rows := map h l |}
  = map (fun x => h x "Created at"%string) l.
Proof. unfold Created_at. cbn [rows]. by rewrite map_map. Qed.

Lemma fechas_validas_map {A} (C : list string) (h n : A -> row) (l : list A) :
  (forall x, n x "Created at"%string = h x "Created at"%string) ->
  fechas_validas {| columns := C; rows := map n l |}
  = fechas_validas {| columns := C; rows := map h l |}.
Proof.
  intros Hn. unfold fechas_validas, columna_de_fechas.
  rewrite (fecha_legible_map C h n l Hn), !Created_at_map.
  by rewrite (map_ext (fun x => n x "Created at"%string)
                (fun x => h x "Created at"%string) Hn).
Qed.

Lemma fechas_validas_legible (t : DataFrame) :
  fechas_validas t = true -> fecha_legible t = true.
Proof. unfold fechas_validas. by intros [? _]%andb_prop. Qed.

Lemma fechas_validas_normalizar (C : list string) (l : list row) :
  fechas_validas {| columns := C; rows := map normalizar l |}
  = fechas_validas {| columns := C; rows := l |}.
Proof.
  rewrite <- (map_id l) at 2.
  by apply (fechas_validas_map C (fun r => r) normalizar l).
Qed.

Lemma fecha_legible_normalizar (C : list string) (l : list row) :
  fecha_legible {| columns := C; rows := map normalizar l |}
  = fecha_legible {| columns := C; rows := l |}.
Proof.
  rewrite <- (map_id l) at 2.
  by apply (fecha_legible_map C (fun r => r) normalizar l).
Qed.

End fechas.

Section argentina.
Context {RT : Runtime}.

Lemma argentina_cuerpos_ok (cols : list string) (r : row) :
  (forall c, c ∈ columnas_leidas -> has_column cols c = true) ->
  nota_valida r = true ->
  (exists a, FiltroArgentina.bucle1 cols (normalizar r) = Ok a)
  /\ (exists a, FiltroArgentina.bucle2 cols (normalizar r) = Ok a)
  /\ (exists a, FiltroArgentina.bucle3 cols (normalizar r) = Ok a)
  /\ (exists a, FiltroArgentina.bucle4 cols (normalizar r) = Ok a).
Proof.
  intros Hcols Hn.
  pose proof (normalizar_id r) as Hid. pose proof (normalizar_otras r) as Ho.
  destruct (argentina_bucle1 cols Hcols r _ Hid Ho (fun _ => Str []) [] eq_refl)
    as (a1 & ? & _).
  destruct (argentina_bucle2 cols Hcols r _ Hid Ho (fun _ => Str []) [] eq_refl)
    as (a2 & ? & _).
  destruct (argentina_bucle3 cols Hcols r _ Hid Ho (fun _ => Str []) [] eq_refl)
    as (a3 & ? & _).
  destruct (argentina_bucle4 cols Hcols r _ Hid Ho (fun _ => Str []) [] Hn eq_refl)
    as (a4 & ? & _).
  repeat split; eauto.
Qed.

Lemma argentina_pasos_map {A} (C : list string) (h : A -> row) (l : list A) :
  (forall c, c ∈ columnas_argentina -> has_column C c = true) ->
  (forall x, x ∈ l -> nota_valida (h x) = true) ->
  fechas_validas {| columns := C; rows := map h l |} = true ->
  FiltroArgentina.pasos {| columns := C; rows := map h l |}
  = Ok ({| columns := columnas_trabajo_argentina;
           rows := map (fun x =>
                     fila_argentina C (map (fun y => h y "Created at"%string) l) (h x)) l |},
        {| columns := C; rows := map (fun x => normalizar (h x)) l |},
        fecha_del_archivo_texto {| columns := C; rows := map h l |}).
Proof.
  intros HC Hn Hf.
  apply andb_prop in Hf as [Hleg Hcol].
  unfold columna_de_fechas in Hcol. rewrite Created_at_map in Hcol.
  assert (Hl : forall c, c ∈ columnas_leidas -> has_column C c = true).
  { intros c Hc. apply HC. by sublista Hc. }
  unfold FiltroArgentina.pasos.
  rewrite getitem_columns_ok; cycle 1.
  { intros c Hc. apply HC. by sublista Hc. }
  cbn [bind rows columns].
  rewrite (fecha_strftime_legible _ Hleg). cbn [bind].
  rewrite getitem_map by (apply HC; vm_compute; by left).
  cbn [bind]. destruct (dt_strftime_columna _ Hcol) as (fechas & Hco & Hdt).
  rewrite Hco. cbn [bind]. rewrite Hdt. cbn [bind].
  rewrite map_map, setitem_map by reflexivity.
  rewrite !length_map.
  rewrite insert_map by reflexivity. cbn [bind take drop app].
  rewrite insert_map by reflexivity. cbn [bind take drop app].
  rewrite insert_map by reflexivity. cbn [bind take drop app].
  rewrite insert_map by reflexivity. cbn [bind take drop app].
  assert (HSC : has_column C "Shipping Company" = true).
  { apply Hl. apply list_elem_of_In. cbn. tauto. }
  rewrite getitem_map by done. cbn [bind].
  rewrite astype_str_map, Series_str_replace_map, setitem_map by done.
  rewrite getitem_map by done. cbn [bind].
  rewrite Series_str_replace_map, setitem_map by done.
  rewrite iterrows_map; cycle 1.
  { intros x Hx. exact (proj1 (argentina_cuerpos_ok C (h x) Hl (Hn x Hx))). }
  cbn [bind].
  rewrite iterrows_map; cycle 1.
  { intros x Hx. exact (proj1 (proj2 (argentina_cuerpos_ok C (h x) Hl (Hn x Hx)))). }
  cbn [bind].
  rewrite iterrows_map; cycle 1.
  { intros x Hx.
    exact (proj1 (proj2 (proj2 (argentina_cuerpos_ok C (h x) Hl (Hn x Hx))))). }
  cbn [bind].
  rewrite iterrows_map; cycle 1.
  { intros x Hx.
    exact (proj2 (proj2 (proj2 (argentina_cuerpos_ok C (h x) Hl (Hn x Hx))))). }
  cbn [bind].
  reflexivity.
Qed.

Lemma argentina_clasificar_map {A} (C : list string) (h : A -> row) (l : list A) :
  (forall c, c ∈ columnas_argentina -> has_column C c = true) ->
  (forall x, x ∈ l -> nota_valida (h x) = true) ->
  fechas_validas {| columns := C; rows := map h l |} = true ->
  FiltroArgentina.clasificar {| columns := C; rows := map h l |}
  = Ok ({| columns := columnas_trabajo_argentina;
           rows := map (fun x =>
                     fila_argentina C (map (fun y => h y "Created at"%string) l) (h x)) l |},
        {| columns := C; rows := map (fun x => normalizar (h x)) l |}).
Proof.
  intros HC Hn Hf. unfold FiltroArgentina.clasificar.
  by rewrite (argentina_pasos_map C h l HC Hn Hf).
Qed.

Lemma argentina_pasos (t : DataFrame) :
  esquema columnas_argentina t = true ->
  notas_validas t = true ->
  fechas_validas t = true ->
  FiltroArgentina.pasos t
  = Ok ({| columns := columnas_trabajo_argentina;
           rows := map (fila_argentina (columns t)
                          (map (fun r => r "Created at"%string) (rows t)))
                     (rows t) |},
        {| columns := columns t; rows := map normalizar (rows t) |},
        fecha_del_archivo_texto t).
Proof.
  intros He Hn Hf. destruct t as [C l]. cbn [columns rows].
  pose proof (argentina_pasos_map C (fun r => r) l) as H.
  rewrite (map_id l) in H. apply H.
  - intros c Hc. by apply (esquema_has _ _ _ He).
  - intros x Hx. unfold notas_validas in Hn. cbn [rows] in Hn.
    rewrite forallb_forall in Hn. apply Hn. by apply list_elem_of_In.
  - exact Hf.
Qed.

Lemma argentina_clasificar (t : DataFrame) :
  esquema columnas_argentina t = true ->
  notas_validas t = true ->
  fechas_validas t = true ->
  FiltroArgentina.clasificar t
  = Ok ({| columns := columnas_trabajo_argentina;
           rows := map (fila_argentina (columns t)
                          (map (fun r => r "Created at"%string) (rows t)))
                     (rows t) |},
        {| columns := columns t; rows := map normalizar (rows t) |}).
Proof.
  intros He Hn Hf. unfold FiltroArgentina.clasificar.
  by rewrite (argentina_pasos t He Hn Hf).
Qed.

(** The four loops leave on a line the status of the rule table, and touch
    no other column. *)
Lemma fila_argentina_spec (C : list string) (created : list cell) (r : row) :
  (forall c, c ∈ columnas_leidas -> has_column C c = true) ->
  nota_valida r = true ->
  fila_argentina C created r "Status"%string = Str (status_de_linea r)
  /\ forall c, c <> "Status"%string ->
       fila_argentina C created r c
       = row_set "NC4" (Str [])
           (row_set "NC3" (Str [])
              (row_set "NC2" (Str [])
                 (row_set "Created at"
                    (fecha_en_texto created (r "Created at"%string)) r))) c.
Proof.
  intros Hl Hn. unfold fila_argentina, status_de_linea.
  set (w0 := row_set "NC4" _ _).
  assert (H0 : w0 "Status"%string = Str []) by reflexivity.
  pose proof (normalizar_id r) as Hid. pose proof (normalizar_otras r) as Ho.
  destruct (argentina_bucle1 C Hl r _ Hid Ho w0 [] H0) as (a1 & -> & H1 & F1).
  cbn [asignado].
  destruct (argentina_bucle2 C Hl r _ Hid Ho _ _ H1) as (a2 & -> & H2 & F2).
  cbn [asignado].
  destruct (argentina_bucle3 C Hl r _ Hid Ho _ _ H2) as (a3 & -> & H3 & F3).
  cbn [asignado].
  destruct (argentina_bucle4 C Hl r _ Hid Ho _ _ Hn H3) as (a4 & -> & H4 & F4).
  cbn [asignado].
  split; [exact H4|].
  intros c Hc. rewrite F4, F3, F2, F1 by done.
  subst w0. unfold row_set.
  destruct (String.eqb_spec c "Status"); [done|].
  repeat match goal with |- context [String.eqb c ?s] =>
    destruct (String.eqb_spec c s); [subst; reflexivity|] end.
  reflexivity.
Qed.

End argentina.

(** ** filtroAndreani: the working table before the grouping *)

Lemma limpiar_espacios_str (x : cell) :
  Str (str_replace (u " ") (py_str (Str (str_replace (u ".") (py_str x)))))
  = limpiar x.
Proof. reflexivity. Qed.

Lemma normalizar_andreani_id (r : row) :
  normalizar_andreani r "Shipping Company"%string
  = limpiar (r "Shipping Company"%string).
Proof. reflexivity. Qed.

Lemma normalizar_andreani_otras (r : row) (c : string) :
  c ∈ columnas_leidas /\ c <> "Shipping Company"%string ->
  normalizar_andreani r c = r c.
Proof.
  intros [Hc Hne]. apply list_elem_of_In in Hc. cbn in Hc.
  destruct Hc as [<-|[<-|[<-|[<-|[<-|[<-|[]]]]]]]; done.
Qed.

Section andreani.
Context {RT : Runtime}.

Lemma andreani_cuerpos_ok (cols : list string) (r n : row) :
  (forall c, c ∈ columnas_leidas -> has_column cols c = true) ->
  n "Shipping Company"%string = limpiar (r "Shipping Company"%string) ->
  (forall c, c ∈ columnas_leidas /\ c <> "Shipping Company"%string -> n c = r c) ->
  nota_valida r = true ->
  (exists a, filtroAndreani.bucle1 cols n = Ok a)
  /\ (exists a, filtroAndreani.bucle2 cols n = Ok a)
  /\ (exists a, filtroAndreani.bucle3 cols n = Ok a)
  /\ (exists a, filtroAndreani.bucle4 cols n = Ok a).
Proof.
  intros Hcols Hid Ho Hn.
  destruct (andreani_bucle1 cols Hcols r _ Hid Ho (fun _ => Str []) [] eq_refl)
    as (a1 & ? & _).
  destruct (andreani_bucle2 cols Hcols r _ Hid Ho (fun _ => Str []) [] eq_refl)
    as (a2 & ? & _).
  destruct (andreani_bucle3 cols Hcols r _ Hid Ho (fun _ => Str []) [] eq_refl)
    as (a3 & ? & _).
  destruct (andreani_bucle4 cols Hcols r _ Hid Ho (fun _ => Str []) [] Hn eq_refl)
    as (a4 & ? & _).
  repeat split; eauto.
Qed.

Lemma andreani_pasos_map {A} (C : list string) (h : A -> row) (l : list A) :
  (forall c, c ∈ columnas_andreani -> has_column C c = true) ->
  (forall x, x ∈ l -> nota_valida (h x) = true) ->
  fecha_legible {| columns := C; rows := map h l |} = true ->
  filtroAndreani.pasos {| columns := C; rows := map h l |}
  = Ok ({| columns := columnas_trabajo_andreani;
           rows := map (fun x => fila_andreani C (h x)) l |},
        {| columns := C; rows := map (fun x => normalizar_andreani (h x)) l |},
        fecha_del_archivo_texto {| columns := C; rows := map h l |}).
Proof.
  intros HC Hn Hleg.
  assert (Hl : forall c, c ∈ columnas_leidas -> has_column C c = true).
  { intros c Hc. apply HC. by sublista Hc. }
  unfold filtroAndreani.pasos.
  rewrite (fecha_strftime_legible _ Hleg). cbn [bind].
  rewrite getitem_columns_ok; cycle 1.
  { intros c Hc. apply HC. by sublista Hc. }
  cbn [bind rows columns].
  rewrite !length_map.
  do 8 (rewrite insert_map by reflexivity; cbn [bind take drop app]).
  assert (HSC : has_column C "Shipping Company" = true)
    by (apply HC; apply list_elem_of_In; cbn; tauto).
  assert (HSN : has_column C "Shipping Name" = true)
    by (apply HC; apply list_elem_of_In; cbn; tauto).
  assert (HSP : has_column C "Shipping Phone" = true)
    by (apply HC; apply list_elem_of_In; cbn; tauto).
  rewrite getitem_map by done. cbn [bind].
  rewrite astype_str_map, Series_str_replace_map, setitem_map by done.
  rewrite getitem_map by done. cbn [bind].
  rewrite astype_str_map, Series_str_replace_map, setitem_map by done.
  rewrite getitem_map by done. cbn [bind].
  rewrite fillna_empty_map, setitem_map by done.
  rewrite getitem_map by done. cbn [bind].
  rewrite astype_str_map, Series_str_replace_map, setitem_map by done.
  assert (Hok : forall x, x ∈ l ->
    (exists a, filtroAndreani.bucle1 C (normalizar_andreani (h x)) = Ok a)
    /\ (exists a, filtroAndreani.bucle2 C (normalizar_andreani (h x)) = Ok a)
    /\ (exists a, filtroAndreani.bucle3 C (normalizar_andreani (h x)) = Ok a)
    /\ (exists a, filtroAndreani.bucle4 C (normalizar_andreani (h x)) = Ok a)).
  { intros x Hx. apply (andreani_cuerpos_ok C (h x)); auto.
    apply normalizar_andreani_otras. }
  rewrite iterrows_map; cycle 1.
  { intros x Hx. exact (proj1 (Hok x Hx)). }
  cbn [bind].
  rewrite iterrows_map; cycle 1.
  { intros x Hx. exact (proj1 (proj2 (Hok x Hx))). }
  cbn [bind].
  rewrite iterrows_map; cycle 1.
  { intros x Hx. exact (proj1 (proj2 (proj2 (Hok x Hx)))). }
  cbn [bind].
  rewrite iterrows_map; cycle 1.
  { intros x Hx. exact (proj2 (proj2 (proj2 (Hok x Hx)))). }
  cbn [bind].
  rewrite iterrows_map; cycle 1.
  { intros x Hx. eexists. reflexivity. }
  cbn [bind].
  reflexivity.
Qed.

Lemma andreani_clasificar_map {A} (C : list string) (h : A -> row) (l : list A) :
  (forall c, c ∈ columnas_andreani -> has_column C c = true) ->
  (forall x, x ∈ l -> nota_valida (h x) = true) ->
  fecha_legible {| columns := C; rows := map h l |} = true ->
  filtroAndreani.clasificar {| columns := C; rows := map h l |}
  = Ok ({| columns := columnas_trabajo_andreani;
           rows := map (fun x => fila_andreani C (h x)) l |},
        {| columns := C; rows := map (fun x => normalizar_andreani (h x)) l |}).
Proof.
  intros HC Hn Hleg. unfold filtroAndreani.clasificar.
  by rewrite (andreani_pasos_map C h l HC Hn Hleg).
Qed.

Lemma andreani_bucle5 (cols : list string) (n wr : row) :
  aplicar (asignado (filtroAndreani.bucle5 cols n)) wr "Status"%string
  = wr "Status"%string
  /\ aplicar (asignado (filtroAndreani.bucle5 cols n)) wr "Name"%string
     = wr "Name"%string.
Proof. split; reflexivity. Qed.

Lemma andreani_pasos (t : DataFrame) :
  esquema columnas_andreani t = true ->
  notas_validas t = true ->
  fecha_legible t = true ->
  filtroAndreani.pasos t
  = Ok ({| columns := columnas_trabajo_andreani;
           rows := map (fila_andreani (columns t)) (rows t) |},
        {| columns := columns t; rows := map normalizar_andreani (rows t) |},
        fecha_del_archivo_texto t).
Proof.
  intros He Hn Hleg. destruct t as [C l]. cbn [columns rows].
  pose proof (andreani_pasos_map C (fun r => r) l) as H.
  rewrite (map_id l) in H. apply H.
  - intros c Hc. by apply (esquema_has _ _ _ He).
  - intros x Hx. unfold notas_validas in Hn. cbn [rows] in Hn.
    rewrite forallb_forall in Hn. apply Hn. by apply list_elem_of_In.
  - exact Hleg.
Qed.

Lemma andreani_clasificar (t : DataFrame) :
  esquema columnas_andreani t = true ->
  notas_validas t = true ->
  fecha_legible t = true ->
  filtroAndreani.clasificar t
  = Ok ({| columns := columnas_trabajo_andreani;
           rows := map (fila_andreani (columns t)) (rows t) |},
        {| columns := columns t; rows := map normalizar_andreani (rows t) |}).
Proof.
  intros He Hn Hleg. unfold filtroAndreani.clasificar.
  by rewrite (andreani_pasos t He Hn Hleg).
Qed.

(** The loops of filtroAndreani leave on a line the status of the rule
    table and keep its order id. *)
Lemma fila_andreani_spec (C : list string) (r : row) :
  (forall c, c ∈ columnas_leidas -> has_column C c = true) ->
  nota_valida r = true ->
  fila_andreani C r "Status"%string = Str (status_de_linea r)
  /\ fila_andreani C r "Name"%string = r "Name"%string.
Proof.
  intros Hl Hn. unfold fila_andreani, status_de_linea.
  cbv zeta. set (w0 := row_set "CodNum" _ _).
  assert (H0 : w0 "Status"%string = Str []) by reflexivity.
  pose proof (normalizar_andreani_id r) as Hid.
  pose proof (normalizar_andreani_otras r) as Ho.
  destruct (andreani_bucle1 C Hl r _ Hid Ho w0 [] H0) as (a1 & -> & H1 & F1).
  cbn [asignado].
  destruct (andreani_bucle2 C Hl r _ Hid Ho _ _ H1) as (a2 & -> & H2 & F2).
  cbn [asignado].
  destruct (andreani_bucle3 C Hl r _ Hid Ho _ _ H2) as (a3 & -> & H3 & F3).
  cbn [asignado].
  destruct (andreani_bucle4 C Hl r _ Hid Ho _ _ Hn H3) as (a4 & -> & H4 & F4).
  cbn [asignado].
  rewrite (proj1 (andreani_bucle5 _ _ _)), (proj2 (andreani_bucle5 _ _ _)).
  split; [exact H4|].
  rewrite F4, F3, F2, F1 by done. reflexivity.
Qed.

End andreani.

(** ** groupby *)

Lemma insert_key_perm (k : cell) (ks : list cell) : insert_key k ks ≡ₚ k :: ks.
Proof.
  induction ks as [|k' ks IH]; [done|].
  cbn [insert_key]. destruct (key_leb k k'); [done|].
  rewrite IH. apply Permutation_swap.
Qed.

Lemma sort_keys_perm (ks : list cell) : sort_keys ks ≡ₚ ks.
Proof.
  unfold sort_keys. induction ks as [|k ks IH]; [done|].
  cbn [foldr]. by rewrite insert_key_perm, IH.
Qed.

Lemma elem_of_group_keys (by_ : string) (w : list row) (k : cell) :
  k ∈ group_keys by_ w <-> notnull k = true /\ exists r, r ∈ w /\ r by_ = k.
Proof.
  unfold group_keys. rewrite sort_keys_perm, elem_of_remove_dups.
  rewrite list_elem_of_filter, list_elem_of_fmap.
  split.
  - intros (Hk & r & -> & Hr). eauto.
  - intros (Hk & r & Hr & <-). eauto.
Qed.

Lemma NoDup_group_keys (by_ : string) (w : list row) : NoDup (group_keys by_ w).
Proof. unfold group_keys. rewrite sort_keys_perm. apply NoDup_remove_dups. Qed.

Lemma elem_of_flat_map {A B} (f : A -> list B) (l : list A) (y : B) :
  y ∈ flat_map f l <-> exists x, x ∈ l /\ y ∈ f x.
Proof.
  rewrite list_elem_of_In, in_flat_map. split.
  - intros (x & Hx & Hy). exists x. by rewrite !list_elem_of_In.
  - intros (x & Hx & Hy). exists x. by rewrite <- !list_elem_of_In.
Qed.

Lemma Forall2_map_elem {A B} (R : B -> A -> Prop) (h : A -> B) (g : list A) :
  (forall x, x ∈ g -> R (h x) x) -> Forall2 R (map h g) g.
Proof.
  induction g as [|x g IH]; intros H; [constructor|].
  cbn [map]. constructor; [apply H; by left|]. apply IH. intros y Hy. apply H. by right.
Qed.

Lemma Forall2_flat_map_elem {A B C} (R : B -> C -> Prop) (F : A -> list B)
    (G : A -> list C) (ks : list A) :
  (forall k, k ∈ ks -> Forall2 R (F k) (G k)) ->
  Forall2 R (flat_map F ks) (flat_map G ks).
Proof.
  induction ks as [|k ks IH]; intros H; [constructor|].
  cbn [flat_map]. apply Forall2_app; [apply H; by left|].
  apply IH. intros k' Hk'. apply H. by right.
Qed.

Section consolidacion.
(** The function applied to each group, in either processor. *)
Variable f : list row -> list row.
Hypothesis Hf : forall group,
  f group = match group with
            | [] => []
            | first :: _ => map (row_set "Status" (first "Status"%string)) group
            end.

Lemma elem_of_grupo (group : list row) (r : row) :
  r ∈ f group <->
  exists first r0, head group = Some first /\ r0 ∈ group
                   /\ r = row_set "Status" (first "Status"%string) r0.
Proof.
  rewrite Hf. destruct group as [|first rest].
  - split; [by intros ?%elem_of_nil|by intros (? & ? & ? & _)].
  - rewrite list_elem_of_fmap. cbn [head]. split.
    + intros (r0 & -> & Hr0). eauto.
    + intros (first' & r0 & [= <-] & Hr0 & ->). eauto.
Qed.

Lemma groupby_unificado (df : DataFrame) :
  unificado (rows df) (rows (groupby_apply "Name" f df)).
Proof using Hf.
  unfold unificado, groupby_apply, agrupadas. cbn [rows].
  apply Forall2_flat_map_elem. intros k Hk. rewrite Hf.
  destruct (filter (fun r => r "Name"%string = k) (rows df)) as [|q rest] eqn:Hfil;
    [constructor|].
  apply (Forall2_map_elem _ (row_set "Status" (q "Status"%string)) (q :: rest)).
  intros x Hx. rewrite <- Hfil in Hx.
  apply list_elem_of_filter in Hx as [Hname Hxl].
  split; [reflexivity|]. exists q. split; [|reflexivity].
  unfold primera_linea. by rewrite Hname, Hfil.
Qed.

End consolidacion.

Lemma Forall2_elem_l {A B} (R : A -> B -> Prop) (l : list A) (k : list B) (a : A) :
  Forall2 R l k -> a ∈ l -> exists b, b ∈ k /\ R a b.
Proof.
  induction 1 as [|x y l k Hxy HF IH]; intros Ha; [by apply elem_of_nil in Ha|].
  apply elem_of_cons in Ha as [->|Ha].
  - exists y. split; [by left|done].
  - destruct (IH Ha) as (b & Hb & HR). exists b. split; [by right|done].
Qed.

(** Every line left carries the status of the first line of its order. *)
Lemma unificado_elem (pre post : list row) (r : row) :
  unificado pre post -> r ∈ post ->
  exists p, primera_linea (r "Name"%string) pre = Some p
            /\ r "Status"%string = p "Status"%string.
Proof.
  intros Hu Hr.
  destruct (Forall2_elem_l _ _ _ r Hu Hr) as (x & _ & Hname & p & Hp & Hs).
  exists p. by rewrite Hname.
Qed.

Lemma unificado_map (h : row -> row) (pre post : list row) :
  (forall r, h r "Name"%string = r "Name"%string) ->
  (forall r, h r "Status"%string = r "Status"%string) ->
  unificado pre post -> unificado pre (map h post).
Proof.
  intros Hn Hs H. unfold unificado. apply Forall2_fmap_l.
  revert H. apply Forall2_impl. intros o x (Hname & p & Hp & Hst).
  unfold compose. cbn beta. rewrite Hn, Hs. eauto.
Qed.

(** *** The status column after the grouping *)

Lemma map_flat_map {A B C} (g : B -> C) (h : A -> list B) (l : list A) :
  map g (flat_map h l) = flat_map (fun x => map g (h x)) l.
Proof.
  induction l as [|x l IH]; [done|]. cbn [flat_map].
  by rewrite map_app, IH.
Qed.

Lemma filter_nombre (k : cell) (l : list row) :
  filter (fun p : cell * cell => p.1 = k)
    (map (fun r => (r "Name"%string, r "Status"%string)) l)
  = map (fun r => (r "Name"%string, r "Status"%string))
      (filter (fun r => r "Name"%string = k) l).
Proof.
  induction l as [|x l IH]; [done|].
  cbn [map]. rewrite !filter_cons. cbn [fst].
  case_decide; cbn [map]; by rewrite IH.
Qed.

Lemma zip_with_map_self {A B C} (f : B -> A -> C) (g : A -> B) (l : list A) :
  zip_with f (map g l) l = map (fun x => f (g x) x) l.
Proof. induction l as [|x l IH]; [done|]. cbn. by rewrite IH. Qed.

Section columna_status.
Variable f : list row -> list row.
Hypothesis Hf : forall group,
  f group = match group with
            | [] => []
            | first :: _ => map (row_set "Status" (first "Status"%string)) group
            end.

Lemma Status_column_groupby (df : DataFrame) :
  Status_column (groupby_apply "Name" f df)
  = status_por_pedido
      (map (fun r => (r "Name"%string, r "Status"%string)) (rows df)).
Proof using Hf.
  unfold Status_column, status_por_pedido, groupby_apply, group_keys.
  cbn [rows]. rewrite map_flat_map, map_map. cbn [fst].
  apply flat_map_ext. intros k.
  rewrite filter_nombre, Hf.
  destruct (filter (fun r => r "Name"%string = k) (rows df)) as [|first rest];
    [reflexivity|].
  cbn [map snd]. f_equal. rewrite !map_map. reflexivity.
Qed.

End columna_status.

Lemma argentina_finalizar_rows (df : DataFrame) :
  rows (FiltroArgentina.finalizar df) = map telefono_final (rows df).
Proof.
  unfold FiltroArgentina.finalizar, setitem. cbn [rows].
  rewrite astype_str_map, Series_str_replace_map.
  by rewrite zip_with_map_self.
Qed.

Lemma andreani_finalizar_rows (df : DataFrame) :
  rows (filtroAndreani.finalizar df) = map telefono_final (rows df).
Proof.
  unfold filtroAndreani.finalizar, setitem. cbn [rows].
  rewrite astype_str_map, Series_str_replace_map.
  by rewrite zip_with_map_self.
Qed.

Lemma Status_column_telefono (l : list row) :
  map (fun r => r "Status"%string) (map telefono_final l)
  = map (fun r => r "Status"%string) l.
Proof. by rewrite map_map. Qed.

(** ** The rule table reads the cleaned id field *)

Section reglas.
Context {RT : Runtime}.

Lemma status_de_linea_normalizar (r : row) :
  status_de_linea (normalizar r) = status_de_linea r.
Proof.
  unfold status_de_linea, paso4, paso3, paso2, paso1, es_paid, es_caba,
    es_prioritario, tiene_notas, id_limpio.
  rewrite normalizar_id, limpiar_idemp.
  rewrite !normalizar_otra by done. reflexivity.
Qed.

Lemma nota_valida_normalizar (r : row) :
  nota_valida (normalizar r) = nota_valida r.
Proof. reflexivity. Qed.

End reglas.

(** ** The two processors, end to end *)

Section extremo.
Context {RT : Runtime}.

Lemma argentina_assign_status (group : list row) :
  FiltroArgentina.assign_status group
  = match group with
    | [] => []
    | first :: _ => map (row_set "Status" (first "Status"%string)) group
    end.
Proof. reflexivity. Qed.

Lemma andreani_assign_status (group : list row) :
  filtroAndreani.assign_status group
  = match group with
    | [] => []
    | first :: _ => map (row_set "Status" (first "Status"%string)) group
    end.
Proof. reflexivity. Qed.

(** The order ids and statuses of the working table of FiltroArgentina. *)
Lemma argentina_nombre_status {A} (C : list string) (created : list cell)
    (h : A -> row) (l : list A) :
  (forall c, c ∈ columnas_leidas -> has_column C c = true) ->
  (forall x, x ∈ l -> nota_valida (h x) = true) ->
  map (fun r => (r "Name"%string, r "Status"%string))
    (map (fun x => fila_argentina C created (h x)) l)
  = map (fun x => (h x "Name"%string, Str (status_de_linea (h x)))) l.
Proof.
  intros Hl Hn. rewrite map_map. apply map_ext_in. intros x Hx.
  apply list_elem_of_In in Hx.
  destruct (fila_argentina_spec C created (h x) Hl (Hn x Hx)) as [Hs Hf].
  rewrite Hs, Hf by done. reflexivity.
Qed.

Lemma andreani_nombre_status {A} (C : list string) (h : A -> row) (l : list A) :
  (forall c, c ∈ columnas_leidas -> has_column C c = true) ->
  (forall x, x ∈ l -> nota_valida (h x) = true) ->
  map (fun r => (r "Name"%string, r "Status"%string))
    (map (fun x => fila_andreani C (h x)) l)
  = map (fun x => (h x "Name"%string, Str (status_de_linea (h x)))) l.
Proof.
  intros Hl Hn. rewrite map_map. apply map_ext_in. intros x Hx.
  apply list_elem_of_In in Hx.
  destruct (fila_andreani_spec C (h x) Hl (Hn x Hx)) as [Hs Hf].
  by rewrite Hs, Hf.
Qed.

Lemma argentina_procesar_map {A} (C : list string) (h : A -> row) (l : list A) :
  (forall c, c ∈ columnas_argentina -> has_column C c = true) ->
  (forall x, x ∈ l -> nota_valida (h x) = true) ->
  fechas_validas {| columns := C; rows := map h l |} = true ->
  exists out,
    FiltroArgentina.procesar_archivo {| columns := C; rows := map h l |} = Ok out
    /\ FiltroArgentina.archcsv1 out
       = {| columns := C; rows := map (fun x => normalizar (h x)) l |}
    /\ Status_column (FiltroArgentina.ArchivoFinal out)
       = status_por_pedido
           (map (fun x => (h x "Name"%string, Str (status_de_linea (h x)))) l).
Proof.
  intros HC Hn Hf. unfold FiltroArgentina.procesar_archivo.
  rewrite (argentina_pasos_map C h l HC Hn Hf). cbn [bind fst snd].
  eexists. split; [reflexivity|]. cbn [FiltroArgentina.archcsv1
    FiltroArgentina.ArchivoFinal]. split; [reflexivity|].
  unfold Status_column. rewrite argentina_finalizar_rows, Status_column_telefono.
  unfold FiltroArgentina.consolidar.
  pose proof (Status_column_groupby _ argentina_assign_status) as H.
  unfold Status_column in H. rewrite H. cbn [rows].
  rewrite argentina_nombre_status; [done| |done].
  intros c Hc. apply HC. by sublista Hc.
Qed.

Lemma andreani_procesar_map {A} (C : list string) (h : A -> row) (l : list A) :
  (forall c, c ∈ columnas_andreani -> has_column C c = true) ->
  (forall x, x ∈ l -> nota_valida (h x) = true) ->
  fecha_legible {| columns := C; rows := map h l |} = true ->
  exists out,
    filtroAndreani.procesar_archivo {| columns := C; rows := map h l |} = Ok out
    /\ filtroAndreani.archcsv2 out
       = {| columns := C; rows := map (fun x => normalizar_andreani (h x)) l |}
    /\ Status_column (filtroAndreani.ArchivoFinal2 out)
       = status_por_pedido
           (map (fun x => (h x "Name"%string, Str (status_de_linea (h x)))) l).
Proof.
  intros HC Hn Hf. unfold filtroAndreani.procesar_archivo.
  rewrite (andreani_pasos_map C h l HC Hn Hf). cbn [bind fst snd].
  eexists. split; [reflexivity|]. cbn [filtroAndreani.archcsv2
    filtroAndreani.ArchivoFinal2]. split; [reflexivity|].
  unfold Status_column. rewrite andreani_finalizar_rows, Status_column_telefono.
  unfold filtroAndreani.consolidar.
  pose proof (Status_column_groupby _ andreani_assign_status) as H.
  unfold Status_column in H. rewrite H. cbn [rows].
  rewrite andreani_nombre_status; [done| |done].
  intros c Hc. apply HC. by sublista Hc.
Qed.

End extremo.

(** ** The status of one line before the grouping *)

Section linea.
Context {RT : Runtime}.

Lemma notas_validas_fila (t : DataFrame) (r : row) :
  notas_validas t = true -> r ∈ rows t -> nota_valida r = true.
Proof.
  unfold notas_validas. rewrite forallb_forall. intros H Hr.
  apply H. by apply list_elem_of_In.
Qed.

Lemma esquema_leidas_argentina (t : DataFrame) :
  esquema columnas_argentina t = true ->
  forall c, c ∈ columnas_leidas -> has_column (columns t) c = true.
Proof. intros He c Hc. apply (esquema_has _ _ _ He). by sublista Hc. Qed.

Lemma esquema_leidas_andreani (t : DataFrame) :
  esquema columnas_andreani t = true ->
  forall c, c ∈ columnas_leidas -> has_column (columns t) c = true.
Proof. intros He c Hc. apply (esquema_has _ _ _ He). by sublista Hc. Qed.

Lemma argentina_status_linea (t : DataFrame) (i : nat) (r : row) :
  esquema columnas_argentina t = true ->
  notas_validas t = true ->
  fechas_validas t = true ->
  rows t !! i = Some r ->
  exists w t',
    FiltroArgentina.clasificar t = Ok (w, t')
    /\ Status_column w !! i = Some (Str (status_de_linea r)).
Proof.
  intros He Hn Hf Hi. rewrite (argentina_clasificar t He Hn Hf).
  eexists _, _. split; [reflexivity|].
  unfold Status_column. cbn [rows]. rewrite map_map.
  change (map ?f ?l) with (f <$> l).
  rewrite list_lookup_fmap, Hi. cbn [fmap option_fmap option_map]. f_equal.
  refine (proj1 (fila_argentina_spec _ _ r (esquema_leidas_argentina t He) _)).
  apply (notas_validas_fila t); [done|]. by apply list_elem_of_lookup_2 in Hi.
Qed.

Lemma andreani_status_linea (t : DataFrame) (i : nat) (r : row) :
  esquema columnas_andreani t = true ->
  notas_validas t = true ->
  fecha_legible t = true ->
  rows t !! i = Some r ->
  exists w t',
    filtroAndreani.clasificar t = Ok (w, t')
    /\ Status_column w !! i = Some (Str (status_de_linea r)).
Proof.
  intros He Hn Hf Hi. rewrite (andreani_clasificar t He Hn Hf).
  eexists _, _. split; [reflexivity|].
  unfold Status_column. cbn [rows]. rewrite map_map.
  change (map ?f ?l) with (f <$> l).
  rewrite list_lookup_fmap, Hi. cbn [fmap option_fmap option_map]. f_equal.
  refine (proj1 (fila_andreani_spec _ r (esquema_leidas_andreani t He) _)).
  apply (notas_validas_fila t); [done|]. by apply list_elem_of_lookup_2 in Hi.
Qed.

(** The rule table on the lines the claims single out. *)

Lemma status_de_linea_notas (r : row) :
  es_paid r = true -> tiene_notas r = true ->
  status_de_linea r = REVISAR_NOTAS.
Proof. intros Hp Hn. unfold status_de_linea, paso4. by rewrite Hp, Hn. Qed.

Lemma status_de_linea_caba (r : row) :
  es_paid r = true -> nota_en_blanco r = true ->
  eq_lit (r "Shipping Province Name"%string) Tierra_del_Fuego = false ->
  es_caba r = true ->
  status_de_linea r = if es_prioritario r then CABA_PRIORITARIO else CABA.
Proof.
  intros Hp Hb Ht Hc.
  assert (Hn : tiene_notas r = false).
  { unfold tiene_notas, nota_en_blanco in *.
    destruct (r "Notes"%string); try done. by destruct (truthy (strip s)). }
  unfold status_de_linea, paso4, paso3, paso2.
  rewrite Hp, Hn, Ht, Hc. cbn [andb]. by destruct (es_prioritario r).
Qed.

Lemma status_de_linea_no_pagado (r : row) :
  es_paid r = false ->
  status_de_linea r = status_no_pagado (r "Financial Status"%string).
Proof.
  intros Hp. unfold status_de_linea, paso4, paso3, paso2, paso1, status_no_pagado.
  rewrite Hp. reflexivity.
Qed.

End linea.

(** The table FiltroArgentina returns, with its working table. *)
Lemma consolidation_unificado_argentina {RT : Runtime} (t : DataFrame) :
  esquema columnas_argentina t = true ->
  notas_validas t = true ->
  fechas_validas t = true ->
  exists w t' out,
    FiltroArgentina.clasificar t = Ok (w, t')
    /\ FiltroArgentina.procesar_archivo t = Ok out
    /\ rows w = map (fila_argentina (columns t)
                       (map (fun r => r "Created at"%string) (rows t))) (rows t)
    /\ unificado (rows w) (rows (FiltroArgentina.ArchivoFinal out)).
Proof.
  intros He Hn Hf.
  unfold FiltroArgentina.procesar_archivo, FiltroArgentina.clasificar.
  rewrite (argentina_pasos t He Hn Hf). cbn [bind fst snd].
  eexists _, _, _. split; [reflexivity|]. split; [reflexivity|].
  split; [reflexivity|].
  cbn [FiltroArgentina.ArchivoFinal]. rewrite argentina_finalizar_rows.
  apply unificado_map; [done|done|].
  apply groupby_unificado, argentina_assign_status.
Qed.

(** *** What the grouping keeps *)

Lemma filter_nombre_split (k : cell) (ks : list cell) (w : list row) :
  k ∉ ks ->
  filter (fun r => r "Name"%string ∈ k :: ks) w
  ≡ₚ filter (fun r => r "Name"%string = k) w
     ++ filter (fun r => r "Name"%string ∈ ks) w.
Proof.
  intros Hk. induction w as [|x w IH]; [done|].
  rewrite !filter_cons.
  destruct (decide (x "Name"%string = k)) as [Heq|Hne].
  - rewrite decide_True by (rewrite Heq; by left).
    rewrite decide_False by (by rewrite Heq).
    cbn [app]. by rewrite IH.
  - destruct (decide (x "Name"%string ∈ ks)) as [Hin|Hnin].
    + rewrite decide_True by (by right).
      rewrite IH. apply Permutation_middle.
    + rewrite decide_False; [done|].
      intros [?|?]%elem_of_cons; done.
Qed.

Lemma flat_map_filter_nombre (ks : list cell) (w : list row) :
  NoDup ks ->
  flat_map (fun k => filter (fun r => r "Name"%string = k) w) ks
  ≡ₚ filter (fun r => r "Name"%string ∈ ks) w.
Proof.
  induction 1 as [|k ks Hk Hnd IH].
  - cbn [flat_map]. induction w as [|x w IHw]; [done|].
    rewrite filter_cons, decide_False; [done|]. by intros ?%elem_of_nil.
  - cbn [flat_map]. by rewrite IH, filter_nombre_split.
Qed.

Lemma filter_ext_elem {A} (P Q : A -> Prop) `{!forall x, Decision (P x)}
    `{!forall x, Decision (Q x)} (l : list A) :
  (forall x, x ∈ l -> P x <-> Q x) -> filter P l = filter Q l.
Proof.
  induction l as [|x l IH]; intros Hext; [done|].
  rewrite !filter_cons.
  destruct (decide (P x)) as [HP|HP].
  - rewrite decide_True by (apply Hext; [by left|done]).
    rewrite IH; [done|]. intros y Hy. apply Hext. by right.
  - rewrite decide_False by (intros HQ; apply HP, Hext; [by left|done]).
    apply IH. intros y Hy. apply Hext. by right.
Qed.

(** The grouping hands back the lines that have an order id, each once. *)
Lemma agrupadas_perm (w : list row) :
  agrupadas w ≡ₚ filter (fun p => notnull (p "Name"%string) = true) w.
Proof.
  unfold agrupadas.
  rewrite flat_map_filter_nombre by apply NoDup_group_keys.
  erewrite filter_ext_elem; [done|].
  intros x Hx. rewrite elem_of_group_keys. split; [by intros [? _]|eauto].
Qed.

Lemma Forall2_flat_map {A B C} (R : B -> C -> Prop) (F : A -> list B)
    (G : A -> list C) (ks : list A) :
  (forall k, Forall2 R (F k) (G k)) ->
  Forall2 R (flat_map F ks) (flat_map G ks).
Proof.
  intros H. induction ks as [|k ks IH]; [constructor|].
  cbn [flat_map]. by apply Forall2_app.
Qed.

Section marco.
Variable f : list row -> list row.
Hypothesis Hf : forall group,
  f group = match group with
            | [] => []
            | first :: _ => map (row_set "Status" (first "Status"%string)) group
            end.

(** The grouping changes the status column only. *)
Lemma groupby_solo_status (df : DataFrame) :
  Forall2 (fun o p => forall c, c <> "Status"%string -> o c = p c)
    (rows (groupby_apply "Name" f df)) (agrupadas (rows df)).
Proof using Hf.
  unfold groupby_apply, agrupadas. cbn [rows].
  apply Forall2_flat_map. intros k. rewrite Hf.
  destruct (filter _ (rows df)) as [|first rest]; [constructor|].
  generalize (first :: rest). intros g.
  induction g as [|x g IH]; [constructor|].
  cbn [map]. constructor; [|exact IH].
  intros c Hc. unfold row_set. by destruct (String.eqb_spec c "Status").
Qed.

End marco.

Lemma observar_Ok {A B} (f : A -> B) (m : result A) (b : B) :
  observar f m = Ok b -> exists a, m = Ok a /\ f a = b.
Proof. destruct m as [a|e]; [|done]. intros [= <-]. eauto. Qed.

(** ** The claims *)

(** C9. When the first run returns (columns there, notes of paid lines text
    or missing, date steps going through), running the classification again
    on the table it left (its id column rewritten in place) returns too and
    gives every line the status the first run gave it. *)
Theorem rerun_same_statuses {RT : Runtime} (t : DataFrame) :
  esquema columnas_argentina t = true ->
  notas_validas t = true ->
  fechas_validas t = true ->
  exists out out',
    FiltroArgentina.procesar_archivo t = Ok out
    /\ FiltroArgentina.procesar_archivo (FiltroArgentina.archcsv1 out) = Ok out'
    /\ Status_column (FiltroArgentina.ArchivoFinal out')
       = Status_column (FiltroArgentina.ArchivoFinal out).
Proof.
  intros He Hn Hf. destruct t as [C l].
  assert (HC : forall c, c ∈ columnas_argentina -> has_column C c = true)
    by (intros c Hc; by apply (esquema_has _ _ _ He)).
  assert (Hn' : forall x, x ∈ l -> nota_valida x = true).
  { intros x Hx. unfold notas_validas in Hn. cbn [rows] in Hn.
    rewrite forallb_forall in Hn. apply Hn. by apply list_elem_of_In. }
  assert (Hf1 : fechas_validas {| columns := C; rows := map (fun r => r) l |} = true)
    by (by rewrite (map_id l)).
  assert (Hf2 : fechas_validas {| columns := C; rows := map normalizar l |} = true)
    by (by rewrite fechas_validas_normalizar).
  destruct (argentina_procesar_map C (fun r => r) l HC Hn' Hf1) as (out & H1 & H2 & H3).
  destruct (argentina_procesar_map C normalizar l HC Hn' Hf2) as (out' & H1' & _ & H3').
  rewrite (map_id l) in H1.
  exists out, out'. split; [exact H1|]. rewrite H2.
  split; [exact H1'|]. rewrite H3, H3'. f_equal.
  apply map_ext. intros x.
  by rewrite status_de_linea_normalizar, (normalizar_otra x "Name").
Qed.

Lemma rerun_same_statuses_witness :
  exists out out',
    FiltroArgentina.procesar_archivo (RT:=runtime_ascii) ejemplo_lote = Ok out
    /\ FiltroArgentina.procesar_archivo (RT:=runtime_ascii)
         (FiltroArgentina.archcsv1 out) = Ok out'
    /\ Status_column (FiltroArgentina.ArchivoFinal out')
       = Status_column (FiltroArgentina.ArchivoFinal out).
Proof.
  exact (rerun_same_statuses (RT:=runtime_ascii) ejemplo_lote
           eq_refl eq_refl eq_refl).
Defined.

(** C10. When the date steps go through, the carrier processor gives every
    line the status the generic processor gives it, whether it reads the
    table as the caller built it or the table as the generic processor left
    it (id column rewritten in place), which is what
    [boton_cargar_archivos] hands to it. *)
Theorem andreani_status_equals_argentina_status {RT : Runtime} (t : DataFrame) :
  esquema columnas_argentina t = true ->
  esquema columnas_andreani t = true ->
  notas_validas t = true ->
  fechas_validas t = true ->
  exists a b b',
    FiltroArgentina.procesar_archivo t = Ok a
    /\ filtroAndreani.procesar_archivo t = Ok b
    /\ filtroAndreani.procesar_archivo (FiltroArgentina.archcsv1 a) = Ok b'
    /\ boton_cargar_archivos t = Ok (a, b')
    /\ Status_column (filtroAndreani.ArchivoFinal2 b)
       = Status_column (FiltroArgentina.ArchivoFinal a)
    /\ Status_column (filtroAndreani.ArchivoFinal2 b')
       = Status_column (FiltroArgentina.ArchivoFinal a).
Proof.
  intros HeA HeB Hn Hf. destruct t as [C l].
  assert (HCA : forall c, c ∈ columnas_argentina -> has_column C c = true)
    by (intros c Hc; by apply (esquema_has _ _ _ HeA)).
  assert (HCB : forall c, c ∈ columnas_andreani -> has_column C c = true)
    by (intros c Hc; by apply (esquema_has _ _ _ HeB)).
  assert (Hn' : forall x, x ∈ l -> nota_valida x = true).
  { intros x Hx. unfold notas_validas in Hn. cbn [rows] in Hn.
    rewrite forallb_forall in Hn. apply Hn. by apply list_elem_of_In. }
  assert (Hf1 : fechas_validas {| columns := C; rows := map (fun r => r) l |} = true)
    by (by rewrite (map_id l)).
  assert (Hl1 : fecha_legible {| columns := C; rows := map (fun r => r) l |} = true)
    by (by apply fechas_validas_legible).
  assert (Hl2 : fecha_legible {| columns := C; rows := map normalizar l |} = true).
  { rewrite fecha_legible_normalizar. by apply fechas_validas_legible. }
  destruct (argentina_procesar_map C (fun r => r) l HCA Hn' Hf1) as (a & Ha & Ha1 & Ha2).
  destruct (andreani_procesar_map C (fun r => r) l HCB Hn' Hl1) as (b & Hb & _ & Hb2).
  destruct (andreani_procesar_map C normalizar l HCB Hn' Hl2) as (b' & Hb' & _ & Hb2').
  rewrite (map_id l) in Ha, Hb.
  exists a, b, b'. split; [exact Ha|]. split; [exact Hb|].
  assert (Hb'' : filtroAndreani.procesar_archivo (FiltroArgentina.archcsv1 a) = Ok b')
    by (rewrite Ha1; exact Hb').
  split; [exact Hb''|]. split.
  { unfold boton_cargar_archivos. rewrite Ha. cbn [bind]. by rewrite Hb''. }
  split; [by rewrite Hb2, Ha2|].
  rewrite Hb2', Ha2. f_equal. apply map_ext. intros x.
  by rewrite status_de_linea_normalizar, (normalizar_otra x "Name").
Qed.

Lemma andreani_status_equals_argentina_status_witness :
  exists a b b',
    FiltroArgentina.procesar_archivo (RT:=runtime_ascii) ejemplo_lote = Ok a
    /\ filtroAndreani.procesar_archivo (RT:=runtime_ascii) ejemplo_lote = Ok b
    /\ filtroAndreani.procesar_archivo (RT:=runtime_ascii)
         (FiltroArgentina.archcsv1 a) = Ok b'
    /\ boton_cargar_archivos (RT:=runtime_ascii) ejemplo_lote = Ok (a, b')
    /\ Status_column (filtroAndreani.ArchivoFinal2 b)
       = Status_column (FiltroArgentina.ArchivoFinal a)
    /\ Status_column (filtroAndreani.ArchivoFinal2 b')
       = Status_column (FiltroArgentina.ArchivoFinal a).
Proof.
  exact (andreani_status_equals_argentina_status (RT:=runtime_ascii)
           ejemplo_lote eq_refl eq_refl eq_refl eq_refl).
Defined.

(** C1. The grouping hands back one line for each line that has an order
    id, order after order, and every one of them carries the status that the
    first line of its order (in the row order of the table) had just before
    the grouping, so all the lines of an order carry one status; this holds
    of the grouping step on any table, and of the table each processor
    returns when the date steps go through. *)
Theorem consolidation_first_line_status {RT : Runtime} (t : DataFrame) :
  esquema columnas_argentina t = true ->
  esquema columnas_andreani t = true ->
  notas_validas t = true ->
  fechas_validas t = true ->
  (forall w, unificado (rows w) (rows (FiltroArgentina.consolidar w)))
  /\ (forall w, unificado (rows w) (rows (filtroAndreani.consolidar w)))
  /\ (exists w t' out,
        FiltroArgentina.clasificar t = Ok (w, t')
        /\ FiltroArgentina.procesar_archivo t = Ok out
        /\ unificado (rows w) (rows (FiltroArgentina.ArchivoFinal out)))
  /\ (exists w t' out,
        filtroAndreani.clasificar t = Ok (w, t')
        /\ filtroAndreani.procesar_archivo t = Ok out
        /\ unificado (rows w) (rows (filtroAndreani.ArchivoFinal2 out))).
Proof.
  intros HeA HeB Hn Hf.
  assert (HA : forall w, unificado (rows w) (rows (FiltroArgentina.consolidar w)))
    by (intros w; apply groupby_unificado, argentina_assign_status).
  assert (HB : forall w, unificado (rows w) (rows (filtroAndreani.consolidar w)))
    by (intros w; apply groupby_unificado, andreani_assign_status).
  split; [exact HA|]. split; [exact HB|]. split.
  - unfold FiltroArgentina.procesar_archivo, FiltroArgentina.clasificar.
    rewrite (argentina_pasos t HeA Hn Hf). cbn [bind fst snd].
    eexists _, _, _. split; [reflexivity|]. split; [reflexivity|].
    cbn [FiltroArgentina.ArchivoFinal]. rewrite argentina_finalizar_rows.
    apply unificado_map; [done|done|apply HA].
  - unfold filtroAndreani.procesar_archivo, filtroAndreani.clasificar.
    rewrite (andreani_pasos t HeB Hn (fechas_validas_legible t Hf)).
    cbn [bind fst snd].
    eexists _, _, _. split; [reflexivity|]. split; [reflexivity|].
    cbn [filtroAndreani.ArchivoFinal2]. rewrite andreani_finalizar_rows.
    apply unificado_map; [done|done|apply HB].
Qed.

Lemma consolidation_first_line_status_witness :
  (forall w, unificado (rows w) (rows (FiltroArgentina.consolidar w)))
  /\ (forall w, unificado (rows w) (rows (filtroAndreani.consolidar w)))
  /\ (exists w t' out,
        FiltroArgentina.clasificar (RT:=runtime_ascii) ejemplo_mixto = Ok (w, t')
        /\ FiltroArgentina.procesar_archivo (RT:=runtime_ascii) ejemplo_mixto = Ok out
        /\ unificado (rows w) (rows (FiltroArgentina.ArchivoFinal out)))
  /\ (exists w t' out,
        filtroAndreani.clasificar (RT:=runtime_ascii) ejemplo_mixto = Ok (w, t')
        /\ filtroAndreani.procesar_archivo (RT:=runtime_ascii) ejemplo_mixto = Ok out
        /\ unificado (rows w) (rows (filtroAndreani.ArchivoFinal2 out))).
Proof.
  exact (consolidation_first_line_status (RT:=runtime_ascii)
           ejemplo_mixto eq_refl eq_refl eq_refl eq_refl).
Defined.

(** C4. A paid line whose notes are text that is not blank once trimmed has
    status REVISAR NOTAS EN SHOPIFY after the four passes, before the
    grouping, in either processor, whatever its postal code, shipping method
    and id field; the passes are reached when the date steps that come
    before them go through. *)
Theorem paid_line_with_notes_is_revisar_notas {RT : Runtime}
    (t : DataFrame) (i : nat) (r : row) (s : pystr) :
  notas_validas t = true ->
  rows t !! i = Some r ->
  r "Financial Status"%string = Str paid ->
  r "Notes"%string = Str s ->
  truthy (strip s) = true ->
  (esquema columnas_argentina t = true ->
   fechas_validas t = true ->
   exists w t', FiltroArgentina.clasificar t = Ok (w, t')
                /\ Status_column w !! i = Some (Str REVISAR_NOTAS))
  /\ (esquema columnas_andreani t = true ->
      fecha_legible t = true ->
      exists w t', filtroAndreani.clasificar t = Ok (w, t')
                   /\ Status_column w !! i = Some (Str REVISAR_NOTAS)).
Proof.
  intros Hn Hi Hp Hs Ht.
  assert (Hst : status_de_linea r = REVISAR_NOTAS).
  { apply status_de_linea_notas.
    - unfold es_paid, eq_lit. rewrite Hp. by apply bool_decide_eq_true.
    - unfold tiene_notas. by rewrite Hs. }
  split; intros He Hf.
  - destruct (argentina_status_linea t i r He Hn Hf Hi) as (w & t' & Hc & Hw).
    exists w, t'. by rewrite <- Hst.
  - destruct (andreani_status_linea t i r He Hn Hf Hi) as (w & t' & Hc & Hw).
    exists w, t'. by rewrite <- Hst.
Qed.

Lemma paid_line_with_notes_is_revisar_notas_witness :
  (exists w t', FiltroArgentina.clasificar (RT:=runtime_ascii) ejemplo_lote = Ok (w, t')
                /\ Status_column w !! 0 = Some (Str REVISAR_NOTAS))
  /\ (exists w t', filtroAndreani.clasificar (RT:=runtime_ascii) ejemplo_lote = Ok (w, t')
                   /\ Status_column w !! 0 = Some (Str REVISAR_NOTAS)).
Proof.
  destruct (paid_line_with_notes_is_revisar_notas (RT:=runtime_ascii)
              ejemplo_lote 0 _ _ eq_refl eq_refl eq_refl eq_refl eq_refl)
    as [HA HB].
  split; [apply HA; reflexivity|apply HB; reflexivity].
Defined.

(** C5. A paid line with blank notes, outside Tierra del Fuego, whose postal
    code starts with a CABA prefix has status CABA after the four passes
    when its shipping method is not the priority one, and CABA PRIORITARIO
    when it is, in either processor; the passes are reached when the date
    steps that come before them go through. *)
Theorem paid_caba_line_status {RT : Runtime} (t : DataFrame) (i : nat) (r : row) :
  notas_validas t = true ->
  rows t !! i = Some r ->
  r "Financial Status"%string = Str paid ->
  nota_en_blanco r = true ->
  eq_lit (r "Shipping Province Name"%string) Tierra_del_Fuego = false ->
  startswith_any prefijos_caba (py_str (r "Shipping Zip"%string)) = true ->
  (esquema columnas_argentina t = true ->
   fechas_validas t = true ->
   exists w t',
     FiltroArgentina.clasificar t = Ok (w, t')
     /\ Status_column w !! i
        = Some (Str (if eq_lit (r "Shipping Method"%string) Envio_Prioritario
                     then CABA_PRIORITARIO else CABA)))
  /\ (esquema columnas_andreani t = true ->
      fecha_legible t = true ->
      exists w t',
        filtroAndreani.clasificar t = Ok (w, t')
        /\ Status_column w !! i
           = Some (Str (if eq_lit (r "Shipping Method"%string) Envio_Prioritario
                        then CABA_PRIORITARIO else CABA))).
Proof.
  intros Hn Hi Hp Hb Ht Hz.
  assert (Hst : status_de_linea r
                = if eq_lit (r "Shipping Method"%string) Envio_Prioritario
                  then CABA_PRIORITARIO else CABA).
  { apply status_de_linea_caba; try done.
    unfold es_paid, eq_lit. rewrite Hp. by apply bool_decide_eq_true. }
  split; intros He Hf.
  - destruct (argentina_status_linea t i r He Hn Hf Hi) as (w & t' & Hc & Hw).
    exists w, t'. by rewrite <- Hst.
  - destruct (andreani_status_linea t i r He Hn Hf Hi) as (w & t' & Hc & Hw).
    exists w, t'. by rewrite <- Hst.
Qed.

Lemma paid_caba_line_status_witness :
  (exists w t',
     FiltroArgentina.clasificar (RT:=runtime_ascii) (ejemplo_C1425 Envio_Estandar)
     = Ok (w, t')
     /\ Status_column w !! 0 = Some (Str CABA))
  /\ (exists w t',
        FiltroArgentina.clasificar (RT:=runtime_ascii)
          (ejemplo_C1425 Envio_Prioritario) = Ok (w, t')
        /\ Status_column w !! 0 = Some (Str CABA_PRIORITARIO)).
Proof.
  split.
  - exact (proj1 (paid_caba_line_status (RT:=runtime_ascii)
                    (ejemplo_C1425 Envio_Estandar) 0 _
                    eq_refl eq_refl eq_refl eq_refl eq_refl eq_refl)
           eq_refl eq_refl).
  - exact (proj1 (paid_caba_line_status (RT:=runtime_ascii)
                    (ejemplo_C1425 Envio_Prioritario) 0 _
                    eq_refl eq_refl eq_refl eq_refl eq_refl eq_refl)
           eq_refl eq_refl).
Defined.

Lemma primera_linea_map (h : row -> row) (k : cell) (l : list row) :
  (forall r, r ∈ l -> h r "Name"%string = r "Name"%string) ->
  primera_linea k (map h l) = h <$> primera_linea k l.
Proof.
  unfold primera_linea. induction l as [|x l IH]; intros Hh; [done|].
  cbn [map]. rewrite !filter_cons, (Hh x) by (by left).
  case_decide; [done|]. apply IH. intros r Hr. apply Hh. by right.
Qed.

Lemma primera_linea_elem (k : cell) (l : list row) (p : row) :
  primera_linea k l = Some p -> p ∈ l.
Proof.
  unfold primera_linea. intros H.
  destruct (filter _ l) as [|x rest] eqn:Hf; [done|].
  injection H as ->.
  assert (Hp : p ∈ filter (fun r => r "Name"%string = k) l)
    by (rewrite Hf; by left).
  by apply list_elem_of_filter in Hp as [_ ?].
Qed.

(** C6, as amended. A line whose financial status is not paid has, after
    the four passes and before the grouping, the status of the fixed mapping
    (VENCIDO for expired, REEMBOLSADO for refunded, FALTA PAGAR for pending,
    the empty status for any other value), whatever its notes, postal code
    and shipping method; in the table returned, every line of an order whose
    first line is such a line carries that status of the first line.  The
    call returns when the columns are there, the notes of the paid lines are
    text or missing and the date steps go through. *)
Theorem unpaid_line_status {RT : Runtime} (t : DataFrame) :
  esquema columnas_argentina t = true ->
  notas_validas t = true ->
  fechas_validas t = true ->
  (status_no_pagado (Str expired) = VENCIDO
   /\ status_no_pagado (Str refunded) = REEMBOLSADO
   /\ status_no_pagado (Str pending) = FALTA_PAGAR
   /\ forall fs, eq_lit fs expired = false -> eq_lit fs refunded = false ->
                 eq_lit fs pending = false -> status_no_pagado fs = [])
  /\ exists w t' out,
       FiltroArgentina.clasificar t = Ok (w, t')
       /\ FiltroArgentina.procesar_archivo t = Ok out
       /\ (forall i r,
             rows t !! i = Some r ->
             eq_lit (r "Financial Status"%string) paid = false ->
             Status_column w !! i
             = Some (Str (status_no_pagado (r "Financial Status"%string))))
       /\ (forall r' p,
             r' ∈ rows (FiltroArgentina.ArchivoFinal out) ->
             primera_linea (r' "Name"%string) (rows t) = Some p ->
             eq_lit (p "Financial Status"%string) paid = false ->
             r' "Status"%string
             = Str (status_no_pagado (p "Financial Status"%string))).
Proof.
  intros He Hn Hfv. split.
  { repeat split. intros fs H1 H2 H3. unfold status_no_pagado.
    by rewrite H1, H2, H3. }
  pose proof (esquema_leidas_argentina t He) as Hl.
  destruct (consolidation_unificado_argentina t He Hn Hfv)
    as (w & t' & out & Hc & Hp & Hw & Hu).
  exists w, t', out. split; [exact Hc|]. split; [exact Hp|]. split.
  - intros i r Hi Hnp.
    destruct (argentina_status_linea t i r He Hn Hfv Hi) as (w2 & t2 & Hc2 & Hs).
    rewrite Hc in Hc2. injection Hc2 as <- <-.
    by rewrite Hs, status_de_linea_no_pagado.
  - intros r' p Hr' Hfirst Hnp.
    destruct (unificado_elem _ _ r' Hu Hr') as (q & Hq & ->).
    rewrite Hw in Hq. rewrite primera_linea_map, Hfirst in Hq.
    + injection Hq as <-.
      destruct (fila_argentina_spec (columns t)
                  (map (fun r => r "Created at"%string) (rows t)) p Hl) as [-> _].
      * apply (notas_validas_fila t); [done|]. by apply primera_linea_elem in Hfirst.
      * by rewrite status_de_linea_no_pagado.
    + intros r Hr.
      destruct (fila_argentina_spec (columns t)
                  (map (fun r => r "Created at"%string) (rows t)) r Hl) as [_ Hf].
      * by apply (notas_validas_fila t).
      * by rewrite Hf.
Qed.

Lemma unpaid_line_status_witness :
  exists w t',
    FiltroArgentina.clasificar (RT:=runtime_ascii) ejemplo_mixto = Ok (w, t')
    /\ Status_column w !! 1 = Some (Str VENCIDO)
    /\ Status_column w !! 2 = Some (Str []).
Proof.
  destruct (unpaid_line_status (RT:=runtime_ascii) ejemplo_mixto
              eq_refl eq_refl eq_refl)
    as (_ & w & t' & out & Hc & _ & Hw & _).
  exists w, t'. split; [exact Hc|]. split.
  - exact (Hw 1 _ eq_refl eq_refl).
  - exact (Hw 2 _ eq_refl eq_refl).
Defined.

(** C6 as stated fails: in an order whose first line is paid and in CABA,
    the expired second line and the third line, which has no financial
    status, end with CABA, not with VENCIDO and the empty status. *)
Lemma unpaid_line_status_counterexample :
  map (fun r => r "Financial Status"%string) (rows ejemplo_mixto)
  = [Str paid; Str expired; NaN]
  /\ (exists out,
        FiltroArgentina.procesar_archivo (RT:=runtime_ascii) ejemplo_mixto = Ok out
        /\ Status_column (FiltroArgentina.ArchivoFinal out)
           = [Str CABA; Str CABA; Str CABA])
  /\ CABA <> VENCIDO /\ CABA <> [].
Proof.
  split; [reflexivity|]. split; [|split; discriminate].
  assert (H : observar (fun out => Status_column (FiltroArgentina.ArchivoFinal out))
                (FiltroArgentina.procesar_archivo (RT:=runtime_ascii) ejemplo_mixto)
              = Ok [Str CABA; Str CABA; Str CABA]) by (vm_compute; reflexivity).
  apply observar_Ok in H as (out & Hout & Hs). eauto.
Qed.

Lemma Forall2_map_self {A B} (R : A -> B -> Prop) (h : A -> B) (l : list A) :
  (forall x, R x (h x)) -> Forall2 R l (map h l).
Proof. intros H. induction l as [|x l IH]; constructor; auto. Qed.

(** C7, as amended. FiltroArgentina rewrites the id column of the table it
    is given, in place, to the text of each cell without "." and " ", and
    leaves every other cell of that table as it was; filtroAndreani rewrites
    the id column the same way, fills the missing recipient names with the
    empty string and rewrites the phone column as text without "nan", and
    leaves the rest; each does so when it gets past its date steps and
    returns.  The grouping hands back the lines that have an order id, each
    once, and changes no cell of them outside the status column. *)
Theorem engine_rewrites_id_and_grouping_keeps_fields {RT : Runtime} (t : DataFrame) :
  esquema columnas_argentina t = true ->
  notas_validas t = true ->
  fechas_validas t = true ->
  (forall w,
     Forall2 (fun o p => forall c, c <> "Status"%string -> o c = p c)
       (rows (FiltroArgentina.consolidar w)) (agrupadas (rows w))
     /\ Forall2 (fun o p => forall c, c <> "Status"%string -> o c = p c)
          (rows (filtroAndreani.consolidar w)) (agrupadas (rows w))
     /\ agrupadas (rows w)
        ≡ₚ filter (fun p => notnull (p "Name"%string) = true) (rows w))
  /\ (exists out,
        FiltroArgentina.procesar_archivo t = Ok out
        /\ columns (FiltroArgentina.archcsv1 out) = columns t
        /\ Forall2
             (fun r r' =>
                r' "Shipping Company"%string = limpiar (r "Shipping Company"%string)
                /\ forall c, c <> "Shipping Company"%string -> r' c = r c)
             (rows t) (rows (FiltroArgentina.archcsv1 out)))
  /\ (esquema columnas_andreani t = true ->
      exists out,
        filtroAndreani.procesar_archivo t = Ok out
        /\ columns (filtroAndreani.archcsv2 out) = columns t
        /\ Forall2
             (fun r r' =>
                r' "Shipping Company"%string = limpiar (r "Shipping Company"%string)
                /\ r' "Shipping Name"%string
                   = match r "Shipping Name"%string with
                     | NaN => Str []
                     | _ => r "Shipping Name"%string
                     end
                /\ r' "Shipping Phone"%string
                   = Str (str_replace (u "nan") (py_str (r "Shipping Phone"%string)))
                /\ forall c,
                     c <> "Shipping Company"%string ->
                     c <> "Shipping Name"%string ->
                     c <> "Shipping Phone"%string -> r' c = r c)
             (rows t) (rows (filtroAndreani.archcsv2 out))).
Proof.
  intros He Hn Hf. split; [|split].
  - intros w. split; [|split].
    + apply groupby_solo_status, argentina_assign_status.
    + apply groupby_solo_status, andreani_assign_status.
    + apply agrupadas_perm.
  - unfold FiltroArgentina.procesar_archivo.
    rewrite (argentina_pasos t He Hn Hf). cbn [bind fst snd].
    eexists. split; [reflexivity|].
    cbn [FiltroArgentina.archcsv1 columns rows]. split; [reflexivity|].
    apply Forall2_map_self. intros r. split; [apply normalizar_id|].
    intros c Hc. by apply normalizar_otra.
  - intros HeB. unfold filtroAndreani.procesar_archivo.
    rewrite (andreani_pasos t HeB Hn (fechas_validas_legible t Hf)).
    cbn [bind fst snd].
    eexists. split; [reflexivity|].
    cbn [filtroAndreani.archcsv2 columns rows]. split; [reflexivity|].
    apply Forall2_map_self. intros r.
    split; [reflexivity|]. split; [reflexivity|]. split; [reflexivity|].
    intros c H1 H2 H3.
    unfold normalizar_andreani, telefono_sin_nan, nombre_relleno,
      sin_espacios_str, sin_puntos, row_set.
    destruct (String.eqb_spec c "Shipping Phone"); [done|].
    destruct (String.eqb_spec c "Shipping Name"); [done|].
    by destruct (String.eqb_spec c "Shipping Company").
Qed.

Lemma engine_rewrites_id_and_grouping_keeps_fields_witness :
  exists out,
    FiltroArgentina.procesar_archivo (RT:=runtime_ascii) ejemplo_lote = Ok out
    /\ columns (FiltroArgentina.archcsv1 out) = columns ejemplo_lote
    /\ Forall2
         (fun r r' =>
            r' "Shipping Company"%string = limpiar (r "Shipping Company"%string)
            /\ forall c, c <> "Shipping Company"%string -> r' c = r c)
         (rows ejemplo_lote) (rows (FiltroArgentina.archcsv1 out)).
Proof.
  exact (proj1 (proj2 (engine_rewrites_id_and_grouping_keeps_fields
                         (RT:=runtime_ascii) ejemplo_lote
                         eq_refl eq_refl eq_refl))).
Defined.

(** C7 as stated fails: the call rewrites the id field of the table it is
    given, here from "12.345.678" to "12345678". *)
Lemma engine_rewrites_id_counterexample :
  map (fun r => r "Shipping Company"%string) (rows (ejemplo_id (u "12.345.678")))
  = [Str (u "12.345.678")]
  /\ (exists out,
        FiltroArgentina.procesar_archivo (RT:=runtime_ascii)
          (ejemplo_id (u "12.345.678")) = Ok out
        /\ map (fun r => r "Shipping Company"%string)
             (rows (FiltroArgentina.archcsv1 out))
           = [Str (u "12345678")])
  /\ u "12345678" <> u "12.345.678".
Proof.
  split; [reflexivity|]. split; [|discriminate].
  assert (H : observar (fun out => map (fun r => r "Shipping Company"%string)
                                     (rows (FiltroArgentina.archcsv1 out)))
                (FiltroArgentina.procesar_archivo (RT:=runtime_ascii)
                   (ejemplo_id (u "12.345.678")))
              = Ok [Str (u "12345678")]) by (vm_compute; reflexivity).
  apply observar_Ok in H as (out & Hout & Hs). eauto.
Qed.

(** C2: the code departs from the claim.  PASO 4 removes every space from
    the id field before BUCLE 1 tests [startswith("DNI ")], so the test never
    holds, and a paid line whose id field is "DNI 12345678" is read as
    "DNI12345678", which is not numeric: it gets REVISAR DNI and, outside
    CABA and without priority shipping or notes, keeps it.  The other half
    of the claim holds: "12A34" gets REVISAR DNI. *)
Theorem dni_prefix_line_is_flagged {RT : Runtime} :
  (forall s, startswith (u "DNI ") (str_replace (u " ") s) = false)
  /\ (exists w t' out,
        FiltroArgentina.clasificar (ejemplo_id (u "DNI 12345678")) = Ok (w, t')
        /\ Status_column w = [Str REVISAR_DNI]
        /\ FiltroArgentina.procesar_archivo (ejemplo_id (u "DNI 12345678")) = Ok out
        /\ Status_column (FiltroArgentina.ArchivoFinal out) = [Str REVISAR_DNI])
  /\ (exists w t',
        filtroAndreani.clasificar (ejemplo_id (u "DNI 12345678")) = Ok (w, t')
        /\ Status_column w = [Str REVISAR_DNI])
  /\ (exists w t',
        FiltroArgentina.clasificar (ejemplo_id (u "12A34")) = Ok (w, t')
        /\ Status_column w = [Str REVISAR_DNI]).
Proof.
  split; [exact startswith_DNI_sin_espacio|]. split; [|split].
  - assert (H1 : observar (fun x => Status_column x.1)
                   (FiltroArgentina.clasificar (ejemplo_id (u "DNI 12345678")))
                 = Ok [Str REVISAR_DNI]) by (vm_compute; reflexivity).
    assert (H2 : observar (fun out => Status_column (FiltroArgentina.ArchivoFinal out))
                   (FiltroArgentina.procesar_archivo (ejemplo_id (u "DNI 12345678")))
                 = Ok [Str REVISAR_DNI]) by (vm_compute; reflexivity).
    apply observar_Ok in H1 as ([w t'] & Hc & Hs).
    apply observar_Ok in H2 as (out & Hp & Hf).
    exists w, t', out. eauto.
  - assert (H1 : observar (fun x => Status_column x.1)
                   (filtroAndreani.clasificar (ejemplo_id (u "DNI 12345678")))
                 = Ok [Str REVISAR_DNI]) by (vm_compute; reflexivity).
    apply observar_Ok in H1 as ([w t'] & Hc & Hs). exists w, t'. eauto.
  - assert (H1 : observar (fun x => Status_column x.1)
                   (FiltroArgentina.clasificar (ejemplo_id (u "12A34")))
                 = Ok [Str REVISAR_DNI]) by (vm_compute; reflexivity).
    apply observar_Ok in H1 as ([w t'] & Hc & Hs). exists w, t'. eauto.
Qed.

(** Support for C3: with every column there, the notes of the paid lines
    text or missing and the date steps going through, both processors
    return. *)
Lemma procesar_archivo_returns {RT : Runtime} (t : DataFrame) :
  notas_validas t = true ->
  (esquema columnas_argentina t = true ->
   fechas_validas t = true ->
   exists out, FiltroArgentina.procesar_archivo t = Ok out)
  /\ (esquema columnas_andreani t = true ->
      fecha_legible t = true ->
      exists out, filtroAndreani.procesar_archivo t = Ok out).
Proof.
  intros Hn. split; intros He Hf.
  - unfold FiltroArgentina.procesar_archivo.
    rewrite (argentina_pasos t He Hn Hf). cbn [bind]. eauto.
  - unfold filtroAndreani.procesar_archivo.
    rewrite (andreani_pasos t He Hn Hf). cbn [bind]. eauto.
Qed.

(** Support for C3: a table without one of the twelve copied columns makes
    FiltroArgentina raise KeyError at its first statement. *)
Lemma missing_copied_column_raises {RT : Runtime} (t : DataFrame) (c : string) :
  c ∈ take 12 columnas_argentina ->
  has_column (columns t) c = false ->
  exists c', FiltroArgentina.procesar_archivo t = Raise (KeyError c').
Proof.
  intros Hc Hno.
  unfold FiltroArgentina.procesar_archivo, FiltroArgentina.pasos,
    getitem_columns.
  destruct (find _ _) as [c'|] eqn:Hf.
  - cbn [bind]. eauto.
  - exfalso. apply list_elem_of_In in Hc.
    pose proof (find_none _ _ Hf c Hc) as H. cbn beta in H.
    by rewrite Hno in H.
Qed.

(** C3: the code departs from the claim.  With every required column there,
    a paid line whose note is a number makes BUCLE 4 call [strip] on a value
    that is not a string: both processors raise AttributeError. *)
Theorem numeric_note_raises {RT : Runtime} :
  esquema columnas_argentina ejemplo_nota_numerica = true
  /\ esquema columnas_andreani ejemplo_nota_numerica = true
  /\ FiltroArgentina.procesar_archivo ejemplo_nota_numerica = Raise AttributeError
  /\ filtroAndreani.procesar_archivo ejemplo_nota_numerica = Raise AttributeError.
Proof. repeat split; vm_compute; reflexivity. Qed.

(** C8: the code departs from the claim.  The counts per key are the
    numbers of distinct order ids with that status, and the example of the
    specification gives CABA 1 and total 1; but the total is the sum of the
    seven counts, so an order whose status is PRIORITARIO is in no count and
    not in the total: one order in the batch, total 0. *)
Theorem total_misses_priority_orders {RT : Runtime} :
  (exists out,
     FiltroArgentina.procesar_archivo ejemplo_prioritario = Ok out
     /\ Status_column (FiltroArgentina.ArchivoFinal out) = [Str PRIORITARIO]
     /\ pedidos_distintos (FiltroArgentina.ArchivoFinal out) = 1
     /\ Ventana_de_estado.total (FiltroArgentina.panel out) = 0)
  /\ (exists out,
        FiltroArgentina.procesar_archivo ejemplo_caba = Ok out
        /\ Status_column (FiltroArgentina.ArchivoFinal out) = [Str CABA; Str CABA]
        /\ pedidos_distintos (FiltroArgentina.ArchivoFinal out) = 1
        /\ Ventana_de_estado.caba (FiltroArgentina.panel out) = 1
        /\ Ventana_de_estado.total (FiltroArgentina.panel out) = 1).
Proof.
  split.
  - assert (H : observar
                  (fun out =>
                     (Status_column (FiltroArgentina.ArchivoFinal out),
                      pedidos_distintos (FiltroArgentina.ArchivoFinal out),
                      Ventana_de_estado.total (FiltroArgentina.panel out)))
                  (FiltroArgentina.procesar_archivo ejemplo_prioritario)
                = Ok ([Str PRIORITARIO], 1, 0)) by (vm_compute; reflexivity).
    apply observar_Ok in H as (out & Hp & [= H1 H2 H3]). eauto.
  - assert (H : observar
                  (fun out =>
                     (Status_column (FiltroArgentina.ArchivoFinal out),
                      pedidos_distintos (FiltroArgentina.ArchivoFinal out),
                      Ventana_de_estado.caba (FiltroArgentina.panel out),
                      Ventana_de_estado.total (FiltroArgentina.panel out)))
                  (FiltroArgentina.procesar_archivo ejemplo_caba)
                = Ok ([Str CABA; Str CABA], 1, 1, 1)) by (vm_compute; reflexivity).
    apply observar_Ok in H as (out & Hp & [= H1 H2 H3 H4]). exists out. eauto 6.
Qed.

(** * Further properties of the code *)

(** ** The rule table in priority order *)

Lemma status_de_linea_regla {RT : Runtime} (r : row) :
  status_de_linea r = regla r.
Proof.
  unfold status_de_linea, regla, paso4, paso3, paso2, paso1, status_no_pagado.
  destruct (es_paid r), (tiene_notas r),
    (eq_lit (r "Shipping Province Name"%string) Tierra_del_Fuego),
    (es_caba r), (es_prioritario r), (isnumeric (id_limpio r));
    reflexivity.
Qed.

Lemma regla_valida {RT : Runtime} (r : row) : regla r ∈ estados_validos.
Proof.
  unfold regla, status_no_pagado, estados_validos.
  repeat match goal with
         | |- context [if ?b then _ else _] => destruct b
         end;
    apply list_elem_of_In; cbn; tauto.
Qed.

(** X1. When the date steps go through, the status of every line after the
    four loops is the one the rule table gives in priority order, in either
    processor. *)
Theorem status_by_priority {RT : Runtime} (t : DataFrame) :
  notas_validas t = true ->
  (esquema columnas_argentina t = true ->
   fechas_validas t = true ->
   exists w t',
     FiltroArgentina.clasificar t = Ok (w, t')
     /\ Status_column w = map (fun r => Str (regla r)) (rows t))
  /\ (esquema columnas_andreani t = true ->
      fecha_legible t = true ->
      exists w t',
        filtroAndreani.clasificar t = Ok (w, t')
        /\ Status_column w = map (fun r => Str (regla r)) (rows t)).
Proof.
  intros Hn. split; intros He Hf.
  - rewrite (argentina_clasificar t He Hn Hf). eexists _, _. split; [reflexivity|].
    unfold Status_column. cbn [rows]. rewrite map_map.
    apply map_ext_in. intros r Hr. apply list_elem_of_In in Hr.
    rewrite <- status_de_linea_regla.
    refine (proj1 (fila_argentina_spec _ _ r (esquema_leidas_argentina t He) _)).
    by apply (notas_validas_fila t).
  - rewrite (andreani_clasificar t He Hn Hf). eexists _, _. split; [reflexivity|].
    unfold Status_column. cbn [rows]. rewrite map_map.
    apply map_ext_in. intros r Hr. apply list_elem_of_In in Hr.
    rewrite <- status_de_linea_regla.
    refine (proj1 (fila_andreani_spec _ r (esquema_leidas_andreani t He) _)).
    by apply (notas_validas_fila t).
Qed.

Lemma status_by_priority_witness :
  (exists w t',
     FiltroArgentina.clasificar (RT:=runtime_ascii) ejemplo_lote = Ok (w, t')
     /\ Status_column w
        = map (fun r => Str (regla (RT:=runtime_ascii) r)) (rows ejemplo_lote))
  /\ (exists w t',
        filtroAndreani.clasificar (RT:=runtime_ascii) ejemplo_lote = Ok (w, t')
        /\ Status_column w
           = map (fun r => Str (regla (RT:=runtime_ascii) r)) (rows ejemplo_lote)).
Proof.
  destruct (status_by_priority (RT:=runtime_ascii) ejemplo_lote eq_refl)
    as [HA HB].
  split; [exact (HA eq_refl eq_refl)|exact (HB eq_refl eq_refl)].
Defined.

(** ** The table each processor returns, line by line *)

Lemma group_keys_map (h : row -> row) (l : list row) :
  (forall x, x ∈ l -> h x "Name"%string = x "Name"%string) ->
  group_keys "Name" (map h l) = group_keys "Name" l.
Proof.
  intros Hh. unfold group_keys. rewrite map_map. do 3 f_equal.
  apply map_ext_in. intros x Hx. apply Hh. by apply list_elem_of_In.
Qed.

Lemma filter_nombre_map (h : row -> row) (k : cell) (l : list row) :
  (forall x, x ∈ l -> h x "Name"%string = x "Name"%string) ->
  filter (fun r => r "Name"%string = k) (map h l)
  = map h (filter (fun x => x "Name"%string = k) l).
Proof.
  induction l as [|x l IH]; intros Hh; [done|].
  assert (IH' : filter (fun r => r "Name"%string = k) (map h l)
                = map h (filter (fun x => x "Name"%string = k) l)).
  { apply IH. intros y Hy. apply Hh. by right. }
  cbn [map]. rewrite !filter_cons, (Hh x) by (by left).
  case_decide; cbn [map]; [f_equal|]; exact IH'.
Qed.

Section retorno.
(** [f] is [assign_status], [h] builds the working line of an input line
    and keeps its order id. *)
Variable f : list row -> list row.
Hypothesis Hf : forall group,
  f group = match group with
            | [] => []
            | first :: _ => map (row_set "Status" (first "Status"%string)) group
            end.
Variable h : row -> row.
Variable l : list row.
Hypothesis Hh : forall x, x ∈ l -> h x "Name"%string = x "Name"%string.

(** Each line the grouping hands back is the working line of an input line
    that has an order id, with the status of the working line of the first
    line of its order. *)
Lemma groupby_lineas (C : list string) :
  Forall2
    (fun o x =>
       exists q, x ∈ l /\ q ∈ l
                 /\ primera_linea (x "Name"%string) l = Some q
                 /\ o = row_set "Status" (h q "Status"%string) (h x))
    (rows (groupby_apply "Name" f {| columns := C; rows := map h l |}))
    (agrupadas l).
Proof using Hf Hh.
  unfold groupby_apply, agrupadas. cbn [rows].
  rewrite (group_keys_map h l Hh).
  apply Forall2_flat_map_elem. intros k Hk.
  rewrite (filter_nombre_map h k l Hh), Hf.
  destruct (filter (fun x => x "Name"%string = k) l) as [|q rest] eqn:Hfil;
    [constructor|].
  cbn [map]. rewrite map_map.
  apply (Forall2_map_elem _
           (fun x => row_set "Status" (h q "Status"%string) (h x)) (q :: rest)).
  intros x Hx.
  rewrite <- Hfil in Hx. apply list_elem_of_filter in Hx as [Hname Hxl].
  assert (Hq : q ∈ filter (fun x => x "Name"%string = k) l)
    by (rewrite Hfil; by left).
  apply list_elem_of_filter in Hq as [_ Hql].
  exists q. split; [done|]. split; [done|]. split; [|done].
  unfold primera_linea. by rewrite Hname, Hfil.
Qed.

End retorno.

Lemma telefono_final_ext (o e : row) (c : string) :
  (forall c, o c = e c) -> telefono_final o c = telefono_final e c.
Proof.
  intros H. unfold telefono_final, row_set.
  rewrite (H "Shipping Phone"%string), (H c). reflexivity.
Qed.

Lemma row_set_ext (k : string) (v : cell) (a b : row) (c : string) :
  (c <> k -> a c = b c) -> row_set k v a c = row_set k v b c.
Proof. intros H. unfold row_set. destruct (String.eqb_spec c k); auto. Qed.

(** Splits on whether [c] is one of the column names it is compared with. *)
Ltac por_columna c :=
  repeat match goal with
         | |- context [String.eqb c ?s] =>
             destruct (String.eqb_spec c s); [subst c; try reflexivity; try done|]
         end.

Lemma fila_andreani_otra {RT : Runtime} (C : list string) (r : row) (c : string) :
  (forall c, c ∈ columnas_leidas -> has_column C c = true) ->
  nota_valida r = true ->
  c <> "Status"%string ->
  fila_andreani C r c
  = row_set "CodNum" (Str (u "54"))
      (row_set "NC" (Str (u "."))
         (row_set "Val decl" (Str (u "4500"))
            (row_set "Profun" (Str (u "10"))
               (row_set "Ancho" (Str (u "15"))
                  (row_set "Alto" (Str (u "10"))
                     (row_set "Peso" (Str (u "100")) r)))))) c.
Proof.
  intros Hl Hn Hc. unfold fila_andreani. cbv zeta.
  set (w0 := row_set "CodNum" _ _).
  assert (H0 : w0 "Status"%string = Str []) by reflexivity.
  pose proof (normalizar_andreani_id r) as Hid.
  pose proof (normalizar_andreani_otras r) as Ho.
  destruct (andreani_bucle1 C Hl r _ Hid Ho w0 [] H0) as (a1 & -> & H1 & F1).
  cbn [asignado].
  destruct (andreani_bucle2 C Hl r _ Hid Ho _ _ H1) as (a2 & -> & H2 & F2).
  cbn [asignado].
  destruct (andreani_bucle3 C Hl r _ Hid Ho _ _ H2) as (a3 & -> & H3 & F3).
  cbn [asignado].
  destruct (andreani_bucle4 C Hl r _ Hid Ho _ _ Hn H3) as (a4 & -> & H4 & F4).
  cbn [asignado].
  unfold filtroAndreani.bucle5. cbn [asignado aplicar foldl fst snd].
  do 7 (apply row_set_ext; intros ?).
  rewrite F4, F3, F2, F1 by done. subst w0. unfold row_set.
  repeat match goal with
         | H : c <> ?s |- context [String.eqb c ?s] =>
             destruct (String.eqb_spec c s); [done|]
         end.
  reflexivity.
Qed.

Section tabla_final.
Context {RT : Runtime}.

Lemma argentina_tabla_final (t : DataFrame) :
  esquema columnas_argentina t = true ->
  notas_validas t = true ->
  fechas_validas t = true ->
  exists out,
    FiltroArgentina.procesar_archivo t = Ok out
    /\ columns (FiltroArgentina.ArchivoFinal out) = columnas_trabajo_argentina
    /\ Forall2
         (fun o x =>
            exists q, x ∈ rows t /\ q ∈ rows t
                      /\ primera_linea (x "Name"%string) (rows t) = Some q
                      /\ forall c,
                           o c = esperada_argentina
                                   (map (fun r => r "Created at"%string) (rows t))
                                   x q c)
         (rows (FiltroArgentina.ArchivoFinal out)) (agrupadas (rows t)).
Proof.
  intros He Hn Hfv. pose proof (esquema_leidas_argentina t He) as Hl.
  unfold FiltroArgentina.procesar_archivo.
  rewrite (argentina_pasos t He Hn Hfv). cbn [bind fst snd].
  eexists. split; [reflexivity|]. cbn [FiltroArgentina.ArchivoFinal].
  split; [reflexivity|].
  rewrite argentina_finalizar_rows. apply Forall2_fmap_l.
  unfold FiltroArgentina.consolidar.
  assert (Hh : forall x, x ∈ rows t ->
            fila_argentina (columns t)
              (map (fun r => r "Created at"%string) (rows t)) x "Name"%string
            = x "Name"%string).
  { intros x Hx.
    destruct (fila_argentina_spec (columns t)
                (map (fun r => r "Created at"%string) (rows t)) x Hl) as [_ Hf].
    + by apply (notas_validas_fila t).
    + by rewrite Hf. }
  pose proof (groupby_lineas _ argentina_assign_status _ _ Hh
                columnas_trabajo_argentina) as HG.
  revert HG. apply Forall2_impl.
  - cbn beta. intros o x (q & Hx & Hq & Hp & ->).
    exists q. split; [done|]. split; [done|]. split; [done|].
    intros c. unfold esperada_argentina. apply telefono_final_ext. clear c.
    intros c.
    destruct (fila_argentina_spec (columns t)
                (map (fun r => r "Created at"%string) (rows t)) q Hl) as [Hs _];
      [by apply (notas_validas_fila t)|].
    destruct (fila_argentina_spec (columns t)
                (map (fun r => r "Created at"%string) (rows t)) x Hl) as [_ Hf];
      [by apply (notas_validas_fila t)|].
    rewrite Hs, status_de_linea_regla. apply row_set_ext. intros Hc.
    by rewrite Hf.
Qed.

Lemma andreani_tabla_final (t : DataFrame) :
  esquema columnas_andreani t = true ->
  notas_validas t = true ->
  fecha_legible t = true ->
  exists out,
    filtroAndreani.procesar_archivo t = Ok out
    /\ columns (filtroAndreani.ArchivoFinal2 out) = columnas_trabajo_andreani
    /\ Forall2
         (fun o x =>
            exists q, x ∈ rows t /\ q ∈ rows t
                      /\ primera_linea (x "Name"%string) (rows t) = Some q
                      /\ forall c, o c = esperada_andreani x q c)
         (rows (filtroAndreani.ArchivoFinal2 out)) (agrupadas (rows t)).
Proof.
  intros He Hn Hfv. pose proof (esquema_leidas_andreani t He) as Hl.
  unfold filtroAndreani.procesar_archivo.
  rewrite (andreani_pasos t He Hn Hfv). cbn [bind fst snd].
  eexists. split; [reflexivity|]. cbn [filtroAndreani.ArchivoFinal2].
  split; [reflexivity|].
  rewrite andreani_finalizar_rows. apply Forall2_fmap_l.
  unfold filtroAndreani.consolidar.
  assert (Hh : forall x, x ∈ rows t ->
            fila_andreani (columns t) x "Name"%string = x "Name"%string).
  { intros x Hx.
    refine (proj2 (fila_andreani_spec (columns t) x Hl _)).
    by apply (notas_validas_fila t). }
  pose proof (groupby_lineas _ andreani_assign_status _ _ Hh
                columnas_trabajo_andreani) as HG.
  revert HG. apply Forall2_impl.
  - cbn beta. intros o x (q & Hx & Hq & Hp & ->).
    exists q. split; [done|]. split; [done|]. split; [done|].
    intros c. unfold esperada_andreani. apply telefono_final_ext. clear c.
    intros c.
    destruct (fila_andreani_spec (columns t) q Hl) as [Hs _];
      [by apply (notas_validas_fila t)|].
    rewrite Hs, status_de_linea_regla. apply row_set_ext. intros Hc.
    apply fila_andreani_otra; [done| |done]. by apply (notas_validas_fila t).
Qed.

End tabla_final.

(** X2. When the date steps go through, FiltroArgentina returns a table of
    sixteen columns in a fixed order, with one line per input line that has
    an order id, grouped by order; a returned line holds the ten copied
    fields of its input line unchanged, the date as the text of day, month
    and year of the timestamp pandas read (missing when the date is missing
    or is not read), the phone as text without ".0", and three empty
    placeholder columns. *)
Theorem argentina_returned_lines {RT : Runtime} (t : DataFrame) :
  esquema columnas_argentina t = true ->
  notas_validas t = true ->
  fechas_validas t = true ->
  exists out,
    FiltroArgentina.procesar_archivo t = Ok out
    /\ columns (FiltroArgentina.ArchivoFinal out)
       = ["Created at"; "Name"; "Shipping Name"; "Lineitem quantity";
          "Lineitem name"; "Total"; "Shipping Province Name";
          "Shipping Street"; "Shipping Zip"; "Status"; "NC2"; "NC3"; "NC4";
          "Shipping Phone"; "Email"; "Lineitem sku"]%string
    /\ Forall2
         (fun o x =>
            (forall c, c ∈ copiadas_argentina -> o c = x c)
            /\ o "Created at"%string
               = fecha_en_texto
                   (map (fun r => r "Created at"%string) (rows t))
                   (x "Created at"%string)
            /\ o "Shipping Phone"%string
               = Str (str_replace (u ".0") (py_str (x "Shipping Phone"%string)))
            /\ o "NC2"%string = Str [] /\ o "NC3"%string = Str []
            /\ o "NC4"%string = Str [])
         (rows (FiltroArgentina.ArchivoFinal out)) (agrupadas (rows t))
    /\ agrupadas (rows t) ≡ₚ con_pedido (rows t).
Proof.
  intros He Hn Hfv.
  destruct (argentina_tabla_final t He Hn Hfv) as (out & Hp & Hc & Hf).
  exists out. split; [exact Hp|]. split; [exact Hc|]. split; [|apply agrupadas_perm].
  revert Hf. apply Forall2_impl. intros o x (q & _ & _ & _ & Ho).
  split; [|by rewrite !Ho].
  intros c Hc'. rewrite Ho. apply list_elem_of_In in Hc'. cbn in Hc'.
  repeat (destruct Hc' as [<-|Hc']; [reflexivity|]). done.
Qed.

Lemma argentina_returned_lines_witness :
  (exists out,
     FiltroArgentina.procesar_archivo (RT:=runtime_ascii) ejemplo_lote = Ok out
     /\ length (rows (FiltroArgentina.ArchivoFinal out)) = 5)
  /\ (exists out,
        FiltroArgentina.procesar_archivo (RT:=runtime_fechas) ejemplo_con_fecha
        = Ok out
        /\ length (rows (FiltroArgentina.ArchivoFinal out)) = 2).
Proof.
  split.
  - destruct (argentina_returned_lines (RT:=runtime_ascii) ejemplo_lote
                eq_refl eq_refl eq_refl) as (out & Hp & _ & Hf & _).
    exists out. split; [exact Hp|].
    apply Forall2_length in Hf. exact (eq_trans Hf eq_refl).
  - destruct (argentina_returned_lines (RT:=runtime_fechas) ejemplo_con_fecha
                eq_refl eq_refl eq_refl) as (out & Hp & _ & Hf & _).
    exists out. split; [exact Hp|].
    apply Forall2_length in Hf. exact (eq_trans Hf eq_refl).
Defined.

(** X3. When the search of the date of the file does not end on NaT,
    filtroAndreani returns a table of nineteen columns in a fixed order,
    with one line per input line that has an order id, grouped by order; a
    returned line holds the ten copied fields of its input line unchanged,
    the phone as text without ".0", and the seven constants of the carrier
    (weight 100, height 10, width 15, depth 10, declared value 4500, marker
    ".", code 54) whatever the input. *)
Theorem andreani_returned_lines {RT : Runtime} (t : DataFrame) :
  esquema columnas_andreani t = true ->
  notas_validas t = true ->
  fecha_legible t = true ->
  exists out,
    filtroAndreani.procesar_archivo t = Ok out
    /\ columns (filtroAndreani.ArchivoFinal2 out)
       = ["Name"; "Peso"; "Alto"; "Ancho"; "Profun"; "Val decl"; "Status";
          "Shipping Name"; "NC"; "Shipping Company"; "Email"; "CodNum";
          "Shipping Phone"; "Shipping Street"; "Shipping Address2";
          "Shipping City"; "Shipping Zip"; "Shipping Province Name";
          "Notes"]%string
    /\ Forall2
         (fun o x =>
            (forall c, c ∈ copiadas_andreani -> o c = x c)
            /\ o "Shipping Phone"%string
               = Str (str_replace (u ".0") (py_str (x "Shipping Phone"%string)))
            /\ o "Peso"%string = Str (u "100") /\ o "Alto"%string = Str (u "10")
            /\ o "Ancho"%string = Str (u "15") /\ o "Profun"%string = Str (u "10")
            /\ o "Val decl"%string = Str (u "4500")
            /\ o "NC"%string = Str (u ".") /\ o "CodNum"%string = Str (u "54"))
         (rows (filtroAndreani.ArchivoFinal2 out)) (agrupadas (rows t))
    /\ agrupadas (rows t) ≡ₚ con_pedido (rows t).
Proof.
  intros He Hn Hfv.
  destruct (andreani_tabla_final t He Hn Hfv) as (out & Hp & Hc & Hf).
  exists out. split; [exact Hp|]. split; [exact Hc|]. split; [|apply agrupadas_perm].
  revert Hf. apply Forall2_impl. intros o x (q & _ & _ & _ & Ho).
  split; [|by rewrite !Ho].
  intros c Hc'. rewrite Ho. apply list_elem_of_In in Hc'. cbn in Hc'.
  repeat (destruct Hc' as [<-|Hc']; [reflexivity|]). done.
Qed.

Lemma andreani_returned_lines_witness :
  exists out,
    filtroAndreani.procesar_archivo (RT:=runtime_ascii) ejemplo_lote = Ok out
    /\ length (rows (filtroAndreani.ArchivoFinal2 out)) = 5.
Proof.
  destruct (andreani_returned_lines (RT:=runtime_ascii) ejemplo_lote
              eq_refl eq_refl eq_refl) as (out & Hp & _ & Hf & _).
  exists out. split; [exact Hp|].
  apply Forall2_length in Hf. exact (eq_trans Hf eq_refl).
Defined.

(** X4. When the date steps go through, the status of a line of the table
    either processor returns is the one the rule table gives for the first
    line of its order, so it is always one of the nine status texts or the
    empty status. *)
Theorem returned_status_by_first_line {RT : Runtime} (t : DataFrame) :
  notas_validas t = true ->
  (esquema columnas_argentina t = true ->
   fechas_validas t = true ->
   exists out,
     FiltroArgentina.procesar_archivo t = Ok out
     /\ Forall2
          (fun o x =>
             exists q, primera_linea (x "Name"%string) (rows t) = Some q
                       /\ o "Status"%string = Str (regla q))
          (rows (FiltroArgentina.ArchivoFinal out)) (agrupadas (rows t))
     /\ forall o, o ∈ rows (FiltroArgentina.ArchivoFinal out) ->
                  exists s, o "Status"%string = Str s /\ s ∈ estados_validos)
  /\ (esquema columnas_andreani t = true ->
      fecha_legible t = true ->
      exists out,
        filtroAndreani.procesar_archivo t = Ok out
        /\ Forall2
             (fun o x =>
                exists q, primera_linea (x "Name"%string) (rows t) = Some q
                          /\ o "Status"%string = Str (regla q))
             (rows (filtroAndreani.ArchivoFinal2 out)) (agrupadas (rows t))
        /\ forall o, o ∈ rows (filtroAndreani.ArchivoFinal2 out) ->
                     exists s, o "Status"%string = Str s /\ s ∈ estados_validos).
Proof.
  intros Hn. split; intros He Hfv.
  - destruct (argentina_tabla_final t He Hn Hfv) as (out & Hp & _ & Hf).
    exists out. split; [exact Hp|]. split.
    + revert Hf. apply Forall2_impl. intros o x (q & _ & _ & Hq & Ho).
      exists q. split; [done|]. by rewrite Ho.
    + intros o Ho. destruct (Forall2_elem_l _ _ _ o Hf Ho) as (x & _ & q & _ & _ & _ & Hoc).
      exists (regla q). split; [by rewrite Hoc|apply regla_valida].
  - destruct (andreani_tabla_final t He Hn Hfv) as (out & Hp & _ & Hf).
    exists out. split; [exact Hp|]. split.
    + revert Hf. apply Forall2_impl. intros o x (q & _ & _ & Hq & Ho).
      exists q. split; [done|]. by rewrite Ho.
    + intros o Ho. destruct (Forall2_elem_l _ _ _ o Hf Ho) as (x & _ & q & _ & _ & _ & Hoc).
      exists (regla q). split; [by rewrite Hoc|apply regla_valida].
Qed.

Lemma returned_status_by_first_line_witness :
  exists out,
    FiltroArgentina.procesar_archivo (RT:=runtime_ascii) ejemplo_mixto = Ok out
    /\ forall o, o ∈ rows (FiltroArgentina.ArchivoFinal out) ->
                 exists s, o "Status"%string = Str s /\ s ∈ estados_validos.
Proof.
  destruct (proj1 (returned_status_by_first_line (RT:=runtime_ascii)
                     ejemplo_mixto eq_refl) eq_refl eq_refl) as (out & Hp & _ & Hv).
  exists out. split; [exact Hp|exact Hv].
Defined.

(** ** When the processors raise *)

Lemma iterrows_from_raise {A} (body : row -> result (list (string * cell)))
    (n : A -> row) (l : list A) (e : exn) (i : nat) (w : list row) :
  (forall x, x ∈ l -> body (n x) = Raise e \/ exists a, body (n x) = Ok a) ->
  (exists x, x ∈ l /\ body (n x) = Raise e) ->
  iterrows_from body i (map n l) w = Raise e.
Proof.
  revert i w. induction l as [|x l IH]; intros i w Hall (y & Hy & Hraise).
  - by apply elem_of_nil in Hy.
  - cbn [map iterrows_from].
    destruct (Hall x) as [Hx|[a Hx]]; [by left| |]; rewrite Hx; cbn [bind]; [done|].
    apply IH.
    + intros z Hz. apply Hall. by right.
    + apply elem_of_cons in Hy as [->|Hy]; [congruence|]. eauto.
Qed.

Lemma iterrows_raise (Cs Cw : list string) {A}
    (body : list string -> row -> result (list (string * cell)))
    (n h : A -> row) (l : list A) (e : exn) :
  (forall x, x ∈ l -> body Cs (n x) = Raise e \/ exists a, body Cs (n x) = Ok a) ->
  (exists x, x ∈ l /\ body Cs (n x) = Raise e) ->
  iterrows {| columns := Cs; rows := map n l |} body
    {| columns := Cw; rows := map h l |}
  = Raise e.
Proof.
  intros Hall Hex. unfold iterrows. cbn [columns rows].
  by rewrite (iterrows_from_raise (body Cs) n l e 0 (map h l) Hall Hex).
Qed.

Section cuerpo4.
Context {RT : Runtime}.
Variable cols : list string.
Hypothesis Hcols : forall c, c ∈ columnas_leidas -> has_column cols c = true.
Variables r n : row.
Hypothesis Hid : n "Shipping Company"%string = limpiar (r "Shipping Company"%string).
Hypothesis Hotras : forall c,
  c ∈ columnas_leidas /\ c <> "Shipping Company"%string -> n c = r c.

(** BUCLE 4 on a paid line whose note is a number. *)
Lemma argentina_bucle4_raise :
  nota_valida r = false -> FiltroArgentina.bucle4 cols n = Raise AttributeError.
Proof using Hcols Hid Hotras.
  intros Hn. unfold FiltroArgentina.bucle4. leer Hcols. normal Hid Hotras.
  unfold nota_valida in Hn.
  destruct (r "Notes"%string) as [|s|z]; try discriminate.
  apply negb_false_iff in Hn. cbn [bind]. by rewrite Hn.
Qed.

Lemma andreani_bucle4_raise :
  nota_valida r = false -> filtroAndreani.bucle4 cols n = Raise AttributeError.
Proof using Hcols Hid Hotras.
  intros Hn. unfold filtroAndreani.bucle4. leer Hcols. normal Hid Hotras.
  unfold nota_valida in Hn.
  destruct (r "Notes"%string) as [|s|z]; try discriminate.
  apply negb_false_iff in Hn. cbn [bind]. by rewrite Hn.
Qed.

End cuerpo4.

Lemma notas_validas_false (t : DataFrame) :
  notas_validas t = false -> exists x, x ∈ rows t /\ nota_valida x = false.
Proof.
  unfold notas_validas. induction (rows t) as [|x l IH]; [done|].
  cbn [forallb]. destruct (nota_valida x) eqn:Hx.
  - intros H. destruct (IH H) as (y & Hy & Hny). exists y. split; [by right|done].
  - intros _. exists x. split; [by left|done].
Qed.

Section excepciones.
Context {RT : Runtime}.

(** The search of the date of the file ends on NaT. *)
Lemma argentina_pasos_fecha_raise (t : DataFrame) :
  esquema columnas_argentina t = true ->
  fecha_legible t = false ->
  FiltroArgentina.pasos t = Raise ValueError.
Proof.
  intros He Hleg. unfold FiltroArgentina.pasos.
  rewrite getitem_columns_ok; cycle 1.
  { intros c Hc. apply (esquema_has _ _ _ He). by sublista Hc. }
  cbn [bind]. by rewrite (fecha_strftime_raise _ _ Hleg).
Qed.

(** pandas does not make a datetime column of the dates, or raises when it
    reads them. *)
Lemma argentina_pasos_columna_raise (t : DataFrame) (e : exn) :
  esquema columnas_argentina t = true ->
  fecha_legible t = true ->
  (let* fechas := to_datetime_coerce (Created_at t) in
   dt_strftime fechas (u "%d/%m/%Y")) = Raise e ->
  FiltroArgentina.pasos t = Raise e.
Proof.
  intros He Hleg Hcol. unfold FiltroArgentina.pasos.
  rewrite getitem_columns_ok; cycle 1.
  { intros c Hc. apply (esquema_has _ _ _ He). by sublista Hc. }
  cbn [bind]. rewrite (fecha_strftime_legible _ Hleg). cbn [bind].
  unfold getitem.
  rewrite (esquema_has _ _ "Created at" He) by (apply list_elem_of_In; cbn; tauto).
  cbn [bind]. unfold Created_at in Hcol.
  destruct (to_datetime_coerce _) as [[fechas|]|e']; cbn [bind dt_strftime] in *;
    congruence.
Qed.

(** A paid line has a number as its note. *)
Lemma argentina_pasos_nota_raise (t : DataFrame) :
  esquema columnas_argentina t = true ->
  fechas_validas t = true ->
  notas_validas t = false ->
  FiltroArgentina.pasos t = Raise AttributeError.
Proof.
  intros He Hfv Hn. destruct t as [C l]. cbn [rows columns] in *.
  assert (HC : forall c, c ∈ columnas_argentina -> has_column C c = true)
    by (intros c Hc; by apply (esquema_has _ _ _ He)).
  assert (Hl : forall c, c ∈ columnas_leidas -> has_column C c = true).
  { intros c Hc. apply HC. by sublista Hc. }
  apply andb_prop in Hfv as [Hleg Hcol].
  rewrite <- (map_id l).
  assert (Hleg' : fecha_legible {| columns := C; rows := map (fun x => x) l |} = true)
    by (by rewrite (map_id l)).
  assert (Hcol' : columna_de_fechas {| columns := C; rows := map (fun x => x) l |}
                  = true)
    by (by rewrite (map_id l)).
  unfold columna_de_fechas in Hcol'. rewrite Created_at_map in Hcol'.
  unfold FiltroArgentina.pasos.
  rewrite getitem_columns_ok; cycle 1.
  { intros c Hc. apply HC. by sublista Hc. }
  cbn [bind rows columns].
  rewrite (fecha_strftime_legible _ Hleg'). cbn [bind].
  rewrite getitem_map by (apply HC; vm_compute; by left).
  cbn [bind].
  destruct (dt_strftime_columna _ Hcol') as (fechas & Hco & Hdt).
  rewrite Hco. cbn [bind]. rewrite Hdt. cbn [bind]. rewrite map_map, setitem_map by reflexivity.
  rewrite !length_map.
  do 4 (rewrite insert_map by reflexivity; cbn [bind take drop app]).
  assert (HSC : has_column C "Shipping Company" = true)
    by (apply Hl; apply list_elem_of_In; cbn; tauto).
  rewrite getitem_map by done. cbn [bind].
  rewrite astype_str_map, Series_str_replace_map, setitem_map by done.
  rewrite getitem_map by done. cbn [bind].
  rewrite Series_str_replace_map, setitem_map by done.
  pose proof (fun x => argentina_bucle1 C Hl x _ (normalizar_id x) (normalizar_otras x)
                         (fun _ => Str []) [] eq_refl) as B1.
  pose proof (fun x => argentina_bucle2 C Hl x _ (normalizar_id x) (normalizar_otras x)
                         (fun _ => Str []) [] eq_refl) as B2.
  pose proof (fun x => argentina_bucle3 C Hl x _ (normalizar_id x) (normalizar_otras x)
                         (fun _ => Str []) [] eq_refl) as B3.
  rewrite iterrows_map; cycle 1.
  { intros x Hx. destruct (B1 x) as (a & Ha & _). by exists a. }
  cbn [bind].
  rewrite iterrows_map; cycle 1.
  { intros x Hx. destruct (B2 x) as (a & Ha & _). by exists a. }
  cbn [bind].
  rewrite iterrows_map; cycle 1.
  { intros x Hx. destruct (B3 x) as (a & Ha & _). by exists a. }
  cbn [bind].
  rewrite iterrows_raise with (e := AttributeError); [done| |].
  - intros x Hx. destruct (nota_valida x) eqn:Hv.
    + right.
      destruct (argentina_bucle4 C Hl x _ (normalizar_id x) (normalizar_otras x)
                  (fun _ => Str []) [] Hv eq_refl) as (a & Ha & _).
      by exists a.
    + left. exact (argentina_bucle4_raise C Hl x _ (normalizar_id x)
                     (normalizar_otras x) Hv).
  - destruct (notas_validas_false {| columns := C; rows := l |} Hn) as (x & Hx & Hv).
    exists x. split; [exact Hx|].
    exact (argentina_bucle4_raise C Hl x _ (normalizar_id x) (normalizar_otras x) Hv).
Qed.

(** filtroAndreani looks for the date before anything else. *)
Lemma andreani_pasos_fecha_raise (t : DataFrame) :
  fecha_legible t = false ->
  filtroAndreani.pasos t = Raise ValueError.
Proof.
  intros Hleg. unfold filtroAndreani.pasos.
  by rewrite (fecha_strftime_raise _ _ Hleg).
Qed.

Lemma andreani_pasos_nota_raise (t : DataFrame) :
  esquema columnas_andreani t = true ->
  fecha_legible t = true ->
  notas_validas t = false ->
  filtroAndreani.pasos t = Raise AttributeError.
Proof.
  intros He Hleg Hn. destruct t as [C l]. cbn [rows columns] in *.
  assert (HC : forall c, c ∈ columnas_andreani -> has_column C c = true)
    by (intros c Hc; by apply (esquema_has _ _ _ He)).
  assert (Hl : forall c, c ∈ columnas_leidas -> has_column C c = true).
  { intros c Hc. apply HC. by sublista Hc. }
  unfold filtroAndreani.pasos.
  rewrite (fecha_strftime_legible _ Hleg). cbn [bind].
  rewrite <- (map_id l).
  rewrite getitem_columns_ok; cycle 1.
  { intros c Hc. apply HC. by sublista Hc. }
  cbn [bind rows columns].
  rewrite !length_map.
  do 8 (rewrite insert_map by reflexivity; cbn [bind take drop app]).
  assert (HSC : has_column C "Shipping Company" = true)
    by (apply HC; apply list_elem_of_In; cbn; tauto).
  assert (HSN : has_column C "Shipping Name" = true)
    by (apply HC; apply list_elem_of_In; cbn; tauto).
  assert (HSP : has_column C "Shipping Phone" = true)
    by (apply HC; apply list_elem_of_In; cbn; tauto).
  rewrite getitem_map by done. cbn [bind].
  rewrite astype_str_map, Series_str_replace_map, setitem_map by done.
  rewrite getitem_map by done. cbn [bind].
  rewrite astype_str_map, Series_str_replace_map, setitem_map by done.
  rewrite getitem_map by done. cbn [bind].
  rewrite fillna_empty_map, setitem_map by done.
  rewrite getitem_map by done. cbn [bind].
  rewrite astype_str_map, Series_str_replace_map, setitem_map by done.
  pose proof (fun x => andreani_bucle1 C Hl x _ (normalizar_andreani_id x)
                         (normalizar_andreani_otras x)
                         (fun _ => Str []) [] eq_refl) as B1.
  pose proof (fun x => andreani_bucle2 C Hl x _ (normalizar_andreani_id x)
                         (normalizar_andreani_otras x)
                         (fun _ => Str []) [] eq_refl) as B2.
  pose proof (fun x => andreani_bucle3 C Hl x _ (normalizar_andreani_id x)
                         (normalizar_andreani_otras x)
                         (fun _ => Str []) [] eq_refl) as B3.
  rewrite iterrows_map; cycle 1.
  { intros x Hx. destruct (B1 x) as (a & Ha & _). by exists a. }
  cbn [bind].
  rewrite iterrows_map; cycle 1.
  { intros x Hx. destruct (B2 x) as (a & Ha & _). by exists a. }
  cbn [bind].
  rewrite iterrows_map; cycle 1.
  { intros x Hx. destruct (B3 x) as (a & Ha & _). by exists a. }
  cbn [bind].
  rewrite iterrows_raise with (e := AttributeError); [done| |].
  - intros x Hx. destruct (nota_valida x) eqn:Hv.
    + right.
      destruct (andreani_bucle4 C Hl x _ (normalizar_andreani_id x)
                  (normalizar_andreani_otras x)
                  (fun _ => Str []) [] Hv eq_refl) as (a & Ha & _).
      by exists a.
    + left. exact (andreani_bucle4_raise C Hl x _ (normalizar_andreani_id x)
                     (normalizar_andreani_otras x) Hv).
  - destruct (notas_validas_false {| columns := C; rows := l |} Hn) as (x & Hx & Hv).
    exists x. split; [exact Hx|].
    exact (andreani_bucle4_raise C Hl x _ (normalizar_andreani_id x)
             (normalizar_andreani_otras x) Hv).
Qed.

End excepciones.

(** X5. With its columns there, what a call does is decided by the dates
    and the notes, in this order.  FiltroArgentina raises ValueError when
    the search of the date of the file ends on NaT; else AttributeError
    when pandas does not make a datetime column of the dates, or the
    exception of pandas when it raises on them; else AttributeError when a
    paid line has a number as its note; else it returns.  filtroAndreani raises ValueError on NaT, with or without its
    columns; else AttributeError on a numeric note of a paid line; else it
    returns. *)
Theorem processors_return_or_raise {RT : Runtime} (t : DataFrame) :
  (esquema columnas_argentina t = true ->
   (fecha_legible t = false ->
    FiltroArgentina.procesar_archivo t = Raise ValueError)
   /\ (fecha_legible t = true ->
       to_datetime_coerce (Created_at t) = Ok None ->
       FiltroArgentina.procesar_archivo t = Raise AttributeError)
   /\ (forall e,
         fecha_legible t = true ->
         to_datetime_coerce (Created_at t) = Raise e ->
         FiltroArgentina.procesar_archivo t = Raise e)
   /\ (fechas_validas t = true -> notas_validas t = false ->
       FiltroArgentina.procesar_archivo t = Raise AttributeError)
   /\ (fechas_validas t = true -> notas_validas t = true ->
       exists out, FiltroArgentina.procesar_archivo t = Ok out))
  /\ (fecha_legible t = false ->
      filtroAndreani.procesar_archivo t = Raise ValueError)
  /\ (esquema columnas_andreani t = true ->
      (fecha_legible t = true -> notas_validas t = false ->
       filtroAndreani.procesar_archivo t = Raise AttributeError)
      /\ (fecha_legible t = true -> notas_validas t = true ->
          exists out, filtroAndreani.procesar_archivo t = Ok out)).
Proof.
  split; [|split].
  - intros He. split; [|split; [|split; [|split]]].
    + intros Hleg. unfold FiltroArgentina.procesar_archivo.
      by rewrite (argentina_pasos_fecha_raise t He Hleg).
    + intros Hleg Hcol. unfold FiltroArgentina.procesar_archivo.
      rewrite (argentina_pasos_columna_raise t AttributeError He Hleg); [done|].
      by rewrite Hcol.
    + intros e Hleg Hcol. unfold FiltroArgentina.procesar_archivo.
      rewrite (argentina_pasos_columna_raise t e He Hleg); [done|].
      by rewrite Hcol.
    + intros Hfv Hn. unfold FiltroArgentina.procesar_archivo.
      by rewrite (argentina_pasos_nota_raise t He Hfv Hn).
    + intros Hfv Hn.
      destruct (argentina_tabla_final t He Hn Hfv) as (out & Hp & _). eauto.
  - intros Hleg. unfold filtroAndreani.procesar_archivo.
    by rewrite (andreani_pasos_fecha_raise t Hleg).
  - intros He. split.
    + intros Hleg Hn. unfold filtroAndreani.procesar_archivo.
      by rewrite (andreani_pasos_nota_raise t He Hleg Hn).
    + intros Hleg Hn.
      destruct (andreani_tabla_final t He Hn Hleg) as (out & Hp & _). eauto.
Qed.

Lemma processors_return_or_raise_witness :
  FiltroArgentina.procesar_archivo (RT:=runtime_fechas) ejemplo_fecha_NaT
  = Raise ValueError
  /\ FiltroArgentina.procesar_archivo (RT:=runtime_fechas) ejemplo_offsets
     = Raise AttributeError
  /\ FiltroArgentina.procesar_archivo (RT:=runtime_fechas) ejemplo_fecha_ilegible
     = Raise ValueError
  /\ FiltroArgentina.procesar_archivo (RT:=runtime_fechas) ejemplo_nota_numerica
     = Raise AttributeError
  /\ (exists out,
        FiltroArgentina.procesar_archivo (RT:=runtime_fechas) ejemplo_con_fecha
        = Ok out)
  /\ filtroAndreani.procesar_archivo (RT:=runtime_fechas) ejemplo_fecha_NaT
     = Raise ValueError.
Proof.
  split; [|split; [|split; [|split; [|split]]]].
  - exact (proj1 (proj1 (processors_return_or_raise (RT:=runtime_fechas)
                           ejemplo_fecha_NaT) eq_refl) eq_refl).
  - exact (proj1 (proj2 (proj1 (processors_return_or_raise (RT:=runtime_fechas)
                                  ejemplo_offsets) eq_refl)) eq_refl eq_refl).
  - exact (proj1 (proj2 (proj2 (proj1 (processors_return_or_raise
                                         (RT:=runtime_fechas)
                                         ejemplo_fecha_ilegible) eq_refl)))
             ValueError eq_refl eq_refl).
  - exact (proj1 (proj2 (proj2 (proj2 (proj1 (processors_return_or_raise
                                                (RT:=runtime_fechas)
                                                ejemplo_nota_numerica) eq_refl))))
             eq_refl eq_refl).
  - exact (proj2 (proj2 (proj2 (proj2 (proj1 (processors_return_or_raise
                                                (RT:=runtime_fechas)
                                                ejemplo_con_fecha) eq_refl))))
             eq_refl eq_refl).
  - exact (proj1 (proj2 (processors_return_or_raise (RT:=runtime_fechas)
                           ejemplo_fecha_NaT)) eq_refl).
Defined.

(** ** Missing columns *)

Lemma getitem_columns_raise (df : DataFrame) (cs : list string) :
  forallb (has_column (columns df)) cs = false ->
  exists c, c ∈ cs /\ has_column (columns df) c = false
            /\ getitem_columns df cs = Raise (KeyError c).
Proof.
  intros He. unfold getitem_columns.
  destruct (find _ cs) as [c|] eqn:Hf.
  - apply find_some in Hf as [Hin Hc]. exists c.
    split; [by apply list_elem_of_In|].
    split; [by destruct (has_column _ c)|done].
  - exfalso. assert (forallb (has_column (columns df)) cs = true); [|congruence].
    apply forallb_forall. intros c Hc.
    pose proof (find_none _ _ Hf c Hc) as H. cbn beta in H.
    by destruct (has_column _ c).
Qed.

(** X6. A table that lacks one of the twelve columns FiltroArgentina copies
    makes it raise KeyError in its first statement, whatever the dates and
    the lines are; one that has them but lacks the id column makes it raise
    KeyError on the id column provided the date steps, which come first, go
    through.  filtroAndreani looks for the date first: when this search
    does not end on NaT, a table that lacks one of the eleven columns it
    copies makes it raise KeyError.  The column named is one the table
    really lacks. *)
Theorem missing_column_raises_KeyError {RT : Runtime} (t : DataFrame) :
  (esquema columnas_copia_argentina t = false ->
   exists c, c ∈ columnas_copia_argentina
             /\ has_column (columns t) c = false
             /\ FiltroArgentina.procesar_archivo t = Raise (KeyError c))
  /\ (esquema columnas_copia_argentina t = true ->
      has_column (columns t) "Shipping Company" = false ->
      fechas_validas t = true ->
      FiltroArgentina.procesar_archivo t = Raise (KeyError "Shipping Company"))
  /\ (fecha_legible t = true ->
      esquema columnas_enteras_andreani t = false ->
      exists c, c ∈ columnas_enteras_andreani
                /\ has_column (columns t) c = false
                /\ filtroAndreani.procesar_archivo t = Raise (KeyError c)).
Proof.
  split; [|split].
  - intros He. unfold FiltroArgentina.procesar_archivo, FiltroArgentina.pasos.
    destruct (getitem_columns_raise t _ He) as (c & Hc & Hno & Hr).
    exists c. split; [exact Hc|]. split; [exact Hno|].
    unfold columnas_copia_argentina in Hr. by rewrite Hr.
  - intros He HSC Hfv.
    assert (HC : forall c, c ∈ columnas_copia_argentina ->
                           has_column (columns t) c = true)
      by (intros c Hc; by apply (esquema_has _ _ _ He)).
    destruct t as [C l]. cbn [rows columns] in *.
    apply andb_prop in Hfv as [Hleg Hcol].
    rewrite <- (map_id l).
    assert (Hleg' : fecha_legible {| columns := C; rows := map (fun x => x) l |}
                    = true)
      by (by rewrite (map_id l)).
    assert (Hcol' : columna_de_fechas {| columns := C; rows := map (fun x => x) l |}
                    = true)
      by (by rewrite (map_id l)).
    unfold columna_de_fechas in Hcol'. rewrite Created_at_map in Hcol'.
    unfold FiltroArgentina.procesar_archivo, FiltroArgentina.pasos.
    rewrite getitem_columns_ok by exact HC.
    cbn [bind rows columns].
    rewrite (fecha_strftime_legible _ Hleg'). cbn [bind].
    rewrite getitem_map by (apply HC; vm_compute; by left).
    cbn [bind]. destruct (dt_strftime_columna _ Hcol') as (fechas & Hco & Hdt).
    rewrite Hco. cbn [bind]. rewrite Hdt. cbn [bind].
    rewrite map_map, setitem_map by reflexivity.
    rewrite !length_map.
    do 4 (rewrite insert_map by reflexivity; cbn [bind take drop app]).
    unfold getitem. cbn [columns]. by rewrite HSC.
  - intros Hleg He.
    unfold filtroAndreani.procesar_archivo, filtroAndreani.pasos.
    rewrite (fecha_strftime_legible _ Hleg). cbn [bind].
    destruct (getitem_columns_raise t _ He) as (c & Hc & Hno & Hr).
    exists c. split; [exact Hc|]. split; [exact Hno|].
    unfold columnas_enteras_andreani in Hr. by rewrite Hr.
Qed.

Lemma missing_column_raises_KeyError_witness :
  (exists c, c ∈ columnas_copia_argentina
             /\ has_column (columns ejemplo_sin_email) c = false
             /\ FiltroArgentina.procesar_archivo (RT:=runtime_ascii) ejemplo_sin_email
                = Raise (KeyError c))
  /\ FiltroArgentina.procesar_archivo (RT:=runtime_ascii) ejemplo_sin_id
     = Raise (KeyError "Shipping Company")
  /\ (exists c, c ∈ columnas_enteras_andreani
                /\ has_column (columns ejemplo_sin_email) c = false
                /\ filtroAndreani.procesar_archivo (RT:=runtime_ascii)
                     ejemplo_sin_email
                   = Raise (KeyError c)).
Proof.
  split; [|split].
  - exact (proj1 (missing_column_raises_KeyError (RT:=runtime_ascii)
                    ejemplo_sin_email) eq_refl).
  - exact (proj1 (proj2 (missing_column_raises_KeyError (RT:=runtime_ascii)
                           ejemplo_sin_id)) eq_refl eq_refl eq_refl).
  - exact (proj2 (proj2 (missing_column_raises_KeyError (RT:=runtime_ascii)
                           ejemplo_sin_email)) eq_refl eq_refl).
Defined.

(** ** The total of the statistics panel *)

Lemma sum_list_map_add {A} (a b : A -> nat) (vs : list A) :
  sum_list (map (fun v => a v + b v) vs) = sum_list (map a vs) + sum_list (map b vs).
Proof. induction vs as [|v vs IH]; cbn; [done|]. rewrite IH. lia. Qed.

Lemma sum_indicador_0 (s : pystr) (vs : list pystr) :
  s ∉ vs -> sum_list (map (fun v => if decide (s = v) then 1 else 0) vs) = 0.
Proof.
  induction vs as [|v vs IH]; intros Hs; cbn; [done|].
  apply not_elem_of_cons in Hs as [Hv Hs].
  rewrite decide_False by done. by rewrite IH.
Qed.

Lemma sum_indicador_1 (s : pystr) (vs : list pystr) :
  NoDup vs -> s ∈ vs ->
  sum_list (map (fun v => if decide (s = v) then 1 else 0) vs) = 1.
Proof.
  induction 1 as [|v vs Hv Hnd IH]; intros Hs; [by apply elem_of_nil in Hs|].
  cbn. destruct (decide (s = v)) as [->|Hne].
  - rewrite sum_indicador_0; [done|]. intros Hin. apply Hv.
    by apply list_elem_of_In.
  - apply elem_of_cons in Hs as [?|Hs]; [done|]. by rewrite IH.
Qed.

(** Keys that each carry one of the values [vs], counted value by value. *)
Lemma length_por_estado {A} (f : A -> cell) (vs : list pystr) (L : list A) :
  NoDup vs ->
  (forall k, k ∈ L -> exists s, s ∈ vs /\ f k = Str s) ->
  sum_list (map (fun v => length (filter (fun k => f k = Str v) L)) vs) = length L.
Proof.
  intros Hnd. induction L as [|k L IH]; intros HL.
  - clear. cbn. induction vs as [|v vs IHv]; cbn; done.
  - destruct (HL k) as (s & Hs & Hk); [by left|].
    rewrite (map_ext _ (fun v => (if decide (s = v) then 1 else 0)
                                 + length (filter (fun k => f k = Str v) L))).
    + rewrite sum_list_map_add, sum_indicador_1, IH by (done || (intros; apply HL; by right)).
      reflexivity.
    + intros v. rewrite filter_cons, Hk.
      destruct (decide (Str s = Str v)) as [Heq|Hne], (decide (s = v)) as [Hsv|Hsv];
        cbn; try done; congruence.
Qed.

(** The orders counted for a status, when the status of a line is a
    function of its order. *)
Lemma count_unique_por_pedido (S : cell -> cell) (df : DataFrame) (v : pystr) :
  (forall o, o ∈ rows df -> o "Status"%string = S (o "Name"%string)) ->
  count_unique df "Status" v "Name"
  = length (filter (fun k => S k = Str v)
              (remove_dups (map (fun r => r "Name"%string) (rows df)))).
Proof.
  intros HS. unfold count_unique.
  apply Permutation_length, NoDup_Permutation.
  - apply NoDup_remove_dups.
  - apply list.NoDup_filter, NoDup_remove_dups.
  - intros k.
    rewrite elem_of_remove_dups, list_elem_of_filter, elem_of_remove_dups.
    change (map (fun r : row => r "Name"%string)) with (fmap (M:=list) (fun r : row => r "Name"%string)).
    rewrite !list_elem_of_fmap. split.
    + intros (r & -> & Hr). apply list_elem_of_filter in Hr as [Hv Hr].
      split; [by rewrite <- HS|]. by exists r.
    + intros (Hk & r & -> & Hr). exists r. split; [done|].
      apply list_elem_of_filter. split; [|done]. by rewrite HS.
Qed.

Lemma estados_validos_NoDup : NoDup estados_validos.
Proof. apply (bool_decide_unpack _). vm_compute. exact I. Qed.

(** X7. The total of the statistics panel is the sum of the seven counts it
    is given, and FiltroArgentina gives it none for PRIORITARIO, CABA
    PRIORITARIO and TIERRA DEL FUEGO: whenever the call returns (columns
    there, notes of paid lines text or missing, date steps going through),
    the orders of the returned table are the total plus the orders of these
    three statuses, so the total never exceeds the number of orders. *)
Theorem total_plus_uncounted_is_orders {RT : Runtime} (t : DataFrame) :
  esquema columnas_argentina t = true ->
  notas_validas t = true ->
  fechas_validas t = true ->
  exists out,
    FiltroArgentina.procesar_archivo t = Ok out
    /\ pedidos_distintos (FiltroArgentina.ArchivoFinal out)
       = Ventana_de_estado.total (FiltroArgentina.panel out)
         + pedidos_con_status (FiltroArgentina.ArchivoFinal out) PRIORITARIO
         + pedidos_con_status (FiltroArgentina.ArchivoFinal out) CABA_PRIORITARIO
         + pedidos_con_status (FiltroArgentina.ArchivoFinal out) TIERRA_DEL_FUEGO_STATUS
    /\ Ventana_de_estado.total (FiltroArgentina.panel out)
       <= pedidos_distintos (FiltroArgentina.ArchivoFinal out).
Proof.
  intros He Hn Hfv.
  destruct (argentina_tabla_final t He Hn Hfv) as (out & Hp & _ & Hf).
  exists out. split; [exact Hp|].
  set (S := fun k => match primera_linea k (rows t) with
                     | Some q => Str (regla q)
                     | None => NaN
                     end).
  assert (HS : forall o, o ∈ rows (FiltroArgentina.ArchivoFinal out) ->
                         o "Status"%string = S (o "Name"%string)).
  { intros o Ho.
    destruct (Forall2_elem_l _ _ _ o Hf Ho) as (x & _ & q & _ & _ & Hq & Hoc).
    rewrite !Hoc. unfold S.
    change (esperada_argentina _ x q "Name"%string) with (x "Name"%string).
    by rewrite Hq. }
  assert (HV : forall k, k ∈ remove_dups (map (fun r : row => r "Name"%string)
                                           (rows (FiltroArgentina.ArchivoFinal out))) ->
                         exists s, s ∈ estados_validos /\ S k = Str s).
  { intros k Hk. rewrite elem_of_remove_dups in Hk.
    change (map (fun r : row => r "Name"%string))
      with (fmap (M:=list) (fun r : row => r "Name"%string)) in Hk.
    apply list_elem_of_fmap in Hk as (o & -> & Ho).
    destruct (Forall2_elem_l _ _ _ o Hf Ho) as (x & _ & q & _ & _ & Hq & Hoc).
    exists (regla q). split; [apply regla_valida|].
    rewrite <- (HS o Ho), Hoc. reflexivity. }
  pose proof (length_por_estado S estados_validos _ estados_validos_NoDup HV) as Hsum.
  assert (Hout : FiltroArgentina.panel out
                 = FiltroArgentina.estadisticas (FiltroArgentina.ArchivoFinal out)).
  { unfold FiltroArgentina.procesar_archivo in Hp.
    destruct (FiltroArgentina.pasos t); cbn [bind] in Hp; [|done].
    injection Hp as <-. reflexivity. }
  rewrite Hout. unfold FiltroArgentina.estadisticas,
    Ventana_de_estado.actualizar_estadisticas.
  cbn [Ventana_de_estado.total].
  assert (Hd : pedidos_distintos (FiltroArgentina.ArchivoFinal out)
               = sum_list
                   (map (fun v => pedidos_con_status (FiltroArgentina.ArchivoFinal out) v)
                      estados_validos)).
  { unfold pedidos_con_status.
    rewrite (map_ext _ _ (fun v => count_unique_por_pedido S _ v HS)).
    symmetry. exact Hsum. }
  rewrite Hd. unfold pedidos_con_status, estados_validos. cbn [map sum_list id]. lia.
Qed.

Lemma total_plus_uncounted_is_orders_witness :
  exists out,
    FiltroArgentina.procesar_archivo (RT:=runtime_ascii) ejemplo_lote = Ok out
    /\ Ventana_de_estado.total (FiltroArgentina.panel out)
       <= pedidos_distintos (FiltroArgentina.ArchivoFinal out).
Proof.
  destruct (total_plus_uncounted_is_orders (RT:=runtime_ascii) ejemplo_lote
              eq_refl eq_refl eq_refl) as (out & Hp & _ & Hle).
  exists out. split; [exact Hp|exact Hle].
Defined.

(** ** The two tables of the caller *)

Lemma agrupadas_map (h : row -> row) (l : list row) :
  (forall x, x ∈ l -> h x "Name"%string = x "Name"%string) ->
  agrupadas (map h l) = map h (agrupadas l).
Proof.
  intros Hh. unfold agrupadas. rewrite (group_keys_map h l Hh).
  induction (group_keys "Name" l) as [|k ks IH]; [done|].
  cbn [flat_map]. by rewrite map_app, (filter_nombre_map h k l Hh), IH.
Qed.

Lemma Forall2_unir {A B C} (R1 : A -> C -> Prop) (R2 : B -> C -> Prop)
    (h : C -> C) (la : list A) (lb : list B) (g : list C) :
  Forall2 R1 la g -> Forall2 R2 lb (map h g) ->
  Forall2 (fun a b => exists x, R1 a x /\ R2 b (h x)) la lb.
Proof.
  intros H1. revert lb. induction H1 as [|a x la g Hax H1 IH]; intros lb H2.
  - cbn in H2. inversion H2. constructor.
  - cbn [map] in H2. inversion H2 as [|b y lb' g' Hb Hbs]; subst.
    constructor; [by exists x|]. by apply IH.
Qed.

Lemma regla_normalizar {RT : Runtime} (r : row) : regla (normalizar r) = regla r.
Proof. rewrite <- !status_de_linea_regla. apply status_de_linea_normalizar. Qed.

(** The two tables of the caller, line by line against the input. *)
Lemma caller_tablas_finales {RT : Runtime} (t : DataFrame) :
  esquema columnas_argentina t = true ->
  esquema columnas_andreani t = true ->
  notas_validas t = true ->
  fechas_validas t = true ->
  exists a b,
    boton_cargar_archivos t = Ok (a, b)
    /\ columns (FiltroArgentina.ArchivoFinal a) = columnas_trabajo_argentina
    /\ columns (filtroAndreani.ArchivoFinal2 b) = columnas_trabajo_andreani
    /\ Forall2
         (fun o x =>
            exists q, primera_linea (x "Name"%string) (rows t) = Some q
                      /\ forall c,
                           o c = esperada_argentina
                                   (map (fun r => r "Created at"%string) (rows t))
                                   x q c)
         (rows (FiltroArgentina.ArchivoFinal a)) (agrupadas (rows t))
    /\ Forall2
         (fun o' x =>
            exists q, primera_linea (x "Name"%string) (rows t) = Some q
                      /\ forall c,
                           o' c = esperada_andreani (normalizar x) (normalizar q) c)
         (rows (filtroAndreani.ArchivoFinal2 b)) (agrupadas (rows t)).
Proof.
  intros HeA HeB Hn Hfv.
  destruct (argentina_tabla_final t HeA Hn Hfv) as (a & Ha & HcA & HfA).
  destruct t as [C l]. cbn [rows] in *.
  assert (HCA : forall c, c ∈ columnas_argentina -> has_column C c = true)
    by (intros c Hc; by apply (esquema_has _ _ _ HeA)).
  assert (Hn' : forall x, x ∈ l -> nota_valida x = true)
    by (intros x Hx; by apply (notas_validas_fila _ x Hn)).
  assert (Hf1 : fechas_validas {| columns := C; rows := map (fun r => r) l |} = true)
    by (by rewrite (map_id l)).
  assert (Hl2 : fecha_legible {| columns := C; rows := map normalizar l |} = true).
  { rewrite fecha_legible_normalizar. by apply fechas_validas_legible. }
  destruct (argentina_procesar_map C (fun r => r) l HCA Hn' Hf1) as (a' & Ha' & Ha1 & _).
  rewrite (map_id l) in Ha'.
  assert (a' = a) by congruence. subst a'.
  assert (Hnom : forall x : row, x ∈ l ->
                   normalizar x "Name"%string = x "Name"%string) by done.
  assert (Hn2 : notas_validas {| columns := C; rows := map normalizar l |} = true).
  { unfold notas_validas. cbn [rows]. apply forallb_forall. intros y Hy.
    apply in_map_iff in Hy as (x & <- & Hx).
    change (nota_valida x = true). apply Hn'. by apply list_elem_of_In. }
  destruct (andreani_tabla_final {| columns := C; rows := map normalizar l |}
              HeB Hn2 Hl2) as (b & Hb & HcB & HfB).
  cbn [rows] in HfB. rewrite (agrupadas_map normalizar l Hnom) in HfB.
  exists a, b. split.
  { assert (Hb' : filtroAndreani.procesar_archivo (FiltroArgentina.archcsv1 a) = Ok b)
      by (rewrite Ha1; exact Hb).
    unfold boton_cargar_archivos. rewrite Ha. cbn [bind]. by rewrite Hb'. }
  split; [exact HcA|]. split; [exact HcB|]. split.
  - revert HfA. apply Forall2_impl. intros o x (q & _ & _ & Hq & Ho). eauto.
  - apply Forall2_fmap_r in HfB.
    assert (HG : Forall (fun x => x ∈ l) (agrupadas l)).
    { apply Forall_forall. intros x Hx. unfold agrupadas in Hx.
      apply in_flat_map in Hx as (k & _ & Hx).
      by apply list_elem_of_In, list_elem_of_filter in Hx as [_ ?]. }
    revert HfB HG. generalize (agrupadas l).
    generalize (rows (filtroAndreani.ArchivoFinal2 b)).
    induction 1 as [|o' x lo lx (q' & _ & _ & Hpq' & Ho') _ IH]; intros HG;
      [constructor|].
    apply Forall_cons_iff in HG as [Hx HG]. constructor; [|by apply IH].
    rewrite (primera_linea_map normalizar _ l Hnom) in Hpq'.
    change (normalizar x "Name"%string) with (x "Name"%string) in Hpq'.
    destruct (primera_linea (x "Name"%string) l) as [q|]; [|done].
    injection Hpq' as <-. eauto.
Qed.

Lemma Forall2_comun {A B C} (R1 : A -> C -> Prop) (R2 : B -> C -> Prop)
    (la : list A) (lb : list B) (g : list C) :
  Forall2 R1 la g -> Forall2 R2 lb g ->
  Forall2 (fun a b => exists x, R1 a x /\ R2 b x) la lb.
Proof.
  intros H1 H2. rewrite <- (map_id g) in H2.
  exact (Forall2_unir R1 R2 (fun x => x) la lb g H1 H2).
Qed.

(** X8. In [boton_cargar_archivos] the carrier processor reads the table
    the generic processor has already rewritten.  When the date steps go
    through, the call returns both tables; they have the same lines in the
    same order, line for line the same order id, status, name, e-mail,
    phone, street, zip and province; and the id column of the carrier table
    holds the id without "." and " ", not the id of the input. *)
Theorem caller_tables_line_by_line {RT : Runtime} (t : DataFrame) :
  esquema columnas_argentina t = true ->
  esquema columnas_andreani t = true ->
  notas_validas t = true ->
  fechas_validas t = true ->
  exists a b,
    boton_cargar_archivos t = Ok (a, b)
    /\ Forall2 (fun o o' => forall c, c ∈ columnas_comunes -> o c = o' c)
         (rows (FiltroArgentina.ArchivoFinal a))
         (rows (filtroAndreani.ArchivoFinal2 b))
    /\ Forall2
         (fun o' x =>
            o' "Shipping Company"%string = limpiar (x "Shipping Company"%string))
         (rows (filtroAndreani.ArchivoFinal2 b)) (agrupadas (rows t)).
Proof.
  intros HeA HeB Hn Hfv.
  destruct (caller_tablas_finales t HeA HeB Hn Hfv)
    as (a & b & Hp & _ & _ & HfA & HfB).
  exists a, b. split; [exact Hp|]. split.
  - pose proof (Forall2_comun _ _ _ _ _ HfA HfB) as HU.
    revert HU. apply Forall2_impl.
    intros o o' (x & (q & Hq & Ho) & (q' & Hq' & Ho')) c Hc.
    rewrite Hq in Hq'. injection Hq' as <-.
    rewrite Ho, Ho'. unfold esperada_argentina, esperada_andreani.
    rewrite regla_normalizar.
    apply list_elem_of_In in Hc. cbn in Hc.
    repeat (destruct Hc as [<-|Hc]; [reflexivity|]). done.
  - revert HfB. apply Forall2_impl.
    intros o' x (q' & _ & Ho'). by rewrite Ho'.
Qed.

Lemma caller_tables_line_by_line_witness :
  exists a b,
    boton_cargar_archivos (RT:=runtime_ascii) ejemplo_lote = Ok (a, b)
    /\ length (rows (FiltroArgentina.ArchivoFinal a))
       = length (rows (filtroAndreani.ArchivoFinal2 b)).
Proof.
  destruct (caller_tables_line_by_line (RT:=runtime_ascii) ejemplo_lote
              eq_refl eq_refl eq_refl eq_refl) as (a & b & Hp & Hf & _).
  exists a, b. split; [exact Hp|]. exact (Forall2_length Hf).
Defined.

(** ** The phone column as text *)

Lemma str_replace_from_sin (c : N) (old s : pystr) :
  c ∉ s -> str_replace_from (c :: old) 0 s = s.
Proof.
  induction s as [|x s IH]; intros Hc; [done|].
  apply not_elem_of_cons in Hc as [Hx Hs].
  cbn [str_replace_from startswith].
  destruct (N.eqb_spec c x) as [->|_]; [done|].
  cbn [andb]. by rewrite IH.
Qed.

Lemma str_replace_from_skip (old p b : pystr) :
  str_replace_from old (length p) (p ++ b) = str_replace_from old 0 b.
Proof.
  induction p as [|x p IH]; [done|].
  cbn [length app str_replace_from]. exact IH.
Qed.

Lemma startswith_app (p b : pystr) : startswith p (p ++ b) = true.
Proof.
  induction p as [|x p IH]; [done|].
  cbn [app startswith]. by rewrite N.eqb_refl, IH.
Qed.

Lemma str_replace_from_app (c : N) (old a b : pystr) :
  c ∉ a ->
  str_replace_from (c :: old) 0 (a ++ (c :: old) ++ b)
  = a ++ str_replace_from (c :: old) 0 b.
Proof.
  induction a as [|x a IH]; intros Hc.
  - cbn [app]. change (c :: old ++ b) with ((c :: old) ++ b).
    cbn [str_replace_from app].
    change (c :: old ++ b) with ((c :: old) ++ b).
    rewrite startswith_app. cbn [length Nat.sub]. rewrite Nat.sub_0_r.
    apply str_replace_from_skip.
  - apply not_elem_of_cons in Hc as [Hx Ha].
    cbn [app str_replace_from startswith].
    destruct (N.eqb_spec c x) as [->|_]; [done|].
    cbn [andb]. f_equal. by apply IH.
Qed.

Lemma telefono_final_en_texto (r : row) : telefono_en_texto (telefono_final r) r.
Proof.
  unfold telefono_en_texto, telefono_final, row_set. cbn [String.eqb Ascii.eqb].
  split; [|split; [|split]].
  - intros c Hc. by destruct (String.eqb_spec c "Shipping Phone").
  - by intros ->.
  - intros s -> Hs. cbn [py_str]. f_equal.
    change (u ".0") with [46%N; 48%N]. by apply str_replace_from_sin.
  - intros a b -> Ha. cbn [py_str]. f_equal.
    change (u ".0") with [46%N; 48%N]. by apply str_replace_from_app.
Qed.

(** X9. The last step of either processor leaves the columns and every cell
    outside the phone column as they are, and rewrites the phone as text: a
    missing phone becomes the text "nan" (which the returned table keeps), a
    phone without "." is unchanged, and a ".0" is removed wherever it
    stands in the phone, not only at its end. *)
Theorem phone_column_as_text (df : DataFrame) :
  has_column (columns df) "Shipping Phone" = true ->
  (columns (FiltroArgentina.finalizar df) = columns df
   /\ Forall2 telefono_en_texto (rows (FiltroArgentina.finalizar df)) (rows df))
  /\ (columns (filtroAndreani.finalizar df) = columns df
      /\ Forall2 telefono_en_texto (rows (filtroAndreani.finalizar df)) (rows df)).
Proof.
  intros Hc. split; split.
  - unfold FiltroArgentina.finalizar, setitem. cbn [columns]. by rewrite Hc.
  - rewrite argentina_finalizar_rows. apply Forall2_map_elem.
    intros r _. apply telefono_final_en_texto.
  - unfold filtroAndreani.finalizar, setitem. cbn [columns]. by rewrite Hc.
  - rewrite andreani_finalizar_rows. apply Forall2_map_elem.
    intros r _. apply telefono_final_en_texto.
Qed.

Lemma phone_column_as_text_witness :
  columns (FiltroArgentina.finalizar ejemplo_lote) = columns ejemplo_lote
  /\ Forall2 telefono_en_texto (rows (FiltroArgentina.finalizar ejemplo_lote))
       (rows ejemplo_lote).
Proof.
  exact (proj1 (phone_column_as_text ejemplo_lote eq_refl)).
Defined.

(** ** A column read line by line *)

Section por_linea.
Context {RT : Runtime}.
Variable C : list string.
Hypothesis HFS : has_column C "Financial Status" = false.

Lemma argentina_sin_estado_financiero (l : list row) :
  (forall c, c ∈ columnas_enteras_argentina -> has_column C c = true) ->
  fechas_validas {| columns := C; rows := l |} = true ->
  FiltroArgentina.pasos {| columns := C; rows := l |}
  = match l with
    | [] => Ok ({| columns := columnas_trabajo_argentina; rows := [] |},
                {| columns := C; rows := [] |},
                fecha_del_archivo_texto {| columns := C; rows := [] |})
    | _ :: _ => Raise (KeyError "Financial Status")
    end.
Proof using HFS.
  intros HC Hfv.
  apply andb_prop in Hfv as [Hleg Hcol].
  assert (Hleg' : fecha_legible {| columns := C; rows := map (fun x => x) l |}
                  = true)
    by (by rewrite (map_id l)).
  assert (Hcol' : columna_de_fechas {| columns := C; rows := map (fun x => x) l |}
                  = true)
    by (by rewrite (map_id l)).
  unfold columna_de_fechas in Hcol'. rewrite Created_at_map in Hcol'.
  rewrite <- (map_id l) at 1.
  unfold FiltroArgentina.pasos.
  rewrite getitem_columns_ok; cycle 1.
  { intros c Hc. apply HC. by sublista Hc. }
  cbn [bind rows columns].
  rewrite (fecha_strftime_legible _ Hleg'). cbn [bind].
  rewrite getitem_map by (apply HC; vm_compute; by left).
  cbn [bind]. destruct (dt_strftime_columna _ Hcol') as (fechas & Hco & Hdt).
  rewrite Hco. cbn [bind]. rewrite Hdt. cbn [bind].
  rewrite map_map, setitem_map by reflexivity.
  rewrite !length_map.
  do 4 (rewrite insert_map by reflexivity; cbn [bind take drop app]).
  assert (HSC : has_column C "Shipping Company" = true)
    by (apply HC; apply list_elem_of_In; cbn; tauto).
  rewrite getitem_map by done. cbn [bind].
  rewrite astype_str_map, Series_str_replace_map, setitem_map by done.
  rewrite getitem_map by done. cbn [bind].
  rewrite Series_str_replace_map, setitem_map by done.
  destruct l as [|x l]; [reflexivity|].
  assert (Hb : forall y : row,
            FiltroArgentina.bucle1 C
              (row_set "Shipping Company"
                 (match row_set "Shipping Company"
                          (Str (str_replace (u ".") (py_str (y "Shipping Company"%string))))
                          y "Shipping Company"%string with
                  | Str s => Str (str_replace (u " ") s)
                  | _ => NaN
                  end)
                 (row_set "Shipping Company"
                    (Str (str_replace (u ".") (py_str (y "Shipping Company"%string)))) y))
            = Raise (KeyError "Financial Status")).
  { intros y. unfold FiltroArgentina.bucle1, row_getitem. by rewrite HSC, HFS. }
  rewrite iterrows_raise with (e := KeyError "Financial Status"); [done| |].
  - intros y _. left. apply Hb.
  - exists x. split; [by left|apply Hb].
Qed.

Lemma andreani_sin_estado_financiero (l : list row) :
  (forall c, c ∈ columnas_enteras_andreani -> has_column C c = true) ->
  fecha_legible {| columns := C; rows := l |} = true ->
  filtroAndreani.pasos {| columns := C; rows := l |}
  = match l with
    | [] => Ok ({| columns := columnas_trabajo_andreani; rows := [] |},
                {| columns := C; rows := [] |},
                fecha_del_archivo_texto {| columns := C; rows := [] |})
    | _ :: _ => Raise (KeyError "Financial Status")
    end.
Proof using HFS.
  intros HC Hleg.
  assert (Hleg' : fecha_legible {| columns := C; rows := map (fun x => x) l |}
                  = true)
    by (by rewrite (map_id l)).
  rewrite <- (map_id l) at 1.
  unfold filtroAndreani.pasos.
  rewrite (fecha_strftime_legible _ Hleg'). cbn [bind].
  rewrite getitem_columns_ok by exact HC.
  cbn [bind rows columns].
  rewrite !length_map.
  do 8 (rewrite insert_map by reflexivity; cbn [bind take drop app]).
  assert (HSC : has_column C "Shipping Company" = true)
    by (apply HC; apply list_elem_of_In; cbn; tauto).
  assert (HSN : has_column C "Shipping Name" = true)
    by (apply HC; apply list_elem_of_In; cbn; tauto).
  assert (HSP : has_column C "Shipping Phone" = true)
    by (apply HC; apply list_elem_of_In; cbn; tauto).
  rewrite getitem_map by done. cbn [bind].
  rewrite astype_str_map, Series_str_replace_map, setitem_map by done.
  rewrite getitem_map by done. cbn [bind].
  rewrite astype_str_map, Series_str_replace_map, setitem_map by done.
  rewrite getitem_map by done. cbn [bind].
  rewrite fillna_empty_map, setitem_map by done.
  rewrite getitem_map by done. cbn [bind].
  rewrite astype_str_map, Series_str_replace_map, setitem_map by done.
  destruct l as [|x l]; [reflexivity|].
  rewrite iterrows_raise with (e := KeyError "Financial Status"); [done| |].
  - intros y _. left. unfold filtroAndreani.bucle1, row_getitem.
    by rewrite HSC, HFS.
  - exists x. split; [by left|]. unfold filtroAndreani.bucle1, row_getitem.
    by rewrite HSC, HFS.
Qed.

End por_linea.

(** X10. The column "Financial Status" is read line by line, inside the
    first loop.  A table that has the columns taken whole but not this one
    makes either processor raise KeyError on it as soon as the table has a
    line, provided the date steps, which come first, go through; with no
    line the call returns an empty table, and the panel shows a total of
    0. *)
Theorem financial_status_read_per_line {RT : Runtime} (t : DataFrame) :
  has_column (columns t) "Financial Status" = false ->
  (esquema columnas_enteras_argentina t = true ->
   (rows t = [] ->
    exists out,
      FiltroArgentina.procesar_archivo t = Ok out
      /\ rows (FiltroArgentina.ArchivoFinal out) = []
      /\ Ventana_de_estado.total (FiltroArgentina.panel out) = 0)
   /\ (rows t <> [] ->
       fechas_validas t = true ->
       FiltroArgentina.procesar_archivo t = Raise (KeyError "Financial Status")))
  /\ (esquema columnas_enteras_andreani t = true ->
      (rows t = [] ->
       exists out,
         filtroAndreani.procesar_archivo t = Ok out
         /\ rows (filtroAndreani.ArchivoFinal2 out) = [])
      /\ (rows t <> [] ->
          fecha_legible t = true ->
          filtroAndreani.procesar_archivo t = Raise (KeyError "Financial Status"))).
Proof.
  intros HFS. destruct t as [C l]. cbn [columns rows] in *.
  split; intros He.
  - assert (HC : forall c, c ∈ columnas_enteras_argentina -> has_column C c = true)
      by (intros c Hc; by apply (esquema_has _ _ _ He)).
    unfold FiltroArgentina.procesar_archivo.
    split.
    + intros ->.
      rewrite (argentina_sin_estado_financiero C HFS [] HC eq_refl).
      cbn [bind]. eexists. split; [reflexivity|]. split; reflexivity.
    + intros Hl Hfv.
      rewrite (argentina_sin_estado_financiero C HFS l HC Hfv). by destruct l.
  - assert (HC : forall c, c ∈ columnas_enteras_andreani -> has_column C c = true)
      by (intros c Hc; by apply (esquema_has _ _ _ He)).
    unfold filtroAndreani.procesar_archivo.
    split.
    + intros ->.
      rewrite (andreani_sin_estado_financiero C HFS [] HC eq_refl).
      cbn [bind]. eexists. split; reflexivity.
    + intros Hl Hleg.
      rewrite (andreani_sin_estado_financiero C HFS l HC Hleg). by destruct l.
Qed.

Lemma financial_status_read_per_line_witness :
  FiltroArgentina.procesar_archivo (RT:=runtime_ascii) ejemplo_sin_estado
  = Raise (KeyError "Financial Status").
Proof.
  apply (financial_status_read_per_line (RT:=runtime_ascii) ejemplo_sin_estado
           eq_refl).
  - reflexivity.
  - discriminate.
  - reflexivity.
Defined.

(** ** The grids uploaded by Cargar_Drive *)

Lemma data1_filas (df : DataFrame) :
  Cargar_Drive.data1 df
  = map (fun r => map (fun c => if decide (py_str (r c) = u "nan") then []
                                else py_str (r c))
                   (columns df))
      (rows df).
Proof.
  unfold Cargar_Drive.data1, Cargar_Drive.reemplazar, Cargar_Drive.values_tolist.
  rewrite map_map. apply map_ext. intros r. by rewrite map_map.
Qed.

Lemma data2_filas (df : DataFrame) :
  Cargar_Drive.data2 df
  = map (fun r =>
           map (fun c =>
                  let v := if decide (py_str (r c) = u "nan") then []
                           else py_str (r c) in
                  if decide (v = u "n") then [] else v)
             (columns df))
      (rows df).
Proof.
  unfold Cargar_Drive.data2, Cargar_Drive.reemplazar, Cargar_Drive.values_tolist.
  rewrite !map_map. apply map_ext. intros r. by rewrite !map_map.
Qed.

(** No status text is one the cleaning of the grids erases. *)
Lemma estado_no_borrado (s : pystr) :
  s ∈ estados_validos ->
  (if decide (s = u "nan") then [] else s) = s
  /\ (if decide (s = u "n") then [] else s) = s.
Proof.
  intros Hs. apply list_elem_of_In in Hs. cbn in Hs.
  repeat (destruct Hs as [<-|Hs]; [by vm_compute|]). done.
Qed.

(** X11. What [boton_cargar_archivos] hands to [cargar_excel] when the date
    steps go through, and this one uploads: one grid line per returned line and no header line; sixteen
    cells a line on the first sheet and nineteen on the sheet "Andreani";
    the status cell holds the status the rule table gives for the first
    line of the order, untouched by the cleaning of the cells; the seven
    constants of the carrier are in their cells; a missing phone, which the
    returned tables hold as the text "nan", is an empty cell on both
    sheets; and no cell uploaded is the text "nan", nor the text "n" on the
    sheet "Andreani". *)
Theorem uploaded_grids {RT : Runtime} (t : DataFrame) :
  esquema columnas_argentina t = true ->
  esquema columnas_andreani t = true ->
  notas_validas t = true ->
  fechas_validas t = true ->
  exists a b,
    boton_cargar_archivos t = Ok (a, b)
    /\ Forall2
         (fun g x =>
            exists q, primera_linea (x "Name"%string) (rows t) = Some q
                      /\ length g = 16
                      /\ g !! 9 = Some (regla q)
                      /\ (x "Shipping Phone"%string = NaN -> g !! 13 = Some []))
         (Cargar_Drive.data1 (FiltroArgentina.ArchivoFinal a)) (agrupadas (rows t))
    /\ Forall2
         (fun g x =>
            exists q, primera_linea (x "Name"%string) (rows t) = Some q
                      /\ length g = 19
                      /\ g !! 6 = Some (regla q)
                      /\ g !! 1 = Some (u "100") /\ g !! 2 = Some (u "10")
                      /\ g !! 3 = Some (u "15") /\ g !! 4 = Some (u "10")
                      /\ g !! 5 = Some (u "4500") /\ g !! 8 = Some (u ".")
                      /\ g !! 11 = Some (u "54")
                      /\ (x "Shipping Phone"%string = NaN -> g !! 12 = Some []))
         (Cargar_Drive.data2 (filtroAndreani.ArchivoFinal2 b)) (agrupadas (rows t))
    /\ (forall g v, g ∈ Cargar_Drive.data1 (FiltroArgentina.ArchivoFinal a) ->
                    v ∈ g -> v <> u "nan")
    /\ (forall g v, g ∈ Cargar_Drive.data2 (filtroAndreani.ArchivoFinal2 b) ->
                    v ∈ g -> v <> u "nan" /\ v <> u "n").
Proof.
  intros HeA HeB Hn Hfv.
  destruct (caller_tablas_finales t HeA HeB Hn Hfv)
    as (a & b & Hp & HcA & HcB & HfA & HfB).
  exists a, b. split; [exact Hp|].
  rewrite data1_filas, data2_filas, HcA, HcB.
  split; [|split; [|split]].
  - apply Forall2_fmap_l. revert HfA. apply Forall2_impl.
    intros o x (q & Hq & Ho). exists q. split; [exact Hq|].
    split; [reflexivity|].
    cbn [columnas_trabajo_argentina map]. split.
    + change (Some (if decide (py_str (o "Status"%string) = u "nan") then []
                    else py_str (o "Status"%string)) = Some (regla q)).
      rewrite Ho.
      change (esperada_argentina _ x q "Status"%string) with (Str (regla q)).
      cbn [py_str]. f_equal. apply estado_no_borrado, regla_valida.
    + intros Hph.
      change (Some (if decide (py_str (o "Shipping Phone"%string) = u "nan") then []
                    else py_str (o "Shipping Phone"%string)) = Some []).
      rewrite Ho.
      change (esperada_argentina _ x q "Shipping Phone"%string)
        with (Str (str_replace (u ".0") (py_str (x "Shipping Phone"%string)))).
      by rewrite Hph.
  - apply Forall2_fmap_l. revert HfB. apply Forall2_impl.
    intros o x (q & Hq & Ho). exists q. split; [exact Hq|].
    split; [reflexivity|].
    cbn [columnas_trabajo_andreani map].
    assert (Hcte : forall c k,
              o c = Str k -> k <> u "nan" -> k <> u "n" ->
              (let v := if decide (py_str (o c) = u "nan") then [] else py_str (o c) in
               if decide (v = u "n") then [] else v) = k).
    { intros c k -> H1 H2. cbn [py_str]. cbv zeta.
      rewrite (decide_False (P := k = u "nan")) by done.
      by rewrite decide_False. }
    split.
    { change (Some (let v := if decide (py_str (o "Status"%string) = u "nan") then []
                             else py_str (o "Status"%string) in
                    if decide (v = u "n") then [] else v) = Some (regla q)).
      rewrite Ho.
      change (esperada_andreani (normalizar x) (normalizar q) "Status"%string)
        with (Str (regla (normalizar q))).
      rewrite regla_normalizar. cbn [py_str]. cbv zeta. f_equal.
      destruct (estado_no_borrado (regla q) (regla_valida q)) as [-> ->]. done. }
    repeat split;
      try (refine (f_equal Some (Hcte _ _ _ _ _));
           [rewrite Ho; reflexivity|by vm_compute|by vm_compute]).
    intros Hph.
    change (Some (let v := if decide (py_str (o "Shipping Phone"%string) = u "nan")
                           then [] else py_str (o "Shipping Phone"%string) in
                  if decide (v = u "n") then [] else v) = Some []).
    rewrite Ho.
    change (esperada_andreani (normalizar x) (normalizar q) "Shipping Phone"%string)
      with (Str (str_replace (u ".0") (py_str (x "Shipping Phone"%string)))).
    by rewrite Hph.
  - intros g v Hg Hv.
    change (map ?f ?l) with (f <$> l) in Hg.
    apply list_elem_of_fmap in Hg as (o & -> & _).
    change (map ?f ?l) with (f <$> l) in Hv.
    apply list_elem_of_fmap in Hv as (c & -> & _).
    case_decide; [by vm_compute|done].
  - intros g v Hg Hv.
    change (map ?f ?l) with (f <$> l) in Hg.
    apply list_elem_of_fmap in Hg as (o & -> & _).
    change (map ?f ?l) with (f <$> l) in Hv.
    apply list_elem_of_fmap in Hv as (c & -> & _).
    cbv zeta. repeat case_decide; split; try done; by vm_compute.
Qed.

Lemma uploaded_grids_witness :
  exists a b,
    boton_cargar_archivos (RT:=runtime_ascii) ejemplo_lote = Ok (a, b)
    /\ length (Cargar_Drive.data1 (FiltroArgentina.ArchivoFinal a)) = 5
    /\ length (Cargar_Drive.data2 (filtroAndreani.ArchivoFinal2 b)) = 5.
Proof.
  destruct (uploaded_grids (RT:=runtime_ascii) ejemplo_lote
              eq_refl eq_refl eq_refl eq_refl) as (a & b & Hp & H1 & H2 & _).
  exists a, b. split; [exact Hp|].
  split; [exact (eq_trans (Forall2_length H1) eq_refl)
         |exact (eq_trans (Forall2_length H2) eq_refl)].
Defined.
